(** * Scout agent: tool contracts (zod schemas) and the LangGraph workflow

    A shallow embedding of
    - [tools/aisdk5.ts]  : the [ScoutTools] registry and [createAisdk5Tools];
    - [workflow.ts]      : [shouldContinue], [executeTools], the channels
                           and the edges of [createScoutWorkflow].

    JavaScript values are an inductive type, zod schemas are a small syntax
    with an interpreter [parse], promises that may reject are a state and
    exception monad over the state of the execution environment. *)

From Stdlib Require Import List String Ascii Bool Arith ZArith QArith Lia.
From Stdlib Require DecimalString.
Import ListNotations.
Close Scope Q_scope.
Open Scope string_scope.
Open Scope list_scope.
Open Scope nat_scope.

Set Implicit Arguments.
Set Warnings "-register-all".

(* ================================================================== *)
(** * JavaScript values *)
(* ================================================================== *)

Module JS.

(** Numbers are the finite doubles that JSON can carry, kept exact as
    rationals.  Objects are association lists read by first match. *)
Inductive value : Type :=
| VUndefined
| VNull
| VBool (b : bool)
| VNum (q : Q)
| VStr (s : string)
| VArr (l : list value)
| VObj (kvs : list (string * value)).

Fixpoint assoc (k : string) (kvs : list (string * value)) : option value :=
  match kvs with
  | [] => None
  | (k', v) :: rest => if String.eqb k k' then Some v else assoc k rest
  end.

(** [k in o] *)
Definition has_key (k : string) (kvs : list (string * value)) : bool :=
  match assoc k kvs with Some _ => true | None => false end.

(** [o[k]] on a value that is neither [null] nor [undefined]: a missing
    property, and any property of a primitive, reads as [undefined]. *)
Definition get (o : value) (k : string) : value :=
  match o with
  | VObj kvs => match assoc k kvs with Some v => v | None => VUndefined end
  | _ => VUndefined
  end.

Definition is_undefined (v : value) : bool :=
  match v with VUndefined => true | _ => false end.

Definition is_nullish (v : value) : bool :=
  match v with VUndefined | VNull => true | _ => false end.

(** ToBoolean *)
Definition truthy (v : value) : bool :=
  match v with
  | VUndefined | VNull => false
  | VBool b => b
  | VNum q => negb (Qeq_bool q 0)
  | VStr s => negb (String.eqb s "")
  | VArr _ | VObj _ => true
  end.

(** [a || b] *)
Definition or_else (a b : value) : value := if truthy a then a else b.

(** [Number.isInteger] *)
Definition is_integer (q : Q) : bool :=
  (Z.eqb (Qnum q mod Zpos (Qden q)) 0)%Z.

(** Strings are held as UTF-8 bytes; [s.length] counts UTF-16 code units:
    one for every character of the basic plane, two for the others. *)
Definition utf16_units (c : ascii) : nat :=
  let n := nat_of_ascii c in
  if n <? 128 then 1          (* ASCII *)
  else if n <? 192 then 0     (* continuation byte *)
  else if n <? 240 then 1     (* lead byte of a 2 or 3 byte sequence *)
  else 2.                     (* lead byte of a 4 byte sequence *)

Fixpoint js_length (s : string) : nat :=
  match s with
  | EmptyString => 0
  | String c rest => utf16_units c + js_length rest
  end.

Definition startsWith (s p : string) : bool := String.prefix p s.

Definition endsWith (s p : string) : bool :=
  let n := String.length s in
  let m := String.length p in
  (m <=? n) && String.eqb (String.substring (n - m) m s) p.

Fixpoint includes (s w : string) : bool :=
  String.prefix w s ||
  match s with
  | EmptyString => false
  | String _ rest => includes rest w
  end.

(** [Array.prototype.includes] on an array of string literals *)
Definition one_of (opts : list string) (v : value) : bool :=
  match v with
  | VStr s => existsb (String.eqb s) opts
  | _ => false
  end.

(** [v === "lit"] *)
Definition is_str (lit : string) (v : value) : bool :=
  match v with VStr s => String.eqb s lit | _ => false end.

End JS.
Import JS.

(* ================================================================== *)
(** * zod *)
(* ================================================================== *)

Module Zod.

Inductive StrCheck : Type :=
| SMin (n : nat)
| SMax (n : nat)
| SRegex (test : string -> bool)
| SEndsWith (suffix : string)
| SUrl (parses : string -> bool).

(** [.min(q)] is [NMin q true], [.positive()] is [NMin 0 false],
    [.nonnegative()] is [NMin 0 true], [.max(q)] is [NMax q true]. *)
Inductive NumCheck : Type :=
| NInt
| NMin (q : Q) (inclusive : bool)
| NMax (q : Q) (inclusive : bool).

Inductive ZodType : Type :=
| ZodString (checks : list StrCheck)
| ZodNumber (checks : list NumCheck)
| ZodBoolean
| ZodEnum (options : list string)
| ZodArray (element : ZodType) (minLength : option nat)
| ZodTuple (items : list ZodType)
| ZodObject (shape : list (string * ZodType))
| ZodUnion (options : list ZodType)
| ZodOptional (inner : ZodType)
| ZodDefault (inner : ZodType) (defaultValue : value)
| ZodEffects (inner : ZodType) (refinement : value -> bool).

Definition check_str (s : string) (c : StrCheck) : bool :=
  match c with
  | SMin n => n <=? js_length s
  | SMax n => js_length s <=? n
  | SRegex test => test s
  | SEndsWith suffix => endsWith s suffix
  | SUrl parses => parses s
  end.

Definition Qlt_bool (a b : Q) : bool := negb (Qle_bool b a).

Definition check_num (q : Q) (c : NumCheck) : bool :=
  match c with
  | NInt => is_integer q
  | NMin m inclusive => if inclusive then Qle_bool m q else Qlt_bool m q
  | NMax m inclusive => if inclusive then Qle_bool q m else Qlt_bool q m
  end.

Section Traversals.
Variable T : Type.
Variable p : T -> value -> option value.

(** every element of an array against one schema *)
Fixpoint parse_elements (t : T) (vs : list value) : option (list value) :=
  match vs with
  | [] => Some []
  | v :: vs' =>
      match p t v with
      | None => None
      | Some r => option_map (cons r) (parse_elements t vs')
      end
  end.

(** a tuple: as many elements as items, each against its own schema *)
Fixpoint parse_items (ts : list T) (vs : list value) : option (list value) :=
  match ts, vs with
  | [], [] => Some []
  | t :: ts', v :: vs' =>
      match p t v with
      | None => None
      | Some r => option_map (cons r) (parse_items ts' vs')
      end
  | _, _ => None
  end.

(** an object: the keys of the shape only (others are stripped); a key is
    written to the result when its parsed value is defined or the key was
    in the input *)
Fixpoint parse_shape (shape : list (string * T)) (kvs : list (string * value))
  : option (list (string * value)) :=
  match shape with
  | [] => Some []
  | (k, t) :: shape' =>
      match p t (get (VObj kvs) k) with
      | None => None
      | Some r =>
          match parse_shape shape' kvs with
          | None => None
          | Some out =>
              Some (if negb (is_undefined r) || has_key k kvs
                    then (k, r) :: out else out)
          end
      end
  end.

(** a union: the first option that accepts *)
Fixpoint parse_first (ts : list T) (v : value) : option value :=
  match ts with
  | [] => None
  | t :: ts' =>
      match p t v with
      | Some r => Some r
      | None => parse_first ts' v
      end
  end.
End Traversals.

Definition min_ok (minLength : option nat) (n : nat) : bool :=
  match minLength with Some m => m <=? n | None => true end.

(** [schema.safeParse(input)]: [Some data] on success, [None] when zod
    reports issues. *)
Fixpoint parse (t : ZodType) (input : value) {struct t} : option value :=
  match t with
  | ZodString checks =>
      match input with
      | VStr s => if forallb (check_str s) checks then Some input else None
      | _ => None
      end
  | ZodNumber checks =>
      match input with
      | VNum q => if forallb (check_num q) checks then Some input else None
      | _ => None
      end
  | ZodBoolean =>
      match input with VBool _ => Some input | _ => None end
  | ZodEnum options =>
      if one_of options input then Some input else None
  | ZodArray element minLength =>
      match input with
      | VArr l =>
          match parse_elements parse element l with
          | Some out => if min_ok minLength (List.length l) then Some (VArr out) else None
          | None => None
          end
      | _ => None
      end
  | ZodTuple items =>
      match input with
      | VArr l => option_map VArr (parse_items parse items l)
      | _ => None
      end
  | ZodObject shape =>
      match input with
      | VObj kvs => option_map VObj (parse_shape parse shape kvs)
      | _ => None
      end
  | ZodUnion options => parse_first parse options input
  | ZodOptional inner =>
      if is_undefined input then Some VUndefined else parse inner input
  | ZodDefault inner defaultValue =>
      parse inner (if is_undefined input then defaultValue else input)
  | ZodEffects inner refinement =>
      match parse inner input with
      | Some data => if refinement data then Some data else None
      | None => None
      end
  end.

Definition accepts (t : ZodType) (input : value) : bool :=
  match parse t input with Some _ => true | None => false end.

End Zod.
Import Zod.

(* ================================================================== *)
(** * Exceptions, promises and JSON text *)
(* ================================================================== *)

Module Promise.

(** What is thrown or what a promise rejects with: an [Error] object, by
    its [name] and its [message]. *)
Record exn : Type := Error { name : string; message : string }.

(** thrown by LangChain when the input of a structured tool does not parse *)
Definition ToolInputParsingException : exn :=
  Error "ToolInputParsingException"
        "Received tool input did not match expected schema".

(** reading a property of [null] or [undefined] *)
Definition TypeError (what property : string) : exn :=
  Error "TypeError"
        ("Cannot read properties of " ++ what ++ " (reading '" ++ property ++ "')").

Definition SyntaxError : exn := Error "SyntaxError" "Unexpected token".

Inductive Result (A : Type) : Type :=
| Ok (a : A)
| Throw (e : exn).
Arguments Ok {A} a.
Arguments Throw {A} e.

Definition bindR {A B} (r : Result A) (k : A -> Result B) : Result B :=
  match r with
  | Ok a => k a
  | Throw e => Throw e
  end.

(** [o.k]: a [TypeError] on [null] and [undefined] *)
Definition prop (o : value) (k : string) : Result value :=
  match o with
  | VNull => Throw (TypeError "null" k)
  | VUndefined => Throw (TypeError "undefined" k)
  | _ => Ok (get o k)
  end.

(** An [async] computation over the state [W] of the world outside (the
    execution environment, the model): it settles with a value or rejects,
    and leaves the world in a new state. *)
Definition Async (W A : Type) : Type := W -> Result A * W.

Definition ret {W A} (a : A) : Async W A := fun w => (Ok a, w).

Definition throw {W A} (e : exn) : Async W A := fun w => (Throw e, w).

Definition bind {W A B} (m : Async W A) (k : A -> Async W B) : Async W B :=
  fun w =>
    match m w with
    | (Ok a, w') => k a w'
    | (Throw e, w') => (Throw e, w')
    end.

Definition try_catch {W A} (m : Async W A) (handler : exn -> Async W A) : Async W A :=
  fun w =>
    match m w with
    | (Ok a, w') => (Ok a, w')
    | (Throw e, w') => handler e w'
    end.

Definition lift {W A} (r : Result A) : Async W A := fun w => (r, w).

End Promise.
Import Promise.

Declare Scope async_scope.
Delimit Scope async_scope with async.
Notation "'await' x <- m ; k" := (bind m (fun x => k))
  (at level 61, x name, m at next level, right associativity) : async_scope.
Notation "'try' x <- r ; k" := (bindR r (fun x => k))
  (at level 61, x name, r at next level, right associativity) : async_scope.
Open Scope async_scope.

Module JSON.

(** What [JSON.stringify] makes of a value that is not [undefined]: a key
    whose value is [undefined] is left out, an [undefined] array element
    becomes [null]. *)
Fixpoint document (v : value) : value :=
  match v with
  | VArr l => VArr (List.map (fun x => if is_undefined x then VNull else document x) l)
  | VObj kvs =>
      VObj ((fix members (kvs : list (string * value)) :=
               match kvs with
               | [] => []
               | (k, x) :: rest =>
                   if is_undefined x then members rest
                   else (k, document x) :: members rest
               end) kvs)
  | _ => v
  end.

(** What a tool hands back.  A string of JSON text is represented by the
    document it denotes; anything else ([undefined], text that is not JSON)
    is kept as it is. *)
Inductive raw : Type :=
| Text (denotes : value)
| NotJSON (v : value).

(** [JSON.stringify(v)]: [undefined] for [undefined], else the text of [v] *)
Definition stringify (v : value) : raw :=
  if is_undefined v then NotJSON VUndefined else Text (document v).

(** [JSON.parse(raw as string)] *)
Definition parse (r : raw) : Result value :=
  match r with
  | Text d => Ok d
  | NotJSON _ => Throw SyntaxError
  end.

(** the value of [raw] itself, for the [{ raw }] of the [catch]: that runs
    only where [raw] was not JSON text, so a text is never asked for as a
    string *)
Definition as_value (r : raw) : value :=
  match r with
  | Text d => d
  | NotJSON v => v
  end.

End JSON.

(* ================================================================== *)
(** * @langchain/core/tools *)
(* ================================================================== *)

Module LangChain.

Record DynamicStructuredTool (W : Type) : Type :=
  { name : string;
    description : string;
    schema : ZodType;
    func : value -> Async W JSON.raw }.

(** [_isToolCall(v)]: an object whose [type] is ["tool_call"] *)
Definition isToolCall (v : value) : bool :=
  match v with
  | VObj _ => is_str "tool_call" (get v "type")
  | _ => false
  end.

(** The [ToolMessage] that stands for the output of a call that came with
    an id, by its [tool_call_id] and its content (the text; the empty
    string for [undefined]): an object, so not JSON text. *)
Definition ToolMessage (content : JSON.raw) (tool_call_id : value) : value :=
  VObj [("content",
         match content with
         | JSON.Text d => d
         | JSON.NotJSON VUndefined => VStr ""
         | JSON.NotJSON v => v
         end);
        ("tool_call_id", tool_call_id)].

(** [invoke]: an argument that is a tool call stands for its [args] *)
Definition toolInput (arg : value) : value :=
  if isToolCall arg then get arg "args" else arg.

(** [call]: and so once more for what [invoke] hands on *)
Definition inputForValidation (arg : value) : value :=
  if isToolCall (toolInput arg) then get (toolInput arg) "args"
  else toolInput arg.

(** the id of the call that [config.toolCall] holds, when it is a string *)
Definition config_toolCall_id (arg : value) : value :=
  if isToolCall arg then
    match get arg "id" with
    | VStr id => VStr id
    | _ => VUndefined
    end
  else VUndefined.

Definition toolCallId (arg : value) : value :=
  or_else (if isToolCall (toolInput arg) then get (toolInput arg) "id"
           else VUndefined)
          (config_toolCall_id arg).

(** [tool.invoke(arg)], as [StructuredTool.invoke] and [StructuredTool.call]
    do it.  What is left of the argument is parsed with the schema of the
    tool.  When it does not parse a [ToolInputParsingException] is thrown
    and [func] is not called, else [func] runs on the parsed (defaulted,
    stripped) data.  The output is what [func] gave, or a [ToolMessage]
    around it when the call came with an id. *)
Definition invoke {W} (tool : DynamicStructuredTool W) (arg : value)
  : Async W JSON.raw :=
  match Zod.parse (schema tool) (inputForValidation arg) with
  | None => throw ToolInputParsingException
  | Some parsed =>
      await content <- func tool parsed;
      if truthy (toolCallId arg)
      then ret (JSON.NotJSON (ToolMessage content (toolCallId arg)))
      else ret content
  end.

End LangChain.

(* ================================================================== *)
(** * tools/aisdk5.ts: the Scout tool schemas *)
(* ================================================================== *)

Module Aisdk5.

Definition int : NumCheck := NInt.
Definition min (z : Z) : NumCheck := NMin (inject_Z z) true.
Definition max (z : Z) : NumCheck := NMax (inject_Z z) true.
Definition positive : NumCheck := NMin (inject_Z 0) false.
Definition nonnegative : NumCheck := NMin (inject_Z 0) true.

(** ** Regular expressions of the file, as tests on the string *)

(** [/^\/(?:project\/workspace|home\/scrapybara)\/.*/] *)
Definition AbsolutePath_re (s : string) : bool :=
  String.prefix "/project/workspace/" s || String.prefix "/home/scrapybara/" s.

(** the class [[a-zA-Z0-9_.-]] *)
Definition repo_char (c : ascii) : bool :=
  let n := nat_of_ascii c in
  ((97 <=? n) && (n <=? 122)) || ((65 <=? n) && (n <=? 90)) ||
  ((48 <=? n) && (n <=? 57)) || (n =? 95) || (n =? 46) || (n =? 45).

Fixpoint all_chars (f : ascii -> bool) (s : string) : bool :=
  match s with
  | EmptyString => true
  | String c rest => f c && all_chars f rest
  end.

(** the text before and after the first [/] *)
Fixpoint split_slash (s : string) : option (string * string) :=
  match s with
  | EmptyString => None
  | String c rest =>
      if Ascii.eqb c "/"%char then Some (EmptyString, rest)
      else match split_slash rest with
           | Some (a, b) => Some (String c a, b)
           | None => None
           end
  end.

Definition nonempty (s : string) : bool := negb (String.eqb s "").

(** [/^[a-zA-Z0-9_.-]+\/[a-zA-Z0-9_.-]+$/] *)
Definition RepoFormat_re (s : string) : bool :=
  match split_slash s with
  | Some (owner, repo) =>
      nonempty owner && all_chars repo_char owner &&
      nonempty repo && all_chars repo_char repo
  | None => false
  end.

(** [\s] at the head of a string of UTF-8 bytes: tab, line feed, vertical
    tab, form feed, carriage return, space, U+00A0, U+1680, U+2000 to
    U+200A, U+2028, U+2029, U+202F, U+205F, U+3000 and U+FEFF. *)
Definition starts_with_space (s : string) : bool :=
  match List.map nat_of_ascii (list_ascii_of_string s) with
  | 194 :: 160 :: _ => true
  | 225 :: 154 :: 128 :: _ => true
  | 226 :: 128 :: b :: _ =>
      ((128 <=? b) && (b <=? 138)) || (b =? 168) || (b =? 169) || (b =? 175)
  | 226 :: 129 :: 159 :: _ => true
  | 227 :: 128 :: 128 :: _ => true
  | 239 :: 187 :: 191 :: _ => true
  | b :: _ => ((9 <=? b) && (b <=? 13)) || (b =? 32)
  | [] => false
  end.

Fixpoint drop (n : nat) (s : string) : string :=
  match n, s with
  | S n', String _ rest => drop n' rest
  | _, _ => s
  end.

(** [/^(find|grep|cat|head|tail|ls)(\s|$)/] *)
Definition reserved_command_re (c : string) : bool :=
  existsb
    (fun w =>
       String.prefix w c &&
       (let rest := drop (String.length w) c in
        String.eqb rest "" || starts_with_space rest))
    ["find"; "grep"; "cat"; "head"; "tail"; "ls"].

(** [a === b] on primitives *)
Definition strict_eq (a b : value) : bool :=
  match a, b with
  | VUndefined, VUndefined => true
  | VNull, VNull => true
  | VBool x, VBool y => Bool.eqb x y
  | VNum x, VNum y => Qeq_bool x y
  | VStr x, VStr y => String.eqb x y
  | _, _ => false
  end.

(** ** Helpers *)

Definition AbsolutePath : ZodType :=
  ZodString [SRegex AbsolutePath_re].
Definition PngPath : ZodType :=
  ZodString [SRegex AbsolutePath_re; SEndsWith ".png"].
Definition RepoFormat : ZodType :=
  ZodString [SRegex RepoFormat_re].

(** ** Enums *)

Definition AspectRatio := ZodEnum ["square"; "landscape"; "portrait"].
Definition DateRange :=
  ZodEnum ["all"; "past_hour"; "past_day"; "past_week"; "past_month"; "past_year"].
Definition TemplateType := ZodEnum ["website"; "presentation"].
Definition PRAction := ZodEnum ["create"; "update"].
Definition SocialNetwork := ZodEnum ["twitter"; "bluesky"].
Definition ComputerAction :=
  ZodEnum ["key"; "hold_key"; "type"; "cursor_position"; "mouse_move";
           "left_mouse_down"; "left_mouse_up"; "left_click"; "left_click_drag";
           "right_click"; "middle_click"; "double_click"; "triple_click";
           "scroll"; "wait"; "screenshot"].
Definition ScrollDirection := ZodEnum ["up"; "down"; "left"; "right"].
Definition TaskStatus :=
  ZodEnum ["pending"; "in_progress"; "completed"; "cancelled"].
Definition LSPOperation :=
  ZodEnum ["definitions"; "references"; "hover"; "symbols";
           "workspace-symbols"; "diagnostics"].
Definition Language :=
  ZodEnum ["python"; "typescript"; "javascript"; "java"; "rust"; "csharp";
           "go"; "dart"; "ruby"; "kotlin"; "cpp"].

(** ** Complex types *)

Definition EditOperation : ZodType :=
  ZodEffects
    (ZodObject
       [("old_string", ZodString [SMin 1]);
        ("new_string", ZodString []);
        ("replace_all", ZodDefault (ZodOptional ZodBoolean) (VBool false))])
    (fun data => negb (strict_eq (get data "old_string") (get data "new_string"))).

(** Screen resolution constraints (1024x768) *)
Definition Coordinate : ZodType :=
  ZodTuple
    [ZodNumber [int; min 0; max 1024];   (* X coordinate *)
     ZodNumber [int; min 0; max 768]].   (* Y coordinate *)

Definition InputQuestion : ZodType :=
  ZodObject
    [("type", ZodEnum ["text"; "number"; "date"]);
     ("question", ZodString [SMin 1]);
     ("placeholder", ZodOptional (ZodUnion [ZodString []; ZodNumber []]));
     ("suggestions", ZodOptional (ZodArray (ZodString []) None))].

Definition SelectOption : ZodType :=
  ZodObject
    [("emoji", ZodString [SMin 1; SMax 4]);
     ("title", ZodString [SMin 1]);
     ("prompt", ZodString [SMin 1])].

Definition Task : ZodType :=
  ZodObject
    [("id", ZodString [SMin 1]);
     ("title", ZodString [SMin 1]);
     ("status", TaskStatus)].

(** ** The refinements of the user interface tools *)

Definition computer_refinement (data : value) : bool :=
  if one_of ["mouse_move"; "left_click"; "right_click"; "middle_click";
             "double_click"; "triple_click"] (get data "action")
     && negb (truthy (get data "coordinate"))
  then false
  else if is_str "left_click_drag" (get data "action")
          && (negb (truthy (get data "coordinate"))
              || negb (truthy (get data "start_coordinate")))
  then false
  else if one_of ["type"; "key"] (get data "action")
          && negb (truthy (get data "text"))
  then false
  else if is_str "hold_key" (get data "action")
          && (negb (truthy (get data "text"))
              || is_undefined (get data "duration"))
  then false
  else if is_str "wait" (get data "action")
          && is_undefined (get data "duration")
  then false
  else if is_str "scroll" (get data "action")
          && (negb (truthy (get data "scroll_direction"))
              || is_undefined (get data "scroll_amount"))
  then false
  else true.

Definition computer_parameters : ZodType :=
  ZodEffects
    (ZodObject
       [("action", ComputerAction);
        ("coordinate", ZodOptional Coordinate);
        ("text", ZodOptional (ZodString []));
        ("duration", ZodOptional (ZodNumber [positive]));
        ("scroll_direction", ZodOptional ScrollDirection);
        ("scroll_amount", ZodOptional (ZodNumber [int; positive]));
        ("start_coordinate", ZodOptional Coordinate)])
    computer_refinement.

Definition message_update_parameters : ZodType :=
  ZodObject
    [("message", ZodString [SMin 1]);
     ("status", ZodString [SMin 1]);
     ("status_emoji", ZodString [SMin 1; SMax 4])].

Definition message_ask_parameters : ZodType :=
  ZodEffects
    (ZodEffects
       (ZodObject
          [("message", ZodString [SMin 1]);
           ("attachment", ZodOptional AbsolutePath);
           ("follow_ups_input", ZodOptional (ZodArray InputQuestion (Some 2)));
           ("follow_ups_select", ZodOptional (ZodArray SelectOption (Some 2)))])
       (fun data =>
          negb (truthy (get data "follow_ups_input")
                && truthy (get data "follow_ups_select"))))
    (fun data =>
       truthy (or_else (get data "follow_ups_input") (get data "follow_ups_select"))).

(** [data.tasks.filter((t) => t.status === 'in_progress').length] *)
Definition in_progress_count (tasks : value) : nat :=
  match tasks with
  | VArr ts => List.length (filter (fun t => is_str "in_progress" (get t "status")) ts)
  | _ => 0
  end.

Definition todo_parameters : ZodType :=
  ZodEffects
    (ZodObject
       [("tasks", ZodArray Task (Some 1));
        ("request_user_approval", ZodDefault (ZodOptional ZodBoolean) (VBool false))])
    (fun data => in_progress_count (get data "tasks") <=? 1).

(** ** The other contracts of [ScoutTools] *)

Definition ls_parameters : ZodType :=
  ZodObject
    [("path", AbsolutePath);
     ("ignore", ZodOptional (ZodArray (ZodString []) None))].

Definition read_parameters : ZodType :=
  ZodObject
    [("file_path", AbsolutePath);
     ("offset", ZodOptional (ZodNumber [int; positive]));   (* 1-indexed *)
     ("limit", ZodOptional (ZodNumber [int; positive]))].

Definition glob_parameters : ZodType :=
  ZodObject
    [("pattern", ZodString [SMin 1]);
     ("path", ZodOptional AbsolutePath)].

Definition grep_parameters : ZodType :=
  ZodObject
    [("pattern", ZodString [SMin 1]);
     ("include", ZodOptional (ZodString []));
     ("path", ZodOptional AbsolutePath)].

Definition edit_parameters : ZodType :=
  ZodObject
    [("file_path", AbsolutePath);
     ("edits", ZodArray EditOperation (Some 1))].

Definition write_parameters : ZodType :=
  ZodObject
    [("file_path", AbsolutePath);
     ("content", ZodString [])].

Definition restricted_words : list string :=
  ["graph"; "chart"; "diagram"; "wireframe"; "mockup"; "flowchart";
   "ui design"; "sitemap"; "plot"; "mind map"].

(** [toLowerCase] is the engine's [String.prototype.toLowerCase]. *)
Definition image_generate_parameters (toLowerCase : string -> string) : ZodType :=
  ZodObject
    [("path", PngPath);
     ("prompt",
      ZodEffects (ZodString [SMin 1])
        (fun p =>
           match p with
           | VStr p =>
               negb (existsb (fun word => includes (toLowerCase p) word)
                       restricted_words)
           | _ => false
           end));
     ("aspect_ratio", AspectRatio);
     ("referenceImagePaths", ZodOptional (ZodArray AbsolutePath None));
     ("transparency", ZodDefault (ZodOptional ZodBoolean) (VBool false));
     ("include_text", ZodDefault (ZodOptional ZodBoolean) (VBool false))].

Definition image_edit_parameters : ZodType :=
  ZodObject
    [("imagePaths", ZodArray AbsolutePath (Some 1));
     ("prompt", ZodString [SMin 1]);
     ("outputPath", PngPath);
     ("transparency", ZodDefault (ZodOptional ZodBoolean) (VBool false))].

Definition image_search_parameters : ZodType :=
  ZodObject
    [("query", ZodString [SMin 1]);
     ("count",
      ZodDefault (ZodOptional (ZodNumber [int; min 5; max 10]))
        (VNum (inject_Z 5)))].

Definition web_search_parameters : ZodType :=
  ZodObject
    [("query", ZodString [SMin 1]);
     ("dateRange", ZodDefault (ZodOptional DateRange) (VStr "all"))].

(** [URL_parses s] says that [new URL(s)] does not throw. *)
Definition browser_navigate_parameters (URL_parses : string -> bool) : ZodType :=
  ZodObject
    [("url", ZodString [SUrl URL_parses]);
     ("rawHtml", ZodDefault (ZodOptional ZodBoolean) (VBool false))].

Definition web_download_parameters (URL_parses : string -> bool) : ZodType :=
  ZodObject
    [("url", ZodString [SUrl URL_parses]);
     ("path", AbsolutePath)].

Definition bash_run_parameters : ZodType :=
  ZodObject
    [("command",
      ZodEffects (ZodString [SMin 1])
        (fun c =>
           match c with
           | VStr c => negb (reserved_command_re c)
           | _ => false
           end));
     ("description", ZodString [SMin 5; SMax 150]);
     ("timeout",
      ZodDefault (ZodOptional (ZodNumber [int; min 1; max 600]))
        (VNum (inject_Z 10)))].

Definition bash_command_check_parameters : ZodType :=
  ZodObject [("command_id", ZodNumber [int; positive])].

Definition code_template_parameters : ZodType :=
  ZodObject
    [("name", ZodString [SMin 1]);
     ("type", ZodDefault (ZodOptional TemplateType) (VStr "website"))].

Definition download_project_file_parameters : ZodType :=
  ZodObject
    [("filename", ZodString [SMin 1]);
     ("destination", ZodOptional AbsolutePath)].

Definition github_pr_parameters : ZodType :=
  ZodObject
    [("title", ZodString [SMin 1]);
     ("summary", ZodString [SMin 1]);
     ("branchName", ZodString [SMin 1]);
     ("repo", RepoFormat);
     ("action", PRAction)].

Definition socials_search_parameters : ZodType :=
  ZodEffects
    (ZodObject
       [("network", ZodDefault (ZodOptional SocialNetwork) (VStr "twitter"));
        ("query", ZodOptional (ZodString []));
        ("username",
         ZodEffects (ZodOptional (ZodString []))
           (fun u =>
              negb (truthy u) ||
              match u with
              | VStr u => negb (startsWith u "@")
              | _ => false
              end))])
    (fun data => truthy (or_else (get data "query") (get data "username"))).

Definition lsp_refinement (data : value) : bool :=
  let requiresPosition :=
    one_of ["definitions"; "references"; "hover"] (get data "operation") in
  let requiresFile :=
    one_of ["symbols"; "diagnostics"] (get data "operation") || requiresPosition in
  let requiresQuery := is_str "workspace-symbols" (get data "operation") in
  if requiresPosition
     && (is_undefined (get data "line")
         || is_undefined (get data "column")
         || negb (truthy (get data "file_path")))
  then false
  else if requiresFile && negb (truthy (get data "file_path")) then false
  else if requiresQuery && negb (truthy (get data "query")) then false
  else true.

Definition lsp_parameters : ZodType :=
  ZodEffects
    (ZodObject
       [("operation", LSPOperation);
        ("file_path", ZodOptional AbsolutePath);
        ("line", ZodOptional (ZodNumber [int; nonnegative]));     (* 0-based *)
        ("column", ZodOptional (ZodNumber [int; nonnegative]));   (* 0-based *)
        ("query", ZodOptional (ZodString []));
        ("language", ZodOptional Language);
        ("repo_root", ZodOptional AbsolutePath);
        ("verbose", ZodDefault (ZodOptional ZodBoolean) (VBool false))])
    lsp_refinement.

Definition read_agent_parameters : ZodType :=
  ZodObject
    [("task", ZodString [SMin 1]);
     ("description", ZodString [SMin 1])].

Definition handoff_parameters : ZodType :=
  ZodObject
    [("primary_request", ZodString [SMin 1]);
     ("reason", ZodString [SMin 1]);
     ("key_topics", ZodString [SMin 1]);
     ("files_and_resources", ZodString [SMin 1]);
     ("problem_solving", ZodString [SMin 1]);
     ("current_task", ZodString [SMin 1]);
     ("next_step", ZodString [SMin 1]);
     ("errors_and_fixes", ZodOptional (ZodString []))].

Definition github_command_parameters : ZodType :=
  ZodObject
    [("command", ZodString [SMin 1]);
     ("description", ZodString [SMin 1]);
     ("repo", RepoFormat)].

Record ToolDefinition : Type :=
  { description : string; parameters : ZodType }.

(** [ScoutTools], in the order of [Object.entries] *)
Definition ScoutTools (URL_parses : string -> bool) (toLowerCase : string -> string)
  : list (string * ToolDefinition) :=
  [ ("ls", {| description := "Directory listing tool for exploring file system structure.";
              parameters := ls_parameters |});
    ("read", {| description := "File content reader with multimodal support.";
                parameters := read_parameters |});
    ("glob", {| description := "File pattern matching tool.";
                parameters := glob_parameters |});
    ("grep", {| description := "Content search tool with regex support.";
                parameters := grep_parameters |});
    ("edit", {| description := "Precise file content editor. Performs exact string replacements atomically.";
                parameters := edit_parameters |});
    ("write", {| description := "File creation and overwrite tool.";
                 parameters := write_parameters |});
    ("image_generate", {| description := "AI image generation tool.";
                          parameters := image_generate_parameters toLowerCase |});
    ("image_edit", {| description := "AI image editing tool.";
                      parameters := image_edit_parameters |});
    ("image_search", {| description := "Web image search engine.";
                        parameters := image_search_parameters |});
    ("web_search", {| description := "Web search engine for up-to-date information.";
                      parameters := web_search_parameters |});
    ("browser_navigate", {| description := "Web browser navigation tool.";
                            parameters := browser_navigate_parameters URL_parses |});
    ("web_download", {| description := "File download tool from web sources.";
                        parameters := web_download_parameters URL_parses |});
    ("bash_run", {| description := "Shell command execution tool.";
                    parameters := bash_run_parameters |});
    ("bash_command_check", {| description := "Background command status checker.";
                              parameters := bash_command_check_parameters |});
    ("code_template", {| description := "Project template initialization tool.";
                         parameters := code_template_parameters |});
    ("download_project_file", {| description := "Project file downloader.";
                                 parameters := download_project_file_parameters |});
    ("github_pr", {| description := "GitHub pull request creator/updater.";
                     parameters := github_pr_parameters |});
    ("socials_search", {| description := "Social media search tool (X/Twitter or Bluesky).";
                          parameters := socials_search_parameters |});
    ("computer", {| description := "Mouse and keyboard interface tool. Screen resolution is 1024x768.";
                    parameters := computer_parameters |});
    ("message_update", {| description := "User progress update tool (Non-blocking).";
                          parameters := message_update_parameters |});
    ("message_ask", {| description := "User question and task completion tool (BLOCKS EXECUTION).";
                       parameters := message_ask_parameters |});
    ("todo", {| description := "Task management tool.";
                parameters := todo_parameters |});
    ("lsp", {| description := "Language Server Protocol (LSP) interface tool.";
               parameters := lsp_parameters |});
    ("read_agent", {| description := "Sub-agent execution tool for read-only tasks.";
                      parameters := read_agent_parameters |});
    ("handoff", {| description := "Context management tool. Resets context and hands off to a fresh agent.";
                   parameters := handoff_parameters |});
    ("github_command", {| description := "GitHub CLI and Git command execution tool.";
                          parameters := github_command_parameters |}) ].

(** ** [createAisdk5Tools] *)

Section CreateTools.
Variable W : Type.
Variable URL_parses : string -> bool.
Variable toLowerCase : string -> string.

(** [environmentApi.executeTool(tool, input)]; a rejection carries an
    [Error], as those of [HttpEnvironment] do. *)
Variable executeTool : string -> value -> Async W value.

(** The body of [func]; the [console.log] leaves no trace in the result. *)
Definition tool_func (toolName : string) (input : value) : Async W JSON.raw :=
  try_catch
    (await result <- executeTool toolName input;
     ret (JSON.stringify result))
    (fun error =>
       ret (JSON.stringify
              (VObj [("error", VStr (message error));
                     ("tool", VStr toolName);
                     ("input", input);
                     ("status", VStr "FAILURE")]))).

Definition createAisdk5Tools : list (LangChain.DynamicStructuredTool W) :=
  List.map
    (fun entry =>
       let '(toolName, definition) := entry in
       {| LangChain.name := toolName;
          LangChain.description := description definition;
          LangChain.schema := parameters definition;
          LangChain.func := tool_func toolName |})
    (ScoutTools URL_parses toLowerCase).
End CreateTools.

End Aisdk5.

(* ================================================================== *)
(** * workflow.ts: the graph of the agent *)
(* ================================================================== *)

Module Workflow.

Inductive ContentPart : Type :=
| text_part (text : string)
| image_url_part (url : string) (detail : string).

Inductive MessageContent : Type :=
| plain (text : string)
| parts (content : list ContentPart).

Inductive BaseMessage : Type :=
| Message (role : string) (content : MessageContent).

Definition HumanMessage (content : MessageContent) : BaseMessage :=
  Message "human" content.

Record AgentToolCall : Type :=
  { name : string; args : value }.

Record AgentOutcome : Type :=
  { tool_calls : option (list AgentToolCall) }.

Record UiStatus : Type :=
  { message : string; status : string; emoji : string }.

(** A field that may be [undefined] is an [option], or a [value] where the
    code stores a JavaScript value as it comes. *)
Record AgentState : Type :=
  { chat_history : list BaseMessage;
    agentOutcome : option AgentOutcome;
    latest_screenshot : value;
    current_ui_status : option UiStatus;
    current_todo_list : value }.

(** [Partial<AgentState>]: [None] is a key that is not in the object. *)
Record PartialAgentState : Type :=
  { chat_history' : option (list BaseMessage);
    agentOutcome' : option AgentOutcome;
    latest_screenshot' : option value;
    current_ui_status' : option UiStatus;
    current_todo_list' : option value }.

Definition empty_update : PartialAgentState :=
  {| chat_history' := None; agentOutcome' := None; latest_screenshot' := None;
     current_ui_status' := None; current_todo_list' := None |}.

Record ToolOutput : Type :=
  { toolName : string; result : value; input : value }.

Inductive Route : Type := continue | end_.

Definition shouldContinue (state : AgentState) : Route :=
  match agentOutcome state with
  | Some outcome =>
      match tool_calls outcome with
      | Some calls => if List.length calls =? 0 then end_ else continue
      | None => end_
      end
  | None => end_
  end.

(** ** The functions passed as the channels of the state graph *)

Definition chat_history_channel (left right : option (list BaseMessage))
  : list BaseMessage :=
  match left with Some l => l | None => [] end ++
  match right with Some r => r | None => [] end.

Definition agentOutcome_channel (_left right : option AgentOutcome)
  : option AgentOutcome := right.

Definition latest_screenshot_channel (_left right : value) : value := right.

Definition current_ui_status_channel (_left right : option UiStatus)
  : option UiStatus := right.

Definition current_todo_list_channel (_left right : value) : value := right.

(** What the compiled graph does with the update a node returns.
    [StateGraph] makes a reducing channel of an object that holds the
    function (under [reducer] or [value]); a channel given as a bare
    function, as the five above are, becomes a last-value channel and the
    function is never called.  So a key of the update replaces the value of
    its channel, and the other channels keep theirs. *)
Definition apply_update (state : AgentState) (update : PartialAgentState)
  : AgentState :=
  {| chat_history :=
       match chat_history' update with
       | Some written => written
       | None => chat_history state
       end;
     agentOutcome :=
       match agentOutcome' update with
       | Some written => Some written
       | None => agentOutcome state
       end;
     latest_screenshot :=
       match latest_screenshot' update with
       | Some written => written
       | None => latest_screenshot state
       end;
     current_ui_status :=
       match current_ui_status' update with
       | Some written => Some written
       | None => current_ui_status state
       end;
     current_todo_list :=
       match current_todo_list' update with
       | Some written => written
       | None => current_todo_list state
       end |}.

(** ** The nodes and edges *)

Inductive Node : Type := agent_node | tools_node | END.

Definition START_edge : Node := agent_node.

(** [addConditionalEdges("agent", shouldContinue, {continue: "tools", end: END})] *)
Definition after_agent (state : AgentState) : Node :=
  match shouldContinue state with
  | continue => tools_node
  | end_ => END
  end.

(** [addEdge("tools", "agent")] *)
Definition after_tools : Node := agent_node.

Section Graph.
Variable W : Type.

(** the engine's conversion of a number to a string *)
Variable Number_toString : Q -> string.

Definition join (sep : string) (l : list string) : string :=
  match l with
  | [] => ""
  | x :: rest => fold_left (fun acc y => (acc ++ sep ++ y)%string) rest x
  end.

(** [String(v)], and [v] inside a template literal *)
Fixpoint String_ (v : value) : string :=
  match v with
  | VUndefined => "undefined"
  | VNull => "null"
  | VBool b => if b then "true" else "false"
  | VNum q => Number_toString q
  | VStr s => s
  | VArr l => join "," (List.map (fun x => if is_nullish x then "" else String_ x) l)
  | VObj _ => "[object Object]"
  end.

(** the model behind [agent.invoke] *)
Variable agent : list BaseMessage -> Async W AgentOutcome.

Definition runAgent (state : AgentState) : Async W PartialAgentState :=
  await response <- agent (chat_history state);
  ret {| chat_history' := None; agentOutcome' := Some response;
         latest_screenshot' := None; current_ui_status' := None;
         current_todo_list' := None |}.

Variable tools : list (LangChain.DynamicStructuredTool W).

(** The first loop of [executeTools]; [outputs] is the array built so far. *)
Fixpoint run_calls (actions : list AgentToolCall) (outputs : list ToolOutput)
  : Async W (list ToolOutput) :=
  match actions with
  | [] => ret outputs
  | call :: rest =>
      match find (fun t => String.eqb (LangChain.name t) (name call)) tools with
      | None => run_calls rest outputs
      | Some tool =>
          await raw <- LangChain.invoke tool (args call);
          let parsed :=
            match JSON.parse raw with
            | Ok document => document
            | Throw _ => VObj [("raw", JSON.as_value raw)]
            end in
          run_calls rest
            (outputs ++ [{| toolName := name call; result := parsed;
                            input := args call |}])
      end
  end.

Definition observation (output : ToolOutput) (screenshot action : value)
  : BaseMessage :=
  HumanMessage
    (parts
       [text_part ("[System Observation] Screenshot after action: "
                     ++ String_ action)%string;
        image_url_part ("data:image/png;base64," ++ String_ screenshot)%string
                       "high"]).

(** One turn of the second loop on [newState] and [multimodalMessages]. *)
Definition fold_output (acc : PartialAgentState * list BaseMessage)
           (output : ToolOutput)
  : Result (PartialAgentState * list BaseMessage) :=
  let '(newState, multimodalMessages) := acc in
  try has_screenshot <-
    (if String.eqb (toolName output) "computer"
     then try shot <- prop (result output) "screenshot"; Ok (truthy shot)
     else Ok false);
  if has_screenshot then
    try screenshot <- prop (result output) "screenshot";
    try action <- prop (input output) "action";
    Ok ({| chat_history' := chat_history' newState;
           agentOutcome' := agentOutcome' newState;
           latest_screenshot' := Some screenshot;
           current_ui_status' := current_ui_status' newState;
           current_todo_list' := current_todo_list' newState |},
        multimodalMessages ++ [observation output screenshot action])
  else if String.eqb (toolName output) "message_update" then
    try m <- prop (input output) "message";
    try s <- prop (input output) "status";
    try e <- prop (input output) "status_emoji";
    Ok ({| chat_history' := chat_history' newState;
           agentOutcome' := agentOutcome' newState;
           latest_screenshot' := latest_screenshot' newState;
           current_ui_status' :=
             Some {| message := String_ m; status := String_ s;
                     emoji := String_ e |};
           current_todo_list' := current_todo_list' newState |},
        multimodalMessages)
  else if String.eqb (toolName output) "todo" then
    try tasks <- prop (input output) "tasks";
    Ok ({| chat_history' := chat_history' newState;
           agentOutcome' := agentOutcome' newState;
           latest_screenshot' := latest_screenshot' newState;
           current_ui_status' := current_ui_status' newState;
           current_todo_list' := Some tasks |},
        multimodalMessages)
  else Ok acc.

Fixpoint fold_outputs (outputs : list ToolOutput)
         (acc : PartialAgentState * list BaseMessage)
  : Result (PartialAgentState * list BaseMessage) :=
  match outputs with
  | [] => Ok acc
  | output :: rest =>
      try acc' <- fold_output acc output;
      fold_outputs rest acc'
  end.

(** after the loops: the history is written only when there are
    observations *)
Definition finish (state : AgentState)
           (acc : PartialAgentState * list BaseMessage) : PartialAgentState :=
  let '(newState, multimodalMessages) := acc in
  if List.length multimodalMessages =? 0 then newState
  else {| chat_history' := Some (chat_history state ++ multimodalMessages);
          agentOutcome' := agentOutcome' newState;
          latest_screenshot' := latest_screenshot' newState;
          current_ui_status' := current_ui_status' newState;
          current_todo_list' := current_todo_list' newState |}.

Definition actions_of (state : AgentState) : list AgentToolCall :=
  match agentOutcome state with
  | Some outcome =>
      match tool_calls outcome with
      | Some calls => calls
      | None => []
      end
  | None => []
  end.

Definition executeTools (state : AgentState) : Async W PartialAgentState :=
  await outputs <- run_calls (actions_of state) [];
  await acc <- lift (fold_outputs outputs (empty_update, []));
  ret (finish state acc).

(** ** Runs of the compiled graph *)

Definition config : Type := Node * AgentState * W.

(** One super-step: the node runs, its update is merged, the edge is
    taken.  A node that rejects ends the run with no step. *)
Inductive step : config -> config -> Prop :=
| step_agent state w update w' :
    runAgent state w = (Ok update, w') ->
    step (agent_node, state, w)
         (after_agent (apply_update state update), apply_update state update, w')
| step_tools state w update w' :
    executeTools state w = (Ok update, w') ->
    step (tools_node, state, w)
         (after_tools, apply_update state update, w').

Inductive steps : config -> config -> Prop :=
| steps_refl c : steps c c
| steps_step c1 c2 c3 : steps c1 c2 -> step c2 c3 -> steps c1 c3.

End Graph.

End Workflow.

(* ================================================================== *)
(** * Properties of the parser *)
(* ================================================================== *)

Module ZodFacts.

Lemma accepts_true t v : accepts t v = true <-> exists data, Zod.parse t v = Some data.
Proof.
  unfold accepts. destruct (Zod.parse t v) as [d|]; split.
  - intros _. now exists d.
  - reflexivity.
  - discriminate.
  - intros [d H]. discriminate.
Qed.

Lemma accepts_false t v : accepts t v = false <-> Zod.parse t v = None.
Proof.
  unfold accepts. destruct (Zod.parse t v); split; congruence.
Qed.

Lemma Qlt_bool_iff a b : Qlt_bool a b = true <-> (a < b)%Q.
Proof.
  unfold Qlt_bool. rewrite negb_true_iff. split.
  - intros H. apply Qnot_le_lt. intros Hle.
    apply Qle_bool_iff in Hle. congruence.
  - intros H. destruct (Qle_bool b a) eqn:E; [|reflexivity].
    apply Qle_bool_iff in E. exfalso. exact (Qlt_not_le _ _ H E).
Qed.

Section Shape.
Variable T : Type.
Variable p : T -> value -> option value.

Lemma parse_shape_keys shape kvs out k :
  parse_shape p shape kvs = Some out ->
  ~ In k (List.map fst shape) -> assoc k out = None.
Proof.
  revert out. induction shape as [|[k0 t0] shape IH]; intros out H Hk.
  - injection H as <-. reflexivity.
  - simpl in H, Hk.
    destruct (p t0 _) as [r|]; [|discriminate].
    destruct (parse_shape p shape kvs) as [out'|]; [|discriminate].
    injection H as <-.
    assert (Hne : String.eqb k k0 = false)
      by (apply String.eqb_neq; intros ->; apply Hk; now left).
    assert (Hout : assoc k out' = None) by (apply IH; tauto).
    destruct (negb (is_undefined r) || has_key k0 kvs); simpl.
    + now rewrite Hne.
    + exact Hout.
Qed.

(** Every field of an accepted object parses, to what the result holds
    under its key. *)
Lemma parse_shape_field shape kvs out k t :
  NoDup (List.map fst shape) ->
  parse_shape p shape kvs = Some out ->
  In (k, t) shape ->
  p t (get (VObj kvs) k) = Some (get (VObj out) k).
Proof.
  revert out. induction shape as [|[k0 t0] shape IH]; intros out Hnd H Hin.
  - destruct Hin.
  - cbn [parse_shape] in H. inversion Hnd as [|? ? Hfresh Hnd']; subst.
    destruct (p t0 (get (VObj kvs) k0)) as [r|] eqn:Hr; [|discriminate].
    destruct (parse_shape p shape kvs) as [out'|] eqn:Hrest; [|discriminate].
    injection H as <-.
    destruct Hin as [Heq | Hin].
    + injection Heq as -> ->. rewrite Hr. f_equal.
      pose proof (parse_shape_keys _ _ k Hrest Hfresh) as Hnone.
      destruct (negb (is_undefined r) || has_key k kvs) eqn:Hc; simpl.
      * now rewrite String.eqb_refl.
      * rewrite Hnone. apply orb_false_iff in Hc as [Hc _].
        destruct r; simpl in Hc; try discriminate. reflexivity.
    + assert (Hne : String.eqb k k0 = false).
      { apply String.eqb_neq. intros ->. apply Hfresh.
        change k0 with (fst (k0, t)). now apply in_map. }
      rewrite (IH out' Hnd' eq_refl Hin).
      destruct (negb (is_undefined r) || has_key k0 kvs); simpl;
        [now rewrite Hne | reflexivity].
Qed.

(** An object all of whose fields parse is accepted. *)
Lemma parse_shape_total shape kvs :
  (forall k t, In (k, t) shape -> p t (get (VObj kvs) k) <> None) ->
  exists out, parse_shape p shape kvs = Some out.
Proof.
  induction shape as [|[k0 t0] shape IH]; intros H.
  - now exists [].
  - cbn [parse_shape]. destruct (p t0 (get (VObj kvs) k0)) as [r|] eqn:Hr.
    + destruct IH as [out' ->]; [intros; apply H; now right|].
      eexists. reflexivity.
    + exfalso. apply (H k0 t0); [now left | exact Hr].
Qed.

Lemma parse_elements_total t vs :
  Forall (fun v => p t v <> None) vs ->
  exists out, parse_elements p t vs = Some out.
Proof.
  induction 1 as [|v vs Hv _ [out IH]].
  - now exists [].
  - simpl. destruct (p t v) as [r|]; [|congruence].
    rewrite IH. now eexists.
Qed.

Lemma parse_elements_Forall2 t vs out :
  parse_elements p t vs = Some out ->
  Forall2 (fun v r => p t v = Some r) vs out.
Proof.
  revert out. induction vs as [|v vs IH]; intros out H; simpl in H.
  - injection H as <-. constructor.
  - destruct (p t v) as [r|] eqn:Hr; [|discriminate].
    destruct (parse_elements p t vs) as [out'|]; [|discriminate].
    injection H as <-. constructor; auto.
Qed.
End Shape.

Lemma parse_object_inv shape v data :
  Zod.parse (ZodObject shape) v = Some data ->
  exists kvs out, v = VObj kvs /\ data = VObj out /\
                  parse_shape Zod.parse shape kvs = Some out.
Proof.
  simpl. destruct v; try discriminate.
  destruct (parse_shape Zod.parse shape kvs) as [out|] eqn:E; [|discriminate].
  intros H. injection H as <-. now exists kvs, out.
Qed.

(** The field lemma for a whole object schema. *)
Lemma parse_object_field shape v data k t :
  NoDup (List.map fst shape) ->
  Zod.parse (ZodObject shape) v = Some data ->
  In (k, t) shape ->
  Zod.parse t (get v k) = Some (get data k).
Proof.
  intros Hnd H Hin.
  destruct (parse_object_inv _ _ H) as (kvs & out & -> & -> & Hs).
  eapply parse_shape_field; eauto.
Qed.

Lemma parse_effects_inv inner f v data :
  Zod.parse (ZodEffects inner f) v = Some data ->
  Zod.parse inner v = Some data /\ f data = true.
Proof.
  simpl. destruct (Zod.parse inner v) as [d|]; [|discriminate].
  destruct (f d) eqn:E; [|discriminate].
  intros H. injection H as <-. auto.
Qed.

Lemma parse_optional_inv inner v data :
  Zod.parse (ZodOptional inner) v = Some data ->
  (v = VUndefined /\ data = VUndefined) \/
  (v <> VUndefined /\ Zod.parse inner v = Some data).
Proof.
  simpl. destruct v; simpl; intros H;
    try (right; split; [discriminate | exact H]).
  left. injection H as <-. auto.
Qed.

Lemma parse_enum_inv options v data :
  Zod.parse (ZodEnum options) v = Some data ->
  data = v /\ exists s, v = VStr s /\ In s options.
Proof.
  simpl. destruct (one_of options v) eqn:E; [|discriminate].
  intros H. injection H as <-. split; [reflexivity|].
  destruct v; simpl in E; try discriminate.
  exists s. split; [reflexivity|].
  apply existsb_exists in E as (x & Hx & Heq).
  apply String.eqb_eq in Heq. now subst.
Qed.

Lemma parse_string_inv checks v data :
  Zod.parse (ZodString checks) v = Some data ->
  data = v /\ exists s, v = VStr s /\ forallb (check_str s) checks = true.
Proof.
  simpl. destruct v; try discriminate.
  destruct (forallb (check_str s) checks) eqn:E; [|discriminate].
  intros H. injection H as <-. eauto.
Qed.

Lemma parse_number_inv checks v data :
  Zod.parse (ZodNumber checks) v = Some data ->
  data = v /\ exists q, v = VNum q /\ forallb (check_num q) checks = true.
Proof.
  simpl. destruct v; try discriminate.
  destruct (forallb (check_num q) checks) eqn:E; [|discriminate].
  intros H. injection H as <-. eauto.
Qed.

End ZodFacts.

(* ================================================================== *)
(** * Properties of the tool contracts *)
(* ================================================================== *)

Module Contracts.
Import ZodFacts Aisdk5.

Ltac nodup_keys :=
  cbn [List.map fst];
  repeat (constructor; [cbn [In]; intuition discriminate|]); constructor.

Ltac in_shape := cbn [In]; tauto.

Lemma coordinate_axis (bound : Z) (q : Q) :
  accepts (ZodNumber [int; min 0; max bound]) (VNum q) = true <->
  is_integer q = true /\ (0 <= q)%Q /\ (q <= inject_Z bound)%Q.
Proof.
  unfold accepts. cbn [Zod.parse forallb check_num int min max].
  rewrite <- !Qle_bool_iff. change (inject_Z 0) with 0%Q.
  destruct (is_integer q), (Qle_bool 0 q), (Qle_bool q (inject_Z bound));
    cbn; intuition congruence.
Qed.

Lemma coordinate_pair (x y : Q) :
  accepts Coordinate (VArr [VNum x; VNum y]) =
  accepts (ZodNumber [int; min 0; max 1024]) (VNum x) &&
  accepts (ZodNumber [int; min 0; max 768]) (VNum y).
Proof.
  unfold accepts, Coordinate.
  cbn [Zod.parse parse_items option_map].
  destruct (forallb (check_num x) _); [|reflexivity].
  destruct (forallb (check_num y) _); reflexivity.
Qed.

(** C3, as the code has it: a pair of numbers is an accepted coordinate if
    and only if both are integers, [0 <= x <= 1024] and [0 <= y <= 768];
    [(1025, 10)] is rejected and [(1024, 768)] is accepted. *)
Theorem Coordinate_accepts_iff :
  (forall x y : Q,
      accepts Coordinate (VArr [VNum x; VNum y]) = true <->
      (is_integer x = true /\ is_integer y = true) /\
      (0 <= x)%Q /\ (x <= 1024)%Q /\ (0 <= y)%Q /\ (y <= 768)%Q) /\
  accepts Coordinate (VArr [VNum 1025%Q; VNum 10%Q]) = false /\
  accepts Coordinate (VArr [VNum 1024%Q; VNum 768%Q]) = true.
Proof.
  split; [|split; reflexivity].
  intros x y. rewrite coordinate_pair, andb_true_iff, !coordinate_axis.
  change (inject_Z 1024) with 1024%Q. change (inject_Z 768) with 768%Q.
  tauto.
Qed.

(** C3, as the claim has it, fails at [(1/2, 0)]: the pair lies in the
    rectangle and is rejected, because [1/2] is not an integer. *)
Lemma Coordinate_range_alone_is_not_enough :
  ~ (accepts Coordinate (VArr [VNum (1 # 2)%Q; VNum 0%Q]) = true <->
     (0 <= 1 # 2)%Q /\ (1 # 2 <= 1024)%Q /\ (0 <= 0)%Q /\ (0 <= 768)%Q).
Proof.
  intros [_ H].
  assert (Hin : (0 <= 1 # 2)%Q /\ (1 # 2 <= 1024)%Q /\ (0 <= 0)%Q /\ (0 <= 768)%Q)
    by (repeat split; discriminate).
  apply H in Hin. discriminate Hin.
Qed.

(** The amount of a scroll has to be positive: zero is rejected. *)
Example scroll_amount_zero_rejected :
  accepts computer_parameters
          (VObj [("action", VStr "scroll"); ("scroll_direction", VStr "down");
                 ("scroll_amount", VNum 0%Q)]) = false.
Proof. reflexivity. Qed.

(** ** The computer tool *)

Lemma optional_truthy inner v d :
  Zod.parse (ZodOptional inner) v = Some d -> truthy d = true ->
  Zod.parse inner v = Some d.
Proof.
  intros H Ht. apply parse_optional_inv in H as [[_ ->] | [_ H]];
    [discriminate Ht | exact H].
Qed.

Lemma optional_defined inner v d :
  Zod.parse (ZodOptional inner) v = Some d -> is_undefined d = false ->
  Zod.parse inner v = Some d.
Proof.
  intros H Hd. apply parse_optional_inv in H as [[_ ->] | [_ H]];
    [discriminate Hd | exact H].
Qed.

Lemma optional_missing inner d :
  Zod.parse (ZodOptional inner) VUndefined = Some d -> d = VUndefined.
Proof. cbn. congruence. Qed.

(** What the refinement of the computer tool asks of the parsed data. *)
Lemma computer_refinement_true data :
  computer_refinement data = true ->
  (one_of ["mouse_move"; "left_click"; "right_click"; "middle_click";
           "double_click"; "triple_click"] (get data "action") = true ->
   truthy (get data "coordinate") = true) /\
  (is_str "left_click_drag" (get data "action") = true ->
   truthy (get data "coordinate") = true /\
   truthy (get data "start_coordinate") = true) /\
  (one_of ["type"; "key"] (get data "action") = true ->
   truthy (get data "text") = true) /\
  (is_str "hold_key" (get data "action") = true ->
   truthy (get data "text") = true /\ is_undefined (get data "duration") = false) /\
  (is_str "wait" (get data "action") = true ->
   is_undefined (get data "duration") = false) /\
  (is_str "scroll" (get data "action") = true ->
   truthy (get data "scroll_direction") = true /\
   is_undefined (get data "scroll_amount") = false).
Proof.
  unfold computer_refinement.
  repeat match goal with
         | |- context [if ?b && _ then _ else _] =>
             destruct b; cbn [andb]
         end;
    repeat match goal with
           | |- context [truthy ?v] => destruct (truthy v); cbn [negb orb]
           | |- context [is_undefined ?v] => destruct (is_undefined v); cbn [negb orb]
           end;
    intros H; try discriminate H; repeat split; intros; try discriminate; auto.
Qed.

Record computer_fields (args data : value) : Prop :=
  { cf_action : Zod.parse ComputerAction (get args "action")
                = Some (get data "action");
    cf_coordinate : Zod.parse (ZodOptional Coordinate) (get args "coordinate")
                    = Some (get data "coordinate");
    cf_text : Zod.parse (ZodOptional (ZodString [])) (get args "text")
              = Some (get data "text");
    cf_duration : Zod.parse (ZodOptional (ZodNumber [positive])) (get args "duration")
                  = Some (get data "duration");
    cf_scroll_direction :
      Zod.parse (ZodOptional ScrollDirection) (get args "scroll_direction")
      = Some (get data "scroll_direction");
    cf_scroll_amount :
      Zod.parse (ZodOptional (ZodNumber [int; positive])) (get args "scroll_amount")
      = Some (get data "scroll_amount");
    cf_start_coordinate :
      Zod.parse (ZodOptional Coordinate) (get args "start_coordinate")
      = Some (get data "start_coordinate") }.

Lemma computer_parse_inv args data :
  Zod.parse computer_parameters args = Some data ->
  computer_refinement data = true /\ computer_fields args data.
Proof.
  unfold computer_parameters. intros H.
  apply parse_effects_inv in H as [H Href]. split; [exact Href|].
  constructor;
    (eapply parse_object_field with (2 := H); [nodup_keys | in_shape]).
Qed.

Lemma text_present v d :
  Zod.parse (ZodOptional (ZodString [])) v = Some d -> truthy d = true ->
  exists s, v = VStr s /\ s <> "".
Proof.
  intros H Ht. pose proof (optional_truthy _ _ H Ht) as Hs.
  apply parse_string_inv in Hs as [-> (s & -> & _)].
  exists s. split; [reflexivity|].
  cbn in Ht. apply negb_true_iff in Ht. now apply String.eqb_neq.
Qed.

Lemma duration_present v d :
  Zod.parse (ZodOptional (ZodNumber [positive])) v = Some d ->
  is_undefined d = false ->
  exists q, v = VNum q /\ (0 < q)%Q.
Proof.
  intros H Hd. pose proof (optional_defined _ _ H Hd) as Hn.
  apply parse_number_inv in Hn as [_ (q & -> & Hc)].
  exists q. split; [reflexivity|].
  cbn in Hc. rewrite andb_true_r in Hc. now apply Qlt_bool_iff in Hc.
Qed.

Lemma amount_present v d :
  Zod.parse (ZodOptional (ZodNumber [int; positive])) v = Some d ->
  is_undefined d = false ->
  exists n, v = VNum n /\ is_integer n = true /\ (0 < n)%Q.
Proof.
  intros H Hd. pose proof (optional_defined _ _ H Hd) as Hn.
  apply parse_number_inv in Hn as [_ (q & -> & Hc)].
  exists q. split; [reflexivity|].
  cbn in Hc. rewrite andb_true_r in Hc.
  apply andb_true_iff in Hc as [Hi Hp]. split; [exact Hi|].
  now apply Qlt_bool_iff in Hp.
Qed.

Lemma direction_present v d :
  Zod.parse (ZodOptional ScrollDirection) v = Some d -> truthy d = true ->
  exists dir, v = VStr dir /\ In dir ["up"; "down"; "left"; "right"].
Proof.
  intros H Ht. pose proof (optional_truthy _ _ H Ht) as He.
  apply parse_enum_inv in He as [_ (s & -> & Hin)]. eauto.
Qed.

Lemma coordinate_present v d :
  Zod.parse (ZodOptional Coordinate) v = Some d -> truthy d = true ->
  accepts Coordinate v = true.
Proof.
  intros H Ht. apply accepts_true. exists d. eapply optional_truthy; eauto.
Qed.

(** the actions that the refinement lists as requiring a coordinate *)
Definition pointer_actions : list string :=
  ["mouse_move"; "left_click"; "right_click"; "middle_click";
   "double_click"; "triple_click"].

Definition direction_names : list string := ["up"; "down"; "left"; "right"].

(** C4: the requirements that depend on the action.  Whenever the computer
    contract accepts [args]: a pointer action comes with a coordinate, a
    drag with a coordinate and a start coordinate, [wait] and [hold_key]
    with a duration, [scroll] with a direction and a non-negative amount,
    [type], [key] and [hold_key] with non-empty text.  So a scroll without
    [scroll_amount] is rejected whatever [scroll_direction] is, and a wait
    without [duration] is rejected. *)
Theorem computer_action_requirements (args : value) :
  (accepts computer_parameters args = true ->
   (forall a, In a pointer_actions -> get args "action" = VStr a ->
              accepts Coordinate (get args "coordinate") = true) /\
   (get args "action" = VStr "left_click_drag" ->
    accepts Coordinate (get args "coordinate") = true /\
    accepts Coordinate (get args "start_coordinate") = true) /\
   (get args "action" = VStr "wait" \/ get args "action" = VStr "hold_key" ->
    exists d, get args "duration" = VNum d /\ (0 < d)%Q) /\
   (get args "action" = VStr "scroll" ->
    (exists dir, get args "scroll_direction" = VStr dir /\ In dir direction_names) /\
    (exists n, get args "scroll_amount" = VNum n /\ (0 <= n)%Q)) /\
   (get args "action" = VStr "type" \/ get args "action" = VStr "key" \/
    get args "action" = VStr "hold_key" ->
    exists s, get args "text" = VStr s /\ s <> "")) /\
  (get args "action" = VStr "scroll" ->
   get args "scroll_amount" = VUndefined ->
   accepts computer_parameters args = false) /\
  (get args "action" = VStr "wait" ->
   get args "duration" = VUndefined ->
   accepts computer_parameters args = false).
Proof.
  assert (Hinv : forall data,
             Zod.parse computer_parameters args = Some data ->
             get data "action" = get args "action" /\
             computer_refinement data = true /\ computer_fields args data).
  { intros data H. apply computer_parse_inv in H as [Href F].
    split; [|split; assumption].
    now destruct (parse_enum_inv _ _ (cf_action F)) as [-> _]. }
  split; [|split].
  - intros Hacc. apply accepts_true in Hacc as [data H].
    destruct (Hinv data H) as (Hact & Href & F).
    apply computer_refinement_true in Href
      as (Hptr & Hdrag & Htext & Hhold & Hwait & Hscroll).
    rewrite Hact in *.
    split; [|split; [|split; [|split]]].
    + intros a Ha Heq. rewrite Heq in Hptr.
      apply (coordinate_present _ (cf_coordinate F)), Hptr.
      cbn [one_of]. apply existsb_exists.
      exists a. split; [exact Ha | apply String.eqb_refl].
    + intros Heq. rewrite Heq in Hdrag. destruct Hdrag as [Hc Hs]; [reflexivity|].
      split.
      * apply (coordinate_present _ (cf_coordinate F)), Hc.
      * apply (coordinate_present _ (cf_start_coordinate F)), Hs.
    + intros [Heq | Heq].
      * rewrite Heq in Hwait.
        apply (duration_present _ (cf_duration F)), Hwait. reflexivity.
      * rewrite Heq in Hhold.
        apply (duration_present _ (cf_duration F)), Hhold. reflexivity.
    + intros Heq. rewrite Heq in Hscroll.
      destruct Hscroll as [Hdir Hamt]; [reflexivity|]. split.
      * apply (direction_present _ (cf_scroll_direction F)), Hdir.
      * destruct (amount_present _ (cf_scroll_amount F) Hamt) as (n & Hn & _ & Hpos).
        exists n. split; [exact Hn | now apply Qlt_le_weak].
    + intros [Heq | [Heq | Heq]].
      * rewrite Heq in Htext.
        apply (text_present _ (cf_text F)), Htext. reflexivity.
      * rewrite Heq in Htext.
        apply (text_present _ (cf_text F)), Htext. reflexivity.
      * rewrite Heq in Hhold.
        apply (text_present _ (cf_text F)), Hhold. reflexivity.
  - intros Hact Hmiss. apply accepts_false.
    destruct (Zod.parse computer_parameters args) as [data|] eqn:H; [|reflexivity].
    exfalso. destruct (Hinv data eq_refl) as (Hact' & Href & F).
    apply computer_refinement_true in Href as (_ & _ & _ & _ & _ & Hscroll).
    rewrite Hact', Hact in Hscroll. destruct Hscroll as [_ Hdef]; [reflexivity|].
    pose proof (cf_scroll_amount F) as Hamt. rewrite Hmiss in Hamt.
    apply optional_missing in Hamt. rewrite Hamt in Hdef. discriminate.
  - intros Hact Hmiss. apply accepts_false.
    destruct (Zod.parse computer_parameters args) as [data|] eqn:H; [|reflexivity].
    exfalso. destruct (Hinv data eq_refl) as (Hact' & Href & F).
    apply computer_refinement_true in Href as (_ & _ & _ & _ & Hwait & _).
    rewrite Hact', Hact in Hwait. specialize (Hwait eq_refl).
    pose proof (cf_duration F) as Hd. rewrite Hmiss in Hd.
    apply optional_missing in Hd. rewrite Hd in Hwait. discriminate.
Qed.

(** ** The message_ask tool *)

Lemma parse_object_total shape kvs :
  (forall k t, In (k, t) shape -> Zod.parse t (get (VObj kvs) k) <> None) ->
  exists data, Zod.parse (ZodObject shape) (VObj kvs) = Some data.
Proof.
  intros H. destruct (parse_shape_total Zod.parse shape kvs H) as [out Hout].
  exists (VObj out). cbn [Zod.parse]. now rewrite Hout.
Qed.

Lemma parse_effects_intro inner f v data :
  Zod.parse inner v = Some data -> f data = true ->
  Zod.parse (ZodEffects inner f) v = Some data.
Proof. intros H Hf. cbn [Zod.parse]. now rewrite H, Hf. Qed.

Lemma parse_array_inv element minLength v data :
  Zod.parse (ZodArray element minLength) v = Some data ->
  exists l out, v = VArr l /\ data = VArr out /\
                parse_elements Zod.parse element l = Some out /\
                min_ok minLength (List.length l) = true.
Proof.
  cbn [Zod.parse]. destruct v; try discriminate.
  destruct (parse_elements Zod.parse element l) as [out|] eqn:E; [|discriminate].
  destruct (min_ok minLength (List.length l)) eqn:Hm; [|discriminate].
  intros H. injection H as <-. now exists l, out.
Qed.

Lemma parse_array_total element n l :
  n <= List.length l ->
  Forall (fun e => accepts element e = true) l ->
  exists out, Zod.parse (ZodArray element (Some n)) (VArr l) = Some (VArr out).
Proof.
  intros Hlen Hall.
  destruct (parse_elements_total Zod.parse element (vs := l)) as [out Hout].
  { eapply Forall_impl; [|exact Hall]. cbn beta. intros e He.
    apply accepts_true in He as [d Hd]. congruence. }
  exists out. cbn [Zod.parse min_ok]. rewrite Hout.
  apply Nat.leb_le in Hlen. now rewrite Hlen.
Qed.

Definition message_ask_shape : list (string * ZodType) :=
  [("message", ZodString [SMin 1]);
   ("attachment", ZodOptional AbsolutePath);
   ("follow_ups_input", ZodOptional (ZodArray InputQuestion (Some 2)));
   ("follow_ups_select", ZodOptional (ZodArray SelectOption (Some 2)))].

Lemma message_ask_parse_inv args data :
  Zod.parse message_ask_parameters args = Some data ->
  Zod.parse (ZodObject message_ask_shape) args = Some data /\
  negb (truthy (get data "follow_ups_input")
        && truthy (get data "follow_ups_select")) = true /\
  truthy (or_else (get data "follow_ups_input") (get data "follow_ups_select"))
  = true.
Proof.
  unfold message_ask_parameters. intros H.
  apply parse_effects_inv in H as [H H2].
  apply parse_effects_inv in H as [H H1]. auto.
Qed.

Lemma supplied_array element n v d :
  Zod.parse (ZodOptional (ZodArray element (Some n))) v = Some d ->
  v <> VUndefined -> truthy d = true.
Proof.
  intros H Hv. apply parse_optional_inv in H as [[-> _] | [_ H]]; [congruence|].
  apply parse_array_inv in H as (l & out & _ & -> & _). reflexivity.
Qed.

(** the entries of a follow-up alternative that is supplied and in order *)
Definition follow_ups (element : ZodType) (v : value) : Prop :=
  exists l, v = VArr l /\ 2 <= List.length l /\
            Forall (fun e => accepts element e = true) l.

Lemma follow_ups_parse element v :
  follow_ups element v ->
  exists out, Zod.parse (ZodOptional (ZodArray element (Some 2))) v
              = Some (VArr out).
Proof.
  intros (l & -> & Hlen & Hall).
  destruct (parse_array_total element Hlen Hall) as [out H].
  exists out. exact H.
Qed.

(** C5: a message_ask call that supplies both [follow_ups_input] and
    [follow_ups_select] is rejected, one that supplies neither is rejected,
    and one that supplies exactly one of them, with at least two entries
    (each a valid entry, in a call whose [message] and [attachment] are
    valid), is accepted. *)
Theorem message_ask_follow_ups_exclusive (args : value) :
  (get args "follow_ups_input" <> VUndefined ->
   get args "follow_ups_select" <> VUndefined ->
   accepts message_ask_parameters args = false) /\
  (get args "follow_ups_input" = VUndefined ->
   get args "follow_ups_select" = VUndefined ->
   accepts message_ask_parameters args = false) /\
  ((exists kvs, args = VObj kvs) ->
   accepts (ZodString [SMin 1]) (get args "message") = true ->
   accepts (ZodOptional AbsolutePath) (get args "attachment") = true ->
   (follow_ups InputQuestion (get args "follow_ups_input") /\
    get args "follow_ups_select" = VUndefined) \/
   (get args "follow_ups_input" = VUndefined /\
    follow_ups SelectOption (get args "follow_ups_select")) ->
   accepts message_ask_parameters args = true).
Proof.
  assert (Hfields : forall data,
             Zod.parse (ZodObject message_ask_shape) args = Some data ->
             Zod.parse (ZodOptional (ZodArray InputQuestion (Some 2)))
                       (get args "follow_ups_input")
             = Some (get data "follow_ups_input") /\
             Zod.parse (ZodOptional (ZodArray SelectOption (Some 2)))
                       (get args "follow_ups_select")
             = Some (get data "follow_ups_select")).
  { intros data H. unfold message_ask_shape in H. split;
      (eapply parse_object_field with (2 := H); [nodup_keys | in_shape]). }
  split; [|split].
  - intros Hi Hs. apply accepts_false.
    destruct (Zod.parse message_ask_parameters args) as [data|] eqn:H; [|reflexivity].
    exfalso. apply message_ask_parse_inv in H as (H & Hboth & _).
    destruct (Hfields data H) as [Fi Fs].
    rewrite (@supplied_array _ _ _ _ Fi Hi), (@supplied_array _ _ _ _ Fs Hs) in Hboth.
    discriminate.
  - intros Hi Hs. apply accepts_false.
    destruct (Zod.parse message_ask_parameters args) as [data|] eqn:H; [|reflexivity].
    exfalso. apply message_ask_parse_inv in H as (H & _ & Hone).
    destruct (Hfields data H) as [Fi Fs].
    rewrite Hi in Fi. rewrite Hs in Fs.
    apply optional_missing in Fi, Fs. rewrite Fi, Fs in Hone. discriminate.
  - intros [kvs ->] Hmsg Hatt Hone. apply accepts_true.
    apply accepts_true in Hmsg as [m Hm]. apply accepts_true in Hatt as [a Ha].
    assert (Hparses : exists i s,
               Zod.parse (ZodOptional (ZodArray InputQuestion (Some 2)))
                         (get (VObj kvs) "follow_ups_input") = Some i /\
               Zod.parse (ZodOptional (ZodArray SelectOption (Some 2)))
                         (get (VObj kvs) "follow_ups_select") = Some s /\
               negb (truthy i && truthy s) = true /\
               truthy (or_else i s) = true).
    { destruct Hone as [[Hi Hs] | [Hi Hs]].
      - destruct (follow_ups_parse Hi) as [out Hout].
        exists (VArr out), VUndefined. rewrite Hs. auto.
      - destruct (follow_ups_parse Hs) as [out Hout].
        exists VUndefined, (VArr out). rewrite Hi. auto. }
    destruct Hparses as (i & s & Hi & Hs & Hboth & Hany).
    destruct (parse_object_total message_ask_shape kvs) as [data Hdata].
    { intros k t Hin. cbn [message_ask_shape In] in Hin.
      repeat (destruct Hin as [Hin | Hin];
              [injection Hin as <- <-; congruence|]).
      destruct Hin. }
    exists data. destruct (Hfields data Hdata) as [Fi Fs].
    rewrite Hi in Fi. rewrite Hs in Fs.
    injection Fi as Fi. injection Fs as Fs.
    unfold message_ask_parameters.
    apply parse_effects_intro; [apply parse_effects_intro|].
    + exact Hdata.
    + now rewrite <- Fi, <- Fs.
    + now rewrite <- Fi, <- Fs.
Qed.

(** ** The todo tool *)

Lemma task_status_kept e e' :
  Zod.parse Task e = Some e' -> get e' "status" = get e "status".
Proof.
  unfold Task. intros H.
  assert (Hs : Zod.parse TaskStatus (get e "status") = Some (get e' "status"))
    by (eapply parse_object_field with (2 := H); [nodup_keys | in_shape]).
  now apply parse_enum_inv in Hs as [-> _].
Qed.

Lemma in_progress_count_parsed minLength v d :
  Zod.parse (ZodArray Task minLength) v = Some d ->
  in_progress_count d = in_progress_count v.
Proof.
  intros H. apply parse_array_inv in H as (l & out & -> & -> & Hel & _).
  apply parse_elements_Forall2 in Hel. cbn [in_progress_count].
  induction Hel as [|e e' l out He _ IH]; [reflexivity|].
  cbn [filter]. rewrite (task_status_kept _ He).
  destruct (is_str "in_progress" (get e "status")); cbn [List.length]; congruence.
Qed.

(** What passes the todo contract has at most one task in progress, also
    counted on the input as it was proposed. *)
Lemma todo_accepted_one_in_progress args :
  accepts todo_parameters args = true ->
  in_progress_count (get args "tasks") <= 1.
Proof.
  intros Hacc. apply accepts_true in Hacc as [data H].
  unfold todo_parameters in H. apply parse_effects_inv in H as [H Href].
  assert (Ht : Zod.parse (ZodArray Task (Some 1)) (get args "tasks")
               = Some (get data "tasks"))
    by (eapply parse_object_field with (2 := H); [nodup_keys | in_shape]).
  rewrite <- (in_progress_count_parsed _ _ Ht). now apply Nat.leb_le.
Qed.

End Contracts.

(* ================================================================== *)
(** * Properties of the workflow *)
(* ================================================================== *)

Module Run.
Import ZodFacts Workflow.

Definition node_of {W} (c : Node * AgentState * W) : Node := fst (fst c).
Definition state_of {W} (c : Node * AgentState * W) : AgentState := snd (fst c).

Section Facts.
Variable W : Type.
Variable Number_toString : Q -> string.
Variable agent : list BaseMessage -> Async W AgentOutcome.
Variable tools : list (LangChain.DynamicStructuredTool W).

Definition lookup (toolname : string) : option (LangChain.DynamicStructuredTool W) :=
  find (fun t => String.eqb (LangChain.name t) toolname) tools.

(** ** What [invoke] validates *)

Lemma invoke_settles (tool : LangChain.DynamicStructuredTool W) arg w raw w' :
  LangChain.invoke tool arg w = (Ok raw, w') ->
  accepts (LangChain.schema tool) (LangChain.inputForValidation arg) = true.
Proof.
  unfold LangChain.invoke, accepts.
  destruct (Zod.parse (LangChain.schema tool) (LangChain.inputForValidation arg));
    [reflexivity|].
  unfold throw. discriminate.
Qed.

Lemma plain_argument arg :
  LangChain.isToolCall arg = false ->
  LangChain.inputForValidation arg = arg /\
  LangChain.toolCallId arg = VUndefined.
Proof.
  intros H.
  unfold LangChain.inputForValidation, LangChain.toolCallId,
    LangChain.config_toolCall_id, LangChain.toolInput.
  rewrite H, H. split; reflexivity.
Qed.

(** What LangChain validates is accepted and the call came with no id:
    [func] runs on the parsed data and its output is the output. *)
Lemma invoke_accepted (tool : LangChain.DynamicStructuredTool W) arg parsed w :
  Zod.parse (LangChain.schema tool) (LangChain.inputForValidation arg)
  = Some parsed ->
  truthy (LangChain.toolCallId arg) = false ->
  LangChain.invoke tool arg w = LangChain.func tool parsed w.
Proof.
  intros Hparse Hid. unfold LangChain.invoke. rewrite Hparse, Hid.
  unfold bind, ret.
  now destruct (LangChain.func tool parsed w) as [[content|e] w1].
Qed.

(** ** The first loop *)

(** [parsed], from what the tool handed back *)
Definition decoded (raw : JSON.raw) : value :=
  match JSON.parse raw with
  | Ok document => document
  | Throw _ => VObj [("raw", JSON.as_value raw)]
  end.

Definition outcome_of (call : AgentToolCall) (raw : JSON.raw) : ToolOutput :=
  {| toolName := name call; result := decoded raw; input := args call |}.

Lemma run_calls_known call tool rest outputs w :
  lookup (name call) = Some tool ->
  run_calls tools (call :: rest) outputs w
  = match LangChain.invoke tool (args call) w with
    | (Ok raw, w1) => run_calls tools rest (outputs ++ [outcome_of call raw]) w1
    | (Throw e, w1) => (Throw e, w1)
    end.
Proof.
  intros Hfind. cbn [run_calls]. unfold lookup in Hfind. rewrite Hfind.
  reflexivity.
Qed.

(** an output of a call of the batch, to a tool of the list that took what
    LangChain validates of the arguments *)
Definition validated (actions : list AgentToolCall) (o : ToolOutput) : Prop :=
  (exists call, In call actions /\ toolName o = name call /\ input o = args call) /\
  exists tool : LangChain.DynamicStructuredTool W,
    lookup (toolName o) = Some tool /\
    accepts (LangChain.schema tool) (LangChain.inputForValidation (input o))
    = true.

Lemma run_calls_validated actions :
  forall outputs w outs w',
    run_calls tools actions outputs w = (Ok outs, w') ->
    forall batch, incl actions batch ->
    Forall (validated batch) outputs -> Forall (validated batch) outs.
Proof.
  induction actions as [|call rest IH]; intros outputs w outs w' H batch Hincl Hall.
  - cbn in H. injection H as <- _. exact Hall.
  - assert (Hrest : incl rest batch) by (intros x Hx; apply Hincl; now right).
    destruct (lookup (name call)) as [tool|] eqn:Hfind.
    + rewrite (run_calls_known _ _ _ _ Hfind) in H.
      destruct (LangChain.invoke tool (args call) w) as [[raw|e] w1] eqn:Hinv;
        [|discriminate].
      eapply IH; [exact H | exact Hrest |].
      apply Forall_app. split; [exact Hall|].
      constructor; [|constructor]. split.
      * exists call. split; [apply Hincl; now left | split; reflexivity].
      * exists tool. split; [exact Hfind | exact (invoke_settles _ _ _ Hinv)].
    + cbn [run_calls] in H. unfold lookup in Hfind. rewrite Hfind in H. eauto.
Qed.

Lemma run_calls_skip call pre post :
  lookup (name call) = None ->
  forall outputs w,
    run_calls tools (pre ++ call :: post) outputs w
    = run_calls tools (pre ++ post) outputs w.
Proof.
  intros Hnone. induction pre as [|c pre IH]; intros outputs w.
  - cbn [app run_calls]. unfold lookup in Hnone. now rewrite Hnone.
  - cbn [app run_calls].
    destruct (find _ tools) as [tool|]; [|apply IH].
    unfold bind. destruct (LangChain.invoke tool (args c) w) as [[raw|e] w1];
      [apply IH | reflexivity].
Qed.

Lemma executeTools_eq state w :
  executeTools Number_toString tools state w =
  match run_calls tools (actions_of state) [] w with
  | (Ok outputs, w') =>
      match fold_outputs Number_toString outputs (empty_update, []) with
      | Ok acc => (Ok (finish state acc), w')
      | Throw e => (Throw e, w')
      end
  | (Throw e, w') => (Throw e, w')
  end.
Proof.
  unfold executeTools, bind, lift, ret.
  destruct (run_calls tools (actions_of state) [] w) as [[outputs|e] w'];
    [|reflexivity].
  destruct (fold_outputs Number_toString outputs (empty_update, []));
    reflexivity.
Qed.

(** the proposal of a state, replaced *)
Definition with_calls (state : AgentState) (calls : list AgentToolCall)
  : AgentState :=
  {| chat_history := chat_history state;
     agentOutcome := Some {| tool_calls := Some calls |};
     latest_screenshot := latest_screenshot state;
     current_ui_status := current_ui_status state;
     current_todo_list := current_todo_list state |}.

(** a batch of one call that no tool of the list bears the name of *)
Lemma unknown_call_alone call state w :
  lookup (name call) = None ->
  executeTools Number_toString tools (with_calls state [call]) w
  = (Ok empty_update, w).
Proof.
  intros Hnone. rewrite executeTools_eq.
  cbn [actions_of with_calls agentOutcome tool_calls].
  rewrite (run_calls_skip call [] [] Hnone). reflexivity.
Qed.

(** ** Routing *)

(** C8: the route after the agent node is a function of the pending
    proposal alone; no proposal, no call list or an empty one leads to
    [END], a list with a call leads to the tools node; from the tools node
    the run goes back to the agent node. *)
Theorem routing_follows_the_proposal :
  (forall s1 s2, agentOutcome s1 = agentOutcome s2 ->
                 after_agent s1 = after_agent s2) /\
  (forall s, agentOutcome s = None -> after_agent s = END) /\
  (forall s, agentOutcome s = Some {| tool_calls := None |} ->
             after_agent s = END) /\
  (forall s, agentOutcome s = Some {| tool_calls := Some [] |} ->
             after_agent s = END) /\
  (forall s call calls,
      agentOutcome s = Some {| tool_calls := Some (call :: calls) |} ->
      after_agent s = tools_node) /\
  (forall s w c,
      step Number_toString agent tools (agent_node, s, w) c ->
      node_of c = after_agent (state_of c)) /\
  (forall s w c,
      step Number_toString agent tools (tools_node, s, w) c ->
      node_of c = agent_node).
Proof.
  unfold after_agent, shouldContinue.
  repeat match goal with |- _ /\ _ => split end.
  - intros s1 s2 ->. reflexivity.
  - intros s ->. reflexivity.
  - intros s ->. reflexivity.
  - intros s ->. reflexivity.
  - intros s call calls ->. reflexivity.
  - intros s w c H. inversion H; subst. reflexivity.
  - intros s w c H. inversion H; subst. reflexivity.
Qed.

(** ** The second loop *)

(** the three kinds of outcome that the loop folds *)
Definition has_screenshot (o : ToolOutput) : bool :=
  String.eqb (toolName o) "computer" && truthy (get (result o) "screenshot").

Definition is_message_update (o : ToolOutput) : bool :=
  String.eqb (toolName o) "message_update".

Definition is_todo (o : ToolOutput) : bool :=
  String.eqb (toolName o) "todo".

(** the loop reads no property of [null] or [undefined] on this output *)
Definition readable (o : ToolOutput) : bool :=
  if String.eqb (toolName o) "computer"
  then negb (is_nullish (result o))
       && (negb (truthy (get (result o) "screenshot"))
           || negb (is_nullish (input o)))
  else if is_message_update o || is_todo o
       then negb (is_nullish (input o))
       else true.

Definition shot_of (o : ToolOutput) : value := get (result o) "screenshot".

Definition tasks_of (o : ToolOutput) : value := get (input o) "tasks".

Definition status_of (o : ToolOutput) : UiStatus :=
  {| message := String_ Number_toString (get (input o) "message");
     status := String_ Number_toString (get (input o) "status");
     emoji := String_ Number_toString (get (input o) "status_emoji") |}.

Definition observation_of (o : ToolOutput) : BaseMessage :=
  observation Number_toString o (shot_of o) (get (input o) "action").

(** the last element of a list, in list order, on which [P] holds *)
Fixpoint last_such {A} (P : A -> bool) (l : list A) : option A :=
  match l with
  | [] => None
  | x :: rest =>
      match last_such P rest with
      | Some y => Some y
      | None => if P x then Some x else None
      end
  end.

Lemma last_such_Some {A} (P : A -> bool) l x :
  last_such P l = Some x <->
  exists pre post, l = pre ++ x :: post /\ P x = true /\
                   forallb (fun y => negb (P y)) post = true.
Proof.
  revert x. induction l as [|a l IH]; intros x; cbn [last_such].
  - split; [discriminate|]. intros (pre & post & H & _).
    destruct pre; discriminate.
  - destruct (last_such P l) as [y|] eqn:E.
    + split.
      * intros Hx. injection Hx as ->.
        destruct (proj1 (IH x) eq_refl) as (pre & post & -> & Hp & Hpost).
        exists (a :: pre), post. auto.
      * intros (pre & post & Hl & Hp & Hpost). destruct pre as [|b pre].
        -- cbn in Hl. injection Hl as <- <-.
           assert (Hnone : forall z, In z l -> P z = false).
           { intros z Hz. rewrite forallb_forall in Hpost.
             apply negb_true_iff. auto. }
           destruct (proj1 (IH y) eq_refl) as (pre' & post' & -> & Hy & _).
           rewrite Hnone in Hy; [discriminate|].
           apply in_or_app. right. now left.
        -- cbn in Hl. injection Hl as <- ->.
           apply IH. exists pre, post. auto.
    + assert (Hnone : forall z, In z l -> P z = false).
      { intros z Hz. destruct (P z) eqn:Hpz; [|reflexivity].
        apply in_split in Hz as (l1 & l2 & ->). exfalso.
        clear IH. revert E. induction l1 as [|b l1 IH1]; cbn [app last_such].
        - destruct (last_such P l2); [discriminate|]. now rewrite Hpz.
        - destruct (last_such P (l1 ++ z :: l2)); [discriminate|]. auto. }
      split.
      * destruct (P a) eqn:Hpa; [|discriminate]. intros Hx. injection Hx as <-.
        exists [], l. split; [reflexivity|]. split; [exact Hpa|].
        apply forallb_forall. intros z Hz. now rewrite Hnone.
      * intros (pre & post & Hl & Hp & Hpost). destruct pre as [|b pre].
        -- cbn in Hl. injection Hl as <- <-. now rewrite Hp.
        -- cbn in Hl. injection Hl as <- ->.
           rewrite Hnone in Hp; [discriminate|].
           apply in_or_app. right. now left.
Qed.

Lemma prop_defined v :
  is_nullish v = false -> forall k, prop v k = Ok (get v k).
Proof. destruct v; cbn; congruence. Qed.

Definition set_latest_screenshot (u : PartialAgentState) (v : value) :=
  {| chat_history' := chat_history' u; agentOutcome' := agentOutcome' u;
     latest_screenshot' := Some v;
     current_ui_status' := current_ui_status' u;
     current_todo_list' := current_todo_list' u |}.

Definition set_current_ui_status (u : PartialAgentState) (s : UiStatus) :=
  {| chat_history' := chat_history' u; agentOutcome' := agentOutcome' u;
     latest_screenshot' := latest_screenshot' u;
     current_ui_status' := Some s;
     current_todo_list' := current_todo_list' u |}.

Definition set_current_todo_list (u : PartialAgentState) (v : value) :=
  {| chat_history' := chat_history' u; agentOutcome' := agentOutcome' u;
     latest_screenshot' := latest_screenshot' u;
     current_ui_status' := current_ui_status' u;
     current_todo_list' := Some v |}.

(** one turn of the loop on a readable output *)
Definition folded (acc : PartialAgentState * list BaseMessage) (o : ToolOutput)
  : PartialAgentState * list BaseMessage :=
  if has_screenshot o
  then (set_latest_screenshot (fst acc) (shot_of o), snd acc ++ [observation_of o])
  else if is_message_update o
  then (set_current_ui_status (fst acc) (status_of o), snd acc)
  else if is_todo o
  then (set_current_todo_list (fst acc) (tasks_of o), snd acc)
  else acc.

Lemma fold_output_readable acc o :
  readable o = true -> fold_output Number_toString acc o = Ok (folded acc o).
Proof.
  destruct acc as [ns msgs], o as [tn res inp].
  unfold readable, fold_output, folded, has_screenshot, is_message_update,
    is_todo, shot_of, tasks_of, status_of, observation_of.
  cbn [toolName result input fst snd].
  destruct (String.eqb tn "computer") eqn:Ec.
  - apply String.eqb_eq in Ec. subst tn. intros Hr.
    apply andb_true_iff in Hr as [Hres Hinp]. apply negb_true_iff in Hres.
    rewrite (@prop_defined _ Hres). cbn [bindR andb].
    destruct (truthy (get res "screenshot")); cbn [negb orb] in *.
    + apply negb_true_iff in Hinp. rewrite (@prop_defined _ Hinp). reflexivity.
    + reflexivity.
  - cbn [bindR andb].
    destruct (String.eqb tn "message_update") eqn:Em; cbn [orb].
    + intros Hinp. apply negb_true_iff in Hinp.
      rewrite !(@prop_defined _ Hinp). reflexivity.
    + destruct (String.eqb tn "todo") eqn:Et.
      * intros Hinp. apply negb_true_iff in Hinp.
        rewrite (@prop_defined _ Hinp). reflexivity.
      * reflexivity.
Qed.

(** the accumulator after a list of readable outputs *)
Definition folded_all (acc : PartialAgentState * list BaseMessage)
           (outputs : list ToolOutput) : PartialAgentState * list BaseMessage :=
  ({| chat_history' := chat_history' (fst acc);
      agentOutcome' := agentOutcome' (fst acc);
      latest_screenshot' :=
        match last_such has_screenshot outputs with
        | Some o => Some (shot_of o)
        | None => latest_screenshot' (fst acc)
        end;
      current_ui_status' :=
        match last_such is_message_update outputs with
        | Some o => Some (status_of o)
        | None => current_ui_status' (fst acc)
        end;
      current_todo_list' :=
        match last_such is_todo outputs with
        | Some o => Some (tasks_of o)
        | None => current_todo_list' (fst acc)
        end |},
   snd acc ++ List.map observation_of (filter has_screenshot outputs)).

Lemma kinds_exclusive o :
  (has_screenshot o = true -> is_message_update o = false /\ is_todo o = false) /\
  (is_message_update o = true -> is_todo o = false).
Proof.
  destruct o as [tn res inp].
  unfold has_screenshot, is_message_update, is_todo. cbn [toolName result].
  split.
  - intros H. apply andb_true_iff in H as [H _].
    apply String.eqb_eq in H. now subst.
  - intros H. apply String.eqb_eq in H. now subst.
Qed.

Lemma fold_outputs_readable outputs :
  Forall (fun o => readable o = true) outputs ->
  forall acc,
    fold_outputs Number_toString outputs acc = Ok (folded_all acc outputs).
Proof.
  induction 1 as [|o rest Ho _ IH]; intros [ns msgs].
  - unfold folded_all. cbn. rewrite app_nil_r. now destruct ns.
  - cbn [fold_outputs]. rewrite (fold_output_readable _ _ Ho). cbn [bindR].
    rewrite IH. f_equal. unfold folded_all, folded.
    cbn [last_such filter fst snd].
    destruct (kinds_exclusive o) as [Hshot Hmsg].
    destruct (has_screenshot o) eqn:Es.
    + destruct (Hshot eq_refl) as [-> ->]. cbn.
      rewrite <- app_assoc.
      destruct (last_such has_screenshot rest),
        (last_such is_message_update rest), (last_such is_todo rest);
        reflexivity.
    + destruct (is_message_update o) eqn:Em.
      * rewrite (Hmsg eq_refl). cbn.
        destruct (last_such has_screenshot rest),
          (last_such is_message_update rest), (last_such is_todo rest);
          reflexivity.
      * destruct (is_todo o); cbn;
          destruct (last_such has_screenshot rest),
            (last_such is_message_update rest), (last_such is_todo rest);
          reflexivity.
Qed.

(** What [executeTools] returns on a batch whose outputs are readable. *)
Lemma executeTools_readable state w outputs w' :
  run_calls tools (actions_of state) [] w = (Ok outputs, w') ->
  Forall (fun o => readable o = true) outputs ->
  executeTools Number_toString tools state w
  = (Ok (finish state (folded_all (empty_update, []) outputs)), w').
Proof.
  intros Hrun Hall. rewrite executeTools_eq, Hrun.
  now rewrite (fold_outputs_readable Hall).
Qed.

Lemma finish_fields state acc :
  agentOutcome' (finish state acc) = agentOutcome' (fst acc) /\
  latest_screenshot' (finish state acc) = latest_screenshot' (fst acc) /\
  current_ui_status' (finish state acc) = current_ui_status' (fst acc) /\
  current_todo_list' (finish state acc) = current_todo_list' (fst acc) /\
  chat_history' (finish state acc)
  = match snd acc with
    | [] => chat_history' (fst acc)
    | _ :: _ => Some (chat_history state ++ snd acc)
    end.
Proof.
  destruct acc as [ns msgs]. unfold finish. cbn [fst snd].
  destruct msgs; cbn; auto.
Qed.

(** C10: within one batch the last outcome of a kind, in proposal order,
    decides the field that the kind overwrites ([latest_screenshot],
    [current_ui_status], [current_todo_list]), and the history written is
    the history of the state followed by one observation for each outcome
    with a screenshot, in proposal order. *)
Theorem batch_last_write_wins state w outputs w' :
  run_calls tools (actions_of state) [] w = (Ok outputs, w') ->
  Forall (fun o => readable o = true) outputs ->
  exists update,
    executeTools Number_toString tools state w = (Ok update, w') /\
    latest_screenshot' update
    = option_map shot_of (last_such has_screenshot outputs) /\
    current_ui_status' update
    = option_map status_of (last_such is_message_update outputs) /\
    current_todo_list' update
    = option_map tasks_of (last_such is_todo outputs) /\
    chat_history' update
    = match filter has_screenshot outputs with
      | [] => None
      | shots => Some (chat_history state ++ List.map observation_of shots)
      end.
Proof.
  intros Hrun Hall. eexists. split; [apply executeTools_readable; eassumption|].
  destruct (finish_fields state (folded_all (empty_update, []) outputs))
    as (_ & -> & -> & -> & ->).
  unfold folded_all. cbn [fst snd empty_update latest_screenshot'
    current_ui_status' current_todo_list' chat_history' app].
  split; [now destruct (last_such has_screenshot outputs)|].
  split; [now destruct (last_such is_message_update outputs)|].
  split; [now destruct (last_such is_todo outputs)|].
  now destruct (filter has_screenshot outputs).
Qed.

(** ** The conversation *)









End Facts.
End Run.

(* ================================================================== *)
(** * The workflow over the tools of [createAisdk5Tools] *)
(* ================================================================== *)

Module Scout.
Import ZodFacts Workflow Run.

Lemma prop_Ok v k x : prop v k = Ok x -> x = get v k.
Proof. destruct v; cbn [prop]; intros H; try discriminate; congruence. Qed.

(** how the second loop touches the todo list, whatever the output *)
Lemma fold_output_todo nts acc o acc' :
  fold_output nts acc o = Ok acc' ->
  current_todo_list' (fst acc') = current_todo_list' (fst acc) \/
  (toolName o = "todo" /\ current_todo_list' (fst acc') = Some (tasks_of o)).
Proof.
  destruct acc as [ns msgs], o as [tn res inp].
  unfold fold_output, tasks_of. cbn [toolName result input fst snd].
  destruct (String.eqb tn "computer").
  - destruct (prop res "screenshot") as [shot|]; cbn [bindR]; [|discriminate].
    destruct (truthy shot).
    + destruct (prop inp "action"); cbn [bindR]; [|discriminate].
      intros H. injection H as <-. now left.
    + destruct (String.eqb tn "message_update").
      * destruct (prop inp "message"); cbn [bindR]; [|discriminate].
        destruct (prop inp "status"); cbn [bindR]; [|discriminate].
        destruct (prop inp "status_emoji"); cbn [bindR]; [|discriminate].
        intros H. injection H as <-. now left.
      * destruct (String.eqb tn "todo") eqn:Et.
        -- destruct (prop inp "tasks") as [tasks|] eqn:Hp; cbn [bindR];
             [|discriminate].
           intros H. injection H as <-. right.
           apply String.eqb_eq in Et. split; [exact Et|].
           cbn [fst current_todo_list']. f_equal. exact (prop_Ok _ _ Hp).
        -- intros H. injection H as <-. now left.
  - cbn [bindR].
    destruct (String.eqb tn "message_update").
    + destruct (prop inp "message"); cbn [bindR]; [|discriminate].
      destruct (prop inp "status"); cbn [bindR]; [|discriminate].
      destruct (prop inp "status_emoji"); cbn [bindR]; [|discriminate].
      intros H. injection H as <-. now left.
    + destruct (String.eqb tn "todo") eqn:Et.
      * destruct (prop inp "tasks") as [tasks|] eqn:Hp; cbn [bindR];
          [|discriminate].
        intros H. injection H as <-. right.
        apply String.eqb_eq in Et. split; [exact Et|].
        cbn [fst current_todo_list']. f_equal. exact (prop_Ok _ _ Hp).
      * intros H. injection H as <-. now left.
Qed.

Definition todo_list_ok (written : option value) : Prop :=
  match written with
  | Some tasks => Aisdk5.in_progress_count tasks <= 1
  | None => True
  end.

Lemma fold_outputs_todo nts outputs :
  Forall (fun o => toolName o = "todo" ->
                   Aisdk5.in_progress_count (tasks_of o) <= 1) outputs ->
  forall acc acc',
    fold_outputs nts outputs acc = Ok acc' ->
    todo_list_ok (current_todo_list' (fst acc)) ->
    todo_list_ok (current_todo_list' (fst acc')).
Proof.
  induction 1 as [|o rest Ho _ IH]; intros acc acc' H Hacc.
  - cbn in H. injection H as <-. exact Hacc.
  - cbn [fold_outputs] in H.
    destruct (fold_output nts acc o) as [acc1|] eqn:H1; cbn [bindR] in H;
      [|discriminate].
    apply (IH _ _ H).
    destruct (fold_output_todo _ _ _ H1) as [-> | [Hname ->]];
      [exact Hacc | exact (Ho Hname)].
Qed.

Section Registry.
Variable W : Type.
Variable URL_parses : string -> bool.
Variable toLowerCase : string -> string.
Variable executeTool : string -> value -> Async W value.
Variable Number_toString : Q -> string.
Variable agent : list BaseMessage -> Async W AgentOutcome.

(** the tools that [createScoutAgent] and the workflow are given *)
Definition tools : list (LangChain.DynamicStructuredTool W) :=
  Aisdk5.createAisdk5Tools URL_parses toLowerCase executeTool.

Lemma todo_tool t :
  lookup tools "todo" = Some t ->
  LangChain.schema t = Aisdk5.todo_parameters.
Proof.
  unfold lookup, tools, Aisdk5.createAisdk5Tools, Aisdk5.ScoutTools.
  cbn [List.map find LangChain.name String.eqb Ascii.eqb Bool.eqb].
  intros H. injection H as <-. reflexivity.
Qed.

Lemma validated_todo batch o :
  validated tools batch o -> LangChain.isToolCall (input o) = false ->
  toolName o = "todo" ->
  Aisdk5.in_progress_count (tasks_of o) <= 1.
Proof.
  intros [_ (t & Hfind & Hacc)] Hplain Hname. rewrite Hname in Hfind.
  rewrite (todo_tool Hfind) in Hacc.
  rewrite (proj1 (plain_argument _ Hplain)) in Hacc.
  now apply Contracts.todo_accepted_one_in_progress.
Qed.

(** [func] never rejects: what the environment throws is caught *)
Lemma func_resolves toolName input w :
  exists raw w', Aisdk5.tool_func executeTool toolName input w = (Ok raw, w').
Proof.
  unfold Aisdk5.tool_func, try_catch, bind, ret.
  destruct (executeTool toolName input w) as [[result|error] w1]; eauto.
Qed.

(** ** Tasks that were never validated *)

Definition a_task (id title status : string) : value :=
  VObj [("id", VStr id); ("title", VStr title); ("status", VStr status)].

(** a todo call whose arguments read as a tool call of their own *)
Definition unchecked_todo : AgentToolCall :=
  {| name := "todo";
     args := VObj [("type", VStr "tool_call");
                   ("args", VObj [("tasks", VArr [a_task "1" "Read the files"
                                                         "pending"])]);
                   ("tasks", VArr [a_task "1" "Read the files" "in_progress";
                                   a_task "2" "Write the report" "in_progress"])]
  |}.

Lemma unchecked_todo_run w :
  exists raw w',
    run_calls tools [unchecked_todo] [] w
    = (Ok [outcome_of unchecked_todo raw], w').
Proof.
  erewrite run_calls_known by reflexivity.
  assert (Hparse : Zod.parse Aisdk5.todo_parameters
                     (LangChain.inputForValidation (args unchecked_todo))
                   = Some (VObj [("tasks", VArr [a_task "1" "Read the files"
                                                        "pending"]);
                                 ("request_user_approval", VBool false)]))
    by reflexivity.
  erewrite invoke_accepted by first [exact Hparse | reflexivity].
  destruct (func_resolves "todo"
              (VObj [("tasks", VArr [a_task "1" "Read the files" "pending"]);
                     ("request_user_approval", VBool false)]) w)
    as (raw & w' & Hfunc).
  exists raw, w'. cbn [LangChain.func]. rewrite Hfunc. reflexivity.
Qed.

(** C6 fails on the code.  The contract of todo rejects two tasks in
    progress, but LangChain reads arguments with [type: "tool_call"] as a
    tool call and validates their [args] in their place, while the second
    loop copies [tasks] from the arguments as proposed.  So the call goes
    through, the tools node takes its step, and the merged
    [current_todo_list] holds two tasks in progress. *)
Theorem unvalidated_tasks_reach_the_list state w :
  accepts Aisdk5.todo_parameters (args unchecked_todo) = false /\
  exists update w',
    executeTools Number_toString tools (with_calls state [unchecked_todo]) w
    = (Ok update, w') /\
    step Number_toString agent tools
         (tools_node, with_calls state [unchecked_todo], w)
         (agent_node, apply_update (with_calls state [unchecked_todo]) update, w') /\
    current_todo_list (apply_update (with_calls state [unchecked_todo]) update)
    = get (args unchecked_todo) "tasks" /\
    Aisdk5.in_progress_count
      (current_todo_list (apply_update (with_calls state [unchecked_todo]) update))
    = 2.
Proof.
  split; [reflexivity|].
  destruct (unchecked_todo_run w) as (raw & w' & Hrun).
  assert (Hexec : executeTools Number_toString tools
                    (with_calls state [unchecked_todo]) w
                  = (Ok (finish (with_calls state [unchecked_todo])
                           (folded_all Number_toString (empty_update, [])
                              [outcome_of unchecked_todo raw])), w')).
  { apply executeTools_readable; [exact Hrun|].
    constructor; [reflexivity | constructor]. }
  eexists. exists w'. split; [exact Hexec|].
  split; [apply step_tools; exact Hexec|].
  split; reflexivity.
Qed.

(** ** A call that breaks its contract *)

Definition out_of_screen_click : AgentToolCall :=
  {| name := "computer";
     args := VObj [("action", VStr "left_click");
                   ("coordinate", VArr [VNum 1025%Q; VNum 10%Q])] |}.

(** C1 fails on the code.  A computer call with the coordinate
    [(1025, 10)] breaks the contract; [tool.invoke] throws, nothing in
    [executeTools] catches it, so the batch produces no outcome, the calls
    after it are not run, and the tools node rejects: the run takes no
    further step. *)
Theorem contract_violation_rejects_the_batch state rest w :
  accepts Aisdk5.computer_parameters (args out_of_screen_click) = false /\
  executeTools Number_toString tools
               (with_calls state (out_of_screen_click :: rest)) w
  = (Throw ToolInputParsingException, w) /\
  ~ (exists c,
        step Number_toString agent tools
             (tools_node, with_calls state (out_of_screen_click :: rest), w) c).
Proof.
  assert (Hthrow : executeTools Number_toString tools
                     (with_calls state (out_of_screen_click :: rest)) w
                   = (Throw ToolInputParsingException, w)) by reflexivity.
  split; [reflexivity|]. split; [exact Hthrow|].
  intros [c Hstep]. inversion Hstep; subst. congruence.
Qed.

(** ** A name that no tool bears, next to such a call *)

Definition unknown_call : AgentToolCall :=
  {| name := "not_a_real_tool"; args := VObj [] |}.

(** C9 fails on the code, by the defect of C1.  The call with the unknown
    name is dropped: alone it gives the empty update, throws nothing and
    leaves the world as it was.  But the calls next to it are executed only
    up to the first that breaks its contract: with the out-of-screen click
    after it the batch is rejected, and whatever comes after the click,
    however well-formed, is never handed to the environment. *)
Theorem unknown_tool_beside_a_violation state rest w :
  lookup tools (name unknown_call) = None /\
  executeTools Number_toString tools (with_calls state [unknown_call]) w
  = (Ok empty_update, w) /\
  executeTools Number_toString tools
               (with_calls state (unknown_call :: out_of_screen_click :: rest)) w
  = (Throw ToolInputParsingException, w) /\
  ~ (exists c,
        step Number_toString agent tools
             (tools_node,
              with_calls state (unknown_call :: out_of_screen_click :: rest), w)
             c).
Proof.
  assert (Hnone : lookup tools (name unknown_call) = None) by reflexivity.
  assert (Hthrow : executeTools Number_toString tools
                     (with_calls state
                        (unknown_call :: out_of_screen_click :: rest)) w
                   = (Throw ToolInputParsingException, w)) by reflexivity.
  split; [exact Hnone|]. split; [now apply unknown_call_alone|].
  split; [exact Hthrow|].
  intros [c Hstep]. inversion Hstep; subst. congruence.
Qed.

(** The failure of the environment, by contrast, comes back as data. *)
Lemma environment_failure_is_data toolName input error w w' :
  executeTool toolName input w = (Throw error, w') ->
  Aisdk5.tool_func executeTool toolName input w
  = (Ok (JSON.stringify
           (VObj [("error", VStr (Promise.message error));
                  ("tool", VStr toolName);
                  ("input", input);
                  ("status", VStr "FAILURE")])), w').
Proof.
  intros H. unfold Aisdk5.tool_func, try_catch, bind. now rewrite H.
Qed.

(** A computer call whose result is [null] makes the second loop read a
    property of [null]. *)
Lemma null_result_raises state w w' :
  executeTool "computer" (VObj [("action", VStr "screenshot")]) w
  = (Ok VNull, w') ->
  executeTools Number_toString tools
    (with_calls state
       [{| name := "computer"; args := VObj [("action", VStr "screenshot")] |}])
    w
  = (Throw (TypeError "null" "screenshot"), w').
Proof.
  intros H. rewrite executeTools_eq.
  cbv [actions_of with_calls agentOutcome tool_calls].
  erewrite run_calls_known by reflexivity.
  assert (Hparse : Zod.parse Aisdk5.computer_parameters
                     (LangChain.inputForValidation
                        (VObj [("action", VStr "screenshot")]))
                   = Some (VObj [("action", VStr "screenshot")]))
    by reflexivity.
  erewrite invoke_accepted by first [exact Hparse | reflexivity].
  cbn [LangChain.func].
  unfold Aisdk5.tool_func, try_catch, bind. rewrite H. reflexivity.
Qed.

(** ** Progress reports *)

Definition scanning_files : AgentToolCall :=
  {| name := "message_update";
     args := VObj [("message", VStr "Scanning files");
                   ("status", VStr "Scanning files");
                   ("status_emoji", VStr "🔍")] |}.

Lemma scanning_files_run w :
  exists document w',
    run_calls tools [scanning_files] [] w
    = (Ok [{| toolName := "message_update"; result := document;
              input := args scanning_files |}], w').
Proof.
  erewrite run_calls_known by reflexivity.
  assert (Hparse : Zod.parse Aisdk5.message_update_parameters
                     (LangChain.inputForValidation (args scanning_files))
                   = Some (args scanning_files))
    by reflexivity.
  erewrite invoke_accepted by first [exact Hparse | reflexivity].
  cbn [LangChain.func].
  destruct (func_resolves "message_update" (args scanning_files) w)
    as (raw & w' & Hfunc).
  rewrite Hfunc. exists (decoded raw), w'. reflexivity.
Qed.

Lemma message_update_not_screenshot o :
  is_message_update o = true -> has_screenshot o = false.
Proof.
  intros H. destruct (has_screenshot o) eqn:E; [|reflexivity].
  apply (kinds_exclusive o) in E as [E _]. congruence.
Qed.

(** C2: in a batch with message_update outcomes the merged
    [current_ui_status] is the record built from the input of the (last)
    message_update call, [message] from [message], [status] from [status],
    [emoji] from [status_emoji]; that outcome adds nothing to the history,
    which is written as for the batch without it.  For the proposal of
    "Scanning files" the merged status is that record and the history is
    the one before. *)
Theorem message_update_replaces_status :
  (forall (some_tools : list (LangChain.DynamicStructuredTool W))
          state w pre o post w',
      run_calls some_tools (actions_of state) [] w = (Ok (pre ++ o :: post), w') ->
      Forall (fun o' => readable o' = true) (pre ++ o :: post) ->
      is_message_update o = true ->
      forallb (fun o' => negb (is_message_update o')) post = true ->
      exists update,
        executeTools Number_toString some_tools state w = (Ok update, w') /\
        current_ui_status (apply_update state update)
        = Some {| message := String_ Number_toString (get (input o) "message");
                  status := String_ Number_toString (get (input o) "status");
                  emoji := String_ Number_toString (get (input o) "status_emoji") |} /\
        chat_history' update
        = match filter has_screenshot (pre ++ post) with
          | [] => None
          | shots =>
              Some (chat_history state
                      ++ List.map (observation_of Number_toString) shots)
          end) /\
  (forall state w,
      exists update w',
        executeTools Number_toString tools (with_calls state [scanning_files]) w
        = (Ok update, w') /\
        current_ui_status (apply_update (with_calls state [scanning_files]) update)
        = Some {| message := "Scanning files"; status := "Scanning files";
                  emoji := "🔍" |} /\
        chat_history (apply_update (with_calls state [scanning_files]) update)
        = chat_history state).
Proof.
  split.
  - intros some_tools state w pre o post w' Hrun Hall Ho Hpost.
    eexists. split; [apply executeTools_readable; eassumption|].
    destruct (finish_fields state
                (folded_all Number_toString (empty_update, [])
                   (pre ++ o :: post)))
      as (_ & _ & Hstatus & _ & Hhistory).
    split.
    + unfold apply_update. cbn [current_ui_status].
      rewrite Hstatus. unfold folded_all. cbn [fst current_ui_status'].
      assert (Hlast : last_such is_message_update (pre ++ o :: post) = Some o)
        by (apply last_such_Some; exists pre, post; auto).
      rewrite Hlast. reflexivity.
    + rewrite Hhistory. unfold folded_all.
      cbn [fst snd empty_update chat_history' app].
      rewrite !filter_app. cbn [filter].
      rewrite (message_update_not_screenshot _ Ho).
      now destruct (filter has_screenshot pre ++ filter has_screenshot post).
  - intros state w. destruct (scanning_files_run w) as (document & w' & Hrun).
    exists (finish (with_calls state [scanning_files])
                   (folded_all Number_toString (empty_update, [])
                      [{| toolName := "message_update"; result := document;
                          input := args scanning_files |}])), w'.
    split; [|split; reflexivity].
    apply executeTools_readable; [exact Hrun|].
    repeat constructor.
Qed.

End Registry.
End Scout.

(* ================================================================== *)
(** * Worked examples *)
(* ================================================================== *)

Module Examples.
Import Workflow Run.

(** An environment that answers every call with a screenshot, a model that
    keeps proposing one todo list, and a world with no state of its own. *)
Definition screen : string -> value -> Async unit value :=
  fun _ _ => ret (VObj [("screenshot", VStr "iVBORw0KGgo=")]).

Definition any_url (s : string) : bool := true.

(** the examples hold no upper case *)
Definition lower (s : string) : string := s.

(** the examples print whole numbers only *)
Definition print (q : Q) : string :=
  DecimalString.NilZero.string_of_int (Z.to_int (Qnum q / Zpos (Qden q))).

Definition the_tools : list (LangChain.DynamicStructuredTool unit) :=
  Scout.tools any_url lower screen.

Definition task (id title status : string) : value :=
  VObj [("id", VStr id); ("title", VStr title); ("status", VStr status)].

Definition todo_call : AgentToolCall :=
  {| name := "todo";
     args := VObj [("tasks", VArr [task "1" "Read the files" "completed";
                                   task "2" "Write the report" "in_progress";
                                   task "3" "Send it" "pending"])] |}.

Definition planner : list BaseMessage -> Async unit AgentOutcome :=
  fun _ => ret {| tool_calls := Some [todo_call] |}.

Definition start : AgentState :=
  {| chat_history := [HumanMessage (plain "Tidy the workspace")];
     agentOutcome := None;
     latest_screenshot := VUndefined;
     current_ui_status := None;
     current_todo_list := VUndefined |}.

Definition take_screenshot : AgentToolCall :=
  {| name := "computer"; args := VObj [("action", VStr "screenshot")] |}.

Definition report (text emoji : string) : AgentToolCall :=
  {| name := "message_update";
     args := VObj [("message", VStr text); ("status", VStr text);
                   ("status_emoji", VStr emoji)] |}.

Definition not_a_real_tool : AgentToolCall :=
  {| name := "not_a_real_tool"; args := VObj [] |}.

Definition shot : value := VObj [("screenshot", VStr "iVBORw0KGgo=")].

Definition output_of (call : AgentToolCall) : ToolOutput :=
  {| toolName := name call; result := shot; input := args call |}.

(** one turn of the agent, then one of the tools *)
Lemma planner_run :
  exists c,
    steps print planner the_tools (agent_node, start, tt) c /\
    node_of c = agent_node /\
    current_todo_list (state_of c) = get (args todo_call) "tasks".
Proof.
  eexists. split.
  - eapply steps_step; [eapply steps_step; [apply steps_refl|]|].
    + eapply step_agent. reflexivity.
    + eapply step_tools. reflexivity.
  - split; reflexivity.
Qed.

(** ** The contracts at concrete calls *)

Definition scroll_up : value :=
  VObj [("action", VStr "scroll"); ("scroll_direction", VStr "up");
        ("scroll_amount", VNum 3%Q)].

Definition scroll_no_amount : value :=
  VObj [("action", VStr "scroll"); ("scroll_direction", VStr "up")].

Definition wait_no_duration : value := VObj [("action", VStr "wait")].

Lemma computer_requirements_example :
  accepts Aisdk5.computer_parameters scroll_up = true /\
  (exists n, get scroll_up "scroll_amount" = VNum n /\ (0 <= n)%Q) /\
  accepts Aisdk5.computer_parameters scroll_no_amount = false /\
  accepts Aisdk5.computer_parameters wait_no_duration = false.
Proof.
  split; [reflexivity|]. split; [|split].
  - destruct (Contracts.computer_action_requirements scroll_up) as [H _].
    destruct (H eq_refl) as (_ & _ & _ & Hscroll & _).
    exact (proj2 (Hscroll eq_refl)).
  - destruct (Contracts.computer_action_requirements scroll_no_amount)
      as (_ & H & _).
    apply H; reflexivity.
  - destruct (Contracts.computer_action_requirements wait_no_duration)
      as (_ & _ & H).
    apply H; reflexivity.
Defined.

Definition option_ (emoji title : string) : value :=
  VObj [("emoji", VStr emoji); ("title", VStr title);
        ("prompt", VStr ("Please " ++ title))].

Definition question (text : string) : value :=
  VObj [("type", VStr "text"); ("question", VStr text)].

Definition selects : value := VArr [option_ "✅" "deploy"; option_ "🔍" "review"].

Definition inputs : value := VArr [question "Which branch?"; question "Which tag?"].

Definition ask_select : value :=
  VObj [("message", VStr "Done. What next?"); ("follow_ups_select", selects)].

Definition ask_both : value :=
  VObj [("message", VStr "Done. What next?"); ("follow_ups_input", inputs);
        ("follow_ups_select", selects)].

Definition ask_neither : value := VObj [("message", VStr "Done. What next?")].

Lemma message_ask_example :
  accepts Aisdk5.message_ask_parameters ask_both = false /\
  accepts Aisdk5.message_ask_parameters ask_neither = false /\
  accepts Aisdk5.message_ask_parameters ask_select = true.
Proof.
  split; [|split].
  - destruct (Contracts.message_ask_follow_ups_exclusive ask_both) as (H & _).
    apply H; discriminate.
  - destruct (Contracts.message_ask_follow_ups_exclusive ask_neither)
      as (_ & H & _).
    apply H; reflexivity.
  - destruct (Contracts.message_ask_follow_ups_exclusive ask_select)
      as (_ & _ & H).
    apply H.
    + eexists. reflexivity.
    + reflexivity.
    + reflexivity.
    + right. split; [reflexivity|].
      eexists. split; [reflexivity|]. split; [cbn; lia|].
      repeat constructor.
Defined.

(** ** Runs *)







Lemma routing_example :
  after_agent start = END /\
  after_agent (with_calls start []) = END /\
  after_agent (with_calls start [todo_call]) = tools_node /\
  (exists c,
      step print planner the_tools
           (tools_node, with_calls start [todo_call], tt) c /\
      node_of c = agent_node).
Proof.
  destruct (routing_follows_the_proposal print planner the_tools)
    as (_ & Hnone & _ & Hempty & Hsome & _ & Hback).
  split; [apply Hnone; reflexivity|].
  split; [apply Hempty; reflexivity|].
  split; [apply (Hsome _ todo_call []); reflexivity|].
  eexists. split.
  - eapply step_tools. reflexivity.
  - reflexivity.
Defined.

Definition busy_batch : list AgentToolCall :=
  [take_screenshot; report "Scanning files" "🔍"; take_screenshot;
   report "Writing the report" "📝"].

Lemma batch_example :
  exists update,
    executeTools print the_tools (with_calls start busy_batch) tt
    = (Ok update, tt) /\
    current_ui_status' update
    = Some {| message := "Writing the report"; status := "Writing the report";
              emoji := "📝" |} /\
    option_map (@List.length BaseMessage) (chat_history' update) = Some 3.
Proof.
  destruct (@batch_last_write_wins unit print the_tools
              (with_calls start busy_batch) tt
              (List.map output_of busy_batch) tt eq_refl)
    as (update & Hexec & _ & Hstatus & _ & Hhistory).
  - repeat constructor.
  - exists update. split; [exact Hexec|]. split; [exact Hstatus|].
    rewrite Hhistory. reflexivity.
Defined.

Lemma message_update_example :
  exists update,
    executeTools print the_tools (with_calls start busy_batch) tt
    = (Ok update, tt) /\
    current_ui_status (apply_update (with_calls start busy_batch) update)
    = Some {| message := "Writing the report"; status := "Writing the report";
              emoji := "📝" |}.
Proof.
  destruct (Scout.message_update_replaces_status any_url lower screen print)
    as [H _].
  destruct (H the_tools (with_calls start busy_batch) tt
              (List.map output_of
                 [take_screenshot; report "Scanning files" "🔍"; take_screenshot])
              (output_of (report "Writing the report" "📝")) [] tt
              eq_refl)
    as (update & Hexec & Hstatus & _).
  - repeat constructor.
  - reflexivity.
  - reflexivity.
  - exists update. split; [exact Hexec | exact Hstatus].
Defined.

End Examples.

(* ================================================================== *)
(** * More on the tool contracts *)
(* ================================================================== *)

Module Paths.
Import ZodFacts Aisdk5.

Lemma prefix_iff p s :
  String.prefix p s = true <-> exists rest, s = (p ++ rest)%string.
Proof.
  revert s. induction p as [|a p IH]; intros s.
  - split; [|now destruct s]. intros _. exists s. reflexivity.
  - destruct s as [|b s]; cbn [String.prefix String.append].
    + split; [discriminate|]. intros [rest H]. discriminate.
    + destruct (ascii_dec a b) as [<-|Hne].
      * rewrite IH. split; intros [rest H]; exists rest; congruence.
      * split; [discriminate|]. intros [rest H]. congruence.
Qed.

Lemma string_check_inv checks v :
  accepts (ZodString checks) v = true <->
  exists s, v = VStr s /\ forallb (check_str s) checks = true.
Proof.
  unfold accepts. cbn [Zod.parse]. destruct v; try (split; [discriminate|]);
    try (intros (s0 & H & _); discriminate).
  destruct (forallb (check_str s) checks) eqn:E; split; try discriminate.
  - intros _. eauto.
  - reflexivity.
  - intros (s0 & H & H0). congruence.
Qed.

(** X1: the path check is a check of the prefix and of nothing else. *)
Theorem AbsolutePath_accepts_iff (v : value) :
  accepts AbsolutePath v = true <->
  exists rest,
    v = VStr ("/project/workspace/" ++ rest) \/
    v = VStr ("/home/scrapybara/" ++ rest).
Proof.
  unfold AbsolutePath. rewrite string_check_inv. split.
  - intros (s & -> & H). cbn [forallb check_str] in H.
    rewrite andb_true_r in H. unfold AbsolutePath_re in H.
    apply orb_true_iff in H as [H | H]; apply prefix_iff in H as [rest ->];
      exists rest; auto.
  - intros [rest [-> | ->]]; eexists; (split; [reflexivity|]);
      cbn [forallb check_str]; rewrite andb_true_r; unfold AbsolutePath_re;
      apply orb_true_iff; [left | right]; apply prefix_iff; eauto.
Qed.

(** ** [owner/repo] *)

Lemma split_slash_app s owner repo :
  split_slash s = Some (owner, repo) -> s = (owner ++ "/" ++ repo)%string.
Proof.
  revert owner. induction s as [|c s IH]; intros owner; cbn [split_slash].
  - discriminate.
  - destruct (Ascii.eqb c "/") eqn:E.
    + apply Ascii.eqb_eq in E. subst c. intros H. injection H as <- <-.
      reflexivity.
    + destruct (split_slash s) as [[a b]|]; [|discriminate].
      intros H. injection H as <- <-. cbn. f_equal. now apply IH.
Qed.

Lemma split_slash_first owner repo :
  all_chars repo_char owner = true ->
  split_slash (owner ++ "/" ++ repo) = Some (owner, repo).
Proof.
  induction owner as [|c owner IH]; cbn [all_chars String.append split_slash].
  - reflexivity.
  - intros H. apply andb_true_iff in H as [Hc Hrest].
    destruct (Ascii.eqb c "/") eqn:E.
    + apply Ascii.eqb_eq in E. subst c. discriminate Hc.
    + specialize (IH Hrest). cbn [String.append] in IH. now rewrite IH.
Qed.

(** X2: a repository is accepted exactly when it reads [owner/repo], both
    parts non-empty and made of letters, digits, [_], [.] and [-]. *)
Theorem RepoFormat_accepts_iff (v : value) :
  accepts RepoFormat v = true <->
  exists owner repo,
    v = VStr (owner ++ "/" ++ repo) /\
    owner <> "" /\ repo <> "" /\
    all_chars repo_char owner = true /\ all_chars repo_char repo = true.
Proof.
  unfold RepoFormat. rewrite string_check_inv. split.
  - intros (s & -> & H). cbn [forallb check_str] in H.
    rewrite andb_true_r in H. unfold RepoFormat_re in H.
    destruct (split_slash s) as [[owner repo]|] eqn:E; [|discriminate].
    apply split_slash_app in E.
    apply andb_true_iff in H as [H Hcr].
    apply andb_true_iff in H as [H Hr].
    apply andb_true_iff in H as [Ho Hco].
    unfold nonempty in Ho, Hr. apply negb_true_iff in Ho, Hr.
    apply String.eqb_neq in Ho, Hr.
    exists owner, repo. subst s. auto.
  - intros (owner & repo & -> & Ho & Hr & Hco & Hcr).
    eexists. split; [reflexivity|]. cbn [forallb check_str].
    rewrite andb_true_r. unfold RepoFormat_re.
    rewrite (split_slash_first _ repo Hco), Hco, Hcr. unfold nonempty.
    apply String.eqb_neq in Ho, Hr. now rewrite Ho, Hr.
Qed.

End Paths.

Module MoreContracts.
Import ZodFacts Contracts Aisdk5 Paths.

Ltac field_of H :=
  eapply parse_object_field with (2 := H); [nodup_keys | in_shape].

(** ** bash_run *)

Definition reserved_words : list string :=
  ["find"; "grep"; "cat"; "head"; "tail"; "ls"].

Lemma js_length_nonempty s : 1 <= js_length s -> s <> "".
Proof. intros H ->. cbn in H. lia. Qed.

(** X3: what the bash_run contract lets through is never a reserved
    command: the command is a non-empty string that does not begin with
    [find], [grep], [cat], [head], [tail] or [ls] followed by white space or
    the end, and the description has 5 to 150 code units.  Each reserved
    word, alone or followed by a blank and anything, is caught; a command
    that begins with a blank is not. *)
Theorem bash_run_reserved_commands :
  (forall args,
      accepts bash_run_parameters args = true ->
      exists c d,
        get args "command" = VStr c /\ c <> "" /\
        reserved_command_re c = false /\
        get args "description" = VStr d /\
        5 <= js_length d /\ js_length d <= 150) /\
  (forall w rest,
      In w reserved_words ->
      reserved_command_re w = true /\
      reserved_command_re (w ++ " " ++ rest) = true) /\
  (forall c, reserved_command_re (" " ++ c) = false).
Proof.
  split; [|split].
  - intros args Hacc. apply accepts_true in Hacc as [data H].
    unfold bash_run_parameters in H.
    assert (Hc : Zod.parse
                   (ZodEffects (ZodString [SMin 1])
                      (fun c => match c with
                                | VStr c => negb (reserved_command_re c)
                                | _ => false
                                end))
                   (get args "command") = Some (get data "command"))
      by field_of H.
    assert (Hd : Zod.parse (ZodString [SMin 5; SMax 150]) (get args "description")
                 = Some (get data "description")) by field_of H.
    apply parse_effects_inv in Hc as [Hc Hres].
    apply parse_string_inv in Hc as [Hsame (c & Hcv & Hmin)].
    apply parse_string_inv in Hd as [_ (d & Hdv & Hlen)].
    rewrite Hsame, Hcv in Hres. apply negb_true_iff in Hres.
    cbn [forallb check_str] in Hmin, Hlen.
    rewrite andb_true_r in Hmin, Hlen.
    apply andb_true_iff in Hlen as [Hlo Hhi].
    apply Nat.leb_le in Hmin, Hlo, Hhi.
    exists c, d. repeat split; auto. now apply js_length_nonempty.
  - intros w rest Hin. cbn [reserved_words In] in Hin.
    repeat (destruct Hin as [<- | Hin]; [split; reflexivity|]).
    destruct Hin.
  - intros c. reflexivity.
Qed.

(** ** edit *)

Lemma edit_operation_inv e e' :
  Zod.parse EditOperation e = Some e' ->
  exists old new,
    get e "old_string" = VStr old /\ get e "new_string" = VStr new /\
    old <> "" /\ old <> new.
Proof.
  unfold EditOperation. intros H. apply parse_effects_inv in H as [H Hne].
  assert (Ho : Zod.parse (ZodString [SMin 1]) (get e "old_string")
               = Some (get e' "old_string")) by field_of H.
  assert (Hn : Zod.parse (ZodString []) (get e "new_string")
               = Some (get e' "new_string")) by field_of H.
  apply parse_string_inv in Ho as [Ho (old & Hov & Hmin)].
  apply parse_string_inv in Hn as [Hn (new & Hnv & _)].
  rewrite Ho, Hn, Hov, Hnv in Hne. cbn [strict_eq] in Hne.
  apply negb_true_iff, String.eqb_neq in Hne.
  cbn [forallb check_str] in Hmin. rewrite andb_true_r in Hmin.
  apply Nat.leb_le in Hmin.
  exists old, new. repeat split; auto. now apply js_length_nonempty.
Qed.

(** X4: an accepted edit call names a file under an allowed root and
    carries at least one edit; every edit replaces a non-empty string by a
    different one. *)
Theorem edit_never_a_no_op (args : value) :
  accepts edit_parameters args = true ->
  accepts AbsolutePath (get args "file_path") = true /\
  exists edits,
    get args "edits" = VArr edits /\ edits <> [] /\
    Forall (fun e => exists old new,
                get e "old_string" = VStr old /\ get e "new_string" = VStr new /\
                old <> "" /\ old <> new) edits.
Proof.
  intros Hacc. apply accepts_true in Hacc as [data H].
  unfold edit_parameters in H.
  assert (Hp : Zod.parse AbsolutePath (get args "file_path")
               = Some (get data "file_path")) by field_of H.
  assert (He : Zod.parse (ZodArray EditOperation (Some 1)) (get args "edits")
               = Some (get data "edits")) by field_of H.
  split; [apply accepts_true; eauto|].
  apply parse_array_inv in He as (l & out & Hl & _ & Hel & Hmin).
  exists l. split; [exact Hl|]. split.
  - intros ->. discriminate Hmin.
  - apply parse_elements_Forall2 in Hel. clear Hmin Hl.
    induction Hel as [|e e' l out He _ IH]; constructor; auto.
    exact (edit_operation_inv _ He).
Qed.

(** ** socials_search *)

(** X5: an accepted socials_search call has a non-empty query or a
    non-empty username, and a username never begins with [@]. *)
Theorem socials_search_needs_a_subject (args : value) :
  accepts socials_search_parameters args = true ->
  ((exists q, get args "query" = VStr q /\ q <> "") \/
   (exists u, get args "username" = VStr u /\ u <> "")) /\
  (forall u, get args "username" = VStr u -> startsWith u "@" = false).
Proof.
  intros Hacc. apply accepts_true in Hacc as [data H].
  unfold socials_search_parameters in H.
  apply parse_effects_inv in H as [H Hany].
  assert (Hq : Zod.parse (ZodOptional (ZodString [])) (get args "query")
               = Some (get data "query")) by field_of H.
  assert (Hu : Zod.parse
                 (ZodEffects (ZodOptional (ZodString []))
                    (fun u => negb (truthy u) ||
                              match u with
                              | VStr u => negb (startsWith u "@")
                              | _ => false
                              end))
                 (get args "username") = Some (get data "username"))
    by field_of H.
  apply parse_effects_inv in Hu as [Hu Hat].
  split.
  - unfold or_else in Hany.
    destruct (truthy (get data "query")) eqn:Tq.
    + left. exact (@text_present _ _ Hq Tq).
    + right. exact (@text_present _ _ Hu Hany).
  - intros u Hv. rewrite Hv in Hu. cbn in Hu. injection Hu as Hu.
    rewrite <- Hu in Hat. cbn [truthy] in Hat.
    destruct (startsWith u "@") eqn:E; [|reflexivity].
    destruct u as [|c u]; [discriminate E|]. cbn in Hat. discriminate.
Qed.

(** ** lsp *)

Lemma lsp_refinement_true data :
  lsp_refinement data = true ->
  (one_of ["definitions"; "references"; "hover"] (get data "operation") = true ->
   is_undefined (get data "line") = false /\
   is_undefined (get data "column") = false /\
   truthy (get data "file_path") = true) /\
  (one_of ["symbols"; "diagnostics"] (get data "operation") = true ->
   truthy (get data "file_path") = true) /\
  (is_str "workspace-symbols" (get data "operation") = true ->
   truthy (get data "query") = true).
Proof.
  unfold lsp_refinement. cbv zeta.
  destruct (one_of ["definitions"; "references"; "hover"] (get data "operation")),
    (one_of ["symbols"; "diagnostics"] (get data "operation")),
    (is_str "workspace-symbols" (get data "operation")),
    (is_undefined (get data "line")), (is_undefined (get data "column")),
    (truthy (get data "file_path")), (truthy (get data "query"));
    cbn; intros H; try discriminate H; repeat split; intros; try discriminate;
    auto.
Qed.

Lemma position_present v d :
  Zod.parse (ZodOptional (ZodNumber [int; nonnegative])) v = Some d ->
  is_undefined d = false ->
  exists n, v = VNum n /\ is_integer n = true /\ (0 <= n)%Q.
Proof.
  intros H Hd. pose proof (optional_defined _ _ H Hd) as Hn.
  apply parse_number_inv in Hn as [_ (q & -> & Hc)].
  exists q. split; [reflexivity|].
  cbn in Hc. rewrite andb_true_r in Hc.
  apply andb_true_iff in Hc as [Hi Hp]. split; [exact Hi|].
  now apply Qle_bool_iff in Hp.
Qed.

Lemma path_present v d :
  Zod.parse (ZodOptional AbsolutePath) v = Some d -> truthy d = true ->
  accepts AbsolutePath v = true.
Proof.
  intros H Ht. apply accepts_true. exists d. eapply optional_truthy; eauto.
Qed.

(** X6: the requirements of the lsp tool that depend on the operation.
    [definitions], [references] and [hover] come with a file under an
    allowed root and a line and a column that are non-negative integers;
    [symbols] and [diagnostics] come with such a file; [workspace-symbols]
    comes with a non-empty query. *)
Theorem lsp_operation_requirements (args : value) :
  accepts lsp_parameters args = true ->
  (forall op, In op ["definitions"; "references"; "hover"] ->
              get args "operation" = VStr op ->
              accepts AbsolutePath (get args "file_path") = true /\
              (exists n, get args "line" = VNum n /\
                         is_integer n = true /\ (0 <= n)%Q) /\
              (exists n, get args "column" = VNum n /\
                         is_integer n = true /\ (0 <= n)%Q)) /\
  (forall op, In op ["symbols"; "diagnostics"] ->
              get args "operation" = VStr op ->
              accepts AbsolutePath (get args "file_path") = true) /\
  (get args "operation" = VStr "workspace-symbols" ->
   exists q, get args "query" = VStr q /\ q <> "").
Proof.
  intros Hacc. apply accepts_true in Hacc as [data H].
  unfold lsp_parameters in H. apply parse_effects_inv in H as [H Href].
  assert (Hop : Zod.parse LSPOperation (get args "operation")
                = Some (get data "operation")) by field_of H.
  assert (Hfile : Zod.parse (ZodOptional AbsolutePath) (get args "file_path")
                  = Some (get data "file_path")) by field_of H.
  assert (Hline : Zod.parse (ZodOptional (ZodNumber [int; nonnegative]))
                            (get args "line") = Some (get data "line"))
    by field_of H.
  assert (Hcol : Zod.parse (ZodOptional (ZodNumber [int; nonnegative]))
                           (get args "column") = Some (get data "column"))
    by field_of H.
  assert (Hquery : Zod.parse (ZodOptional (ZodString [])) (get args "query")
                   = Some (get data "query")) by field_of H.
  apply parse_enum_inv in Hop as [Hop _].
  apply lsp_refinement_true in Href as (Hpos & Hsym & Hws).
  rewrite Hop in Hpos, Hsym, Hws.
  split; [|split].
  - intros op Hin Heq. rewrite Heq in Hpos.
    destruct Hpos as (Hl & Hc & Hf).
    { cbn [one_of]. apply existsb_exists. exists op.
      split; [exact Hin | apply String.eqb_refl]. }
    split; [exact (@path_present _ _ Hfile Hf)|].
    split; [exact (@position_present _ _ Hline Hl)
           | exact (@position_present _ _ Hcol Hc)].
  - intros op Hin Heq. rewrite Heq in Hsym.
    apply (@path_present _ _ Hfile), Hsym.
    cbn [one_of]. apply existsb_exists. exists op.
    split; [exact Hin | apply String.eqb_refl].
  - intros Heq. rewrite Heq in Hws.
    exact (@text_present _ _ Hquery (Hws eq_refl)).
Qed.

(** ** Defaults *)

Lemma default_filled shape v data k inner d :
  NoDup (List.map fst shape) ->
  Zod.parse (ZodObject shape) v = Some data ->
  In (k, ZodDefault inner d) shape ->
  get v k = VUndefined ->
  Zod.parse inner d = Some (get data k).
Proof.
  intros Hnd H Hin Hmiss.
  pose proof (@parse_object_field shape v data k _ Hnd H Hin) as Hk.
  rewrite Hmiss in Hk. exact Hk.
Qed.

Ltac default_of H :=
  match goal with
  | Hmiss : get _ ?k = VUndefined |- get ?data ?k = ?d =>
      let Hk := fresh in
      eassert (Hk : Zod.parse _ d = Some (get data k))
        by (eapply default_filled with (2 := H);
            [nodup_keys
            | cbn [In]; repeat (first [left; reflexivity | right])
            | exact Hmiss]);
      cbn in Hk; congruence
  end.

(** X7: a field with a default that the call leaves out reaches the
    environment with its default: [timeout] 10 for bash_run, [count] 5 for
    image_search, [dateRange] "all" for web_search, [type] "website" for
    code_template, [network] "twitter" for socials_search, and [false] for
    [rawHtml], [request_user_approval], [verbose] and [transparency]. *)
Theorem omitted_fields_take_their_defaults (URL_parses : string -> bool) :
  (forall args data,
      Zod.parse bash_run_parameters args = Some data ->
      get args "timeout" = VUndefined ->
      get data "timeout" = VNum (inject_Z 10)) /\
  (forall args data,
      Zod.parse image_search_parameters args = Some data ->
      get args "count" = VUndefined ->
      get data "count" = VNum (inject_Z 5)) /\
  (forall args data,
      Zod.parse web_search_parameters args = Some data ->
      get args "dateRange" = VUndefined ->
      get data "dateRange" = VStr "all") /\
  (forall args data,
      Zod.parse code_template_parameters args = Some data ->
      get args "type" = VUndefined ->
      get data "type" = VStr "website") /\
  (forall args data,
      Zod.parse socials_search_parameters args = Some data ->
      get args "network" = VUndefined ->
      get data "network" = VStr "twitter") /\
  (forall args data,
      Zod.parse (browser_navigate_parameters URL_parses) args = Some data ->
      get args "rawHtml" = VUndefined ->
      get data "rawHtml" = VBool false) /\
  (forall args data,
      Zod.parse todo_parameters args = Some data ->
      get args "request_user_approval" = VUndefined ->
      get data "request_user_approval" = VBool false) /\
  (forall args data,
      Zod.parse lsp_parameters args = Some data ->
      get args "verbose" = VUndefined ->
      get data "verbose" = VBool false) /\
  (forall args data,
      Zod.parse image_edit_parameters args = Some data ->
      get args "transparency" = VUndefined ->
      get data "transparency" = VBool false).
Proof.
  repeat match goal with |- _ /\ _ => split end; intros args data H Hmiss.
  - unfold bash_run_parameters in H. default_of H.
  - unfold image_search_parameters in H. default_of H.
  - unfold web_search_parameters in H. default_of H.
  - unfold code_template_parameters in H. default_of H.
  - unfold socials_search_parameters in H.
    apply parse_effects_inv in H as [H _]. default_of H.
  - unfold browser_navigate_parameters in H. default_of H.
  - unfold todo_parameters in H.
    apply parse_effects_inv in H as [H _]. default_of H.
  - unfold lsp_parameters in H.
    apply parse_effects_inv in H as [H _]. default_of H.
  - unfold image_edit_parameters in H. default_of H.
Qed.

(** ** computer: the refinement on the arguments as proposed *)

Definition computer_shape : list (string * ZodType) :=
  [("action", ComputerAction);
   ("coordinate", ZodOptional Coordinate);
   ("text", ZodOptional (ZodString []));
   ("duration", ZodOptional (ZodNumber [positive]));
   ("scroll_direction", ZodOptional ScrollDirection);
   ("scroll_amount", ZodOptional (ZodNumber [int; positive]));
   ("start_coordinate", ZodOptional Coordinate)].

Lemma optional_same inner v d :
  (forall x y, Zod.parse inner x = Some y -> y = x) ->
  Zod.parse (ZodOptional inner) v = Some d -> d = v.
Proof.
  intros Hsame H. apply parse_optional_inv in H as [[-> ->] | [_ H]];
    [reflexivity | exact (Hsame _ _ H)].
Qed.

Lemma string_same checks x y : Zod.parse (ZodString checks) x = Some y -> y = x.
Proof. intros H. now apply parse_string_inv in H. Qed.

Lemma number_same checks x y : Zod.parse (ZodNumber checks) x = Some y -> y = x.
Proof. intros H. now apply parse_number_inv in H. Qed.

Lemma enum_same options x y : Zod.parse (ZodEnum options) x = Some y -> y = x.
Proof. intros H. now apply parse_enum_inv in H. Qed.

Lemma coordinate_truthy v d :
  Zod.parse (ZodOptional Coordinate) v = Some d -> truthy d = truthy v.
Proof.
  intros H. apply parse_optional_inv in H as [[-> ->] | [_ H]]; [reflexivity|].
  unfold Coordinate in H. cbn [Zod.parse] in H.
  destruct v; try discriminate.
  destruct (parse_items Zod.parse _ l); [|discriminate].
  injection H as <-. reflexivity.
Qed.

Lemma computer_refinement_raw args data :
  computer_fields args data ->
  computer_refinement data = computer_refinement args.
Proof.
  intros F. unfold computer_refinement.
  rewrite (@enum_same _ _ _ (cf_action F)).
  rewrite (@coordinate_truthy _ _ (cf_coordinate F)).
  rewrite (@coordinate_truthy _ _ (cf_start_coordinate F)).
  rewrite (@optional_same _ _ _ (@string_same []) (cf_text F)).
  rewrite (@optional_same _ _ _ (@number_same [positive]) (cf_duration F)).
  rewrite (@optional_same _ _ _ (@enum_same _) (cf_scroll_direction F)).
  rewrite (@optional_same _ _ _ (@number_same [int; positive])
             (cf_scroll_amount F)).
  reflexivity.
Qed.

(** X8: the computer contract accepts exactly the calls whose fields have
    the right shape and whose arguments, as proposed, pass the refinement:
    defaults and stripping change nothing that the refinement reads. *)
Theorem computer_accepts_iff (args : value) :
  accepts computer_parameters args
  = accepts (ZodObject computer_shape) args && computer_refinement args.
Proof.
  unfold accepts, computer_parameters. fold computer_shape.
  destruct args; try reflexivity. cbn [Zod.parse].
  destruct (parse_shape Zod.parse computer_shape kvs) as [out|] eqn:H;
    cbn [option_map]; [|reflexivity].
  assert (Hparse : Zod.parse (ZodObject computer_shape) (VObj kvs)
                   = Some (VObj out)).
  { cbn [Zod.parse]. now rewrite H. }
  assert (F : computer_fields (VObj kvs) (VObj out)).
  { unfold computer_shape in Hparse. constructor; field_of Hparse. }
  rewrite <- (@computer_refinement_raw _ _ F).
  now destruct (computer_refinement (VObj out)).
Qed.

(** ** todo: the accepted calls *)

Lemma boolean_default_inv v d :
  Zod.parse (ZodDefault (ZodOptional ZodBoolean) (VBool false)) v = Some d ->
  v = VUndefined \/ exists b, v = VBool b.
Proof. destruct v; cbn; intros H; try discriminate; eauto. Qed.

(** X9: the todo contract accepts exactly the objects whose [tasks] is a
    non-empty array of tasks (non-empty [id] and [title], one of the four
    statuses) with at most one of them in progress, and whose
    [request_user_approval], if there is one, is a boolean. *)
Theorem todo_accepts_iff (args : value) :
  accepts todo_parameters args = true <->
  (exists kvs, args = VObj kvs) /\
  (exists tasks,
      get args "tasks" = VArr tasks /\ tasks <> [] /\
      Forall (fun t => accepts Task t = true) tasks /\
      in_progress_count (VArr tasks) <= 1) /\
  (get args "request_user_approval" = VUndefined \/
   exists b, get args "request_user_approval" = VBool b).
Proof.
  split.
  - intros Hacc.
    pose proof (todo_accepted_one_in_progress _ Hacc) as Hcount.
    apply accepts_true in Hacc as [data H]. unfold todo_parameters in H.
    apply parse_effects_inv in H as [H _].
    assert (Ht : Zod.parse (ZodArray Task (Some 1)) (get args "tasks")
                 = Some (get data "tasks")) by field_of H.
    assert (Hb : Zod.parse (ZodDefault (ZodOptional ZodBoolean) (VBool false))
                           (get args "request_user_approval")
                 = Some (get data "request_user_approval")) by field_of H.
    destruct (parse_object_inv _ _ H) as (kvs & _ & Hargs & _).
    split; [eauto|]. split; [|exact (@boolean_default_inv _ _ Hb)].
    apply parse_array_inv in Ht as (l & out & Hl & _ & Hel & Hmin).
    rewrite Hl in Hcount. exists l. split; [exact Hl|]. split; [|split].
    + intros ->. discriminate Hmin.
    + apply parse_elements_Forall2 in Hel. clear Hmin Hl Hcount.
      induction Hel as [|e e' l out He _ IH]; constructor; auto.
      apply accepts_true. eauto.
    + exact Hcount.
  - intros ([kvs ->] & (tasks & Ht & Hne & Hall & Hcount) & Hb).
    apply accepts_true.
    destruct (@parse_array_total Task 1 tasks) as [out Hout]; [|exact Hall|].
    { destruct tasks; [congruence | cbn; lia]. }
    destruct (parse_object_total
                [("tasks", ZodArray Task (Some 1));
                 ("request_user_approval",
                  ZodDefault (ZodOptional ZodBoolean) (VBool false))] kvs)
      as [data Hdata].
    { intros k t Hin. cbn [In] in Hin.
      destruct Hin as [Hin | [Hin | []]]; injection Hin as <- <-.
      - rewrite Ht. congruence.
      - destruct Hb as [-> | [b ->]]; discriminate. }
    exists data. unfold todo_parameters.
    apply parse_effects_intro; [exact Hdata|].
    assert (Hd : Zod.parse (ZodArray Task (Some 1)) (get (VObj kvs) "tasks")
                 = Some (get data "tasks")) by field_of Hdata.
    rewrite (@in_progress_count_parsed _ _ _ Hd), Ht. now apply Nat.leb_le.
Qed.

End MoreContracts.

(* ================================================================== *)
(** * What a contract hands on *)
(* ================================================================== *)

Module Normal.
Import ZodFacts Aisdk5.

Section Induction.
Variable P : ZodType -> Prop.
Hypothesis on_string : forall checks, P (ZodString checks).
Hypothesis on_number : forall checks, P (ZodNumber checks).
Hypothesis on_boolean : P ZodBoolean.
Hypothesis on_enum : forall options, P (ZodEnum options).
Hypothesis on_array : forall element minLength, P element -> P (ZodArray element minLength).
Hypothesis on_tuple : forall items, Forall P items -> P (ZodTuple items).
Hypothesis on_object :
  forall shape, Forall (fun field => P (snd field)) shape -> P (ZodObject shape).
Hypothesis on_union : forall options, Forall P options -> P (ZodUnion options).
Hypothesis on_optional : forall inner, P inner -> P (ZodOptional inner).
Hypothesis on_default : forall inner d, P inner -> P (ZodDefault inner d).
Hypothesis on_effects : forall inner f, P inner -> P (ZodEffects inner f).

(** induction on a schema, with the schemas inside tuples, objects and
    unions *)
Fixpoint schema_ind (t : ZodType) : P t :=
  match t with
  | ZodString checks => on_string checks
  | ZodNumber checks => on_number checks
  | ZodBoolean => on_boolean
  | ZodEnum options => on_enum options
  | ZodArray element minLength => on_array minLength (schema_ind element)
  | ZodTuple items =>
      on_tuple
        ((fix all (l : list ZodType) : Forall P l :=
            match l with
            | [] => Forall_nil P
            | x :: rest => Forall_cons x (schema_ind x) (all rest)
            end) items)
  | ZodObject shape =>
      on_object
        ((fix all (l : list (string * ZodType))
            : Forall (fun field => P (snd field)) l :=
            match l with
            | [] => Forall_nil _
            | field :: rest =>
                Forall_cons field (schema_ind (snd field)) (all rest)
            end) shape)
  | ZodUnion options =>
      on_union
        ((fix all (l : list ZodType) : Forall P l :=
            match l with
            | [] => Forall_nil P
            | x :: rest => Forall_cons x (schema_ind x) (all rest)
            end) options)
  | ZodOptional inner => on_optional (schema_ind inner)
  | ZodDefault inner d => on_default d (schema_ind inner)
  | ZodEffects inner f => on_effects f (schema_ind inner)
  end.
End Induction.

(** a schema that hands its input on as it is *)
Definition plain (t : ZodType) : bool :=
  match t with
  | ZodString _ | ZodNumber _ | ZodBoolean | ZodEnum _ => true
  | _ => false
  end.

Fixpoint distinct (keys : list string) : bool :=
  match keys with
  | [] => true
  | k :: rest => negb (existsb (String.eqb k) rest) && distinct rest
  end.

(** The schemas of this file: the keys of an object are distinct and the
    options of a union are plain. *)
Fixpoint regular (t : ZodType) : bool :=
  match t with
  | ZodString _ | ZodNumber _ | ZodBoolean | ZodEnum _ => true
  | ZodArray element _ => regular element
  | ZodTuple items => forallb regular items
  | ZodObject shape =>
      distinct (List.map fst shape)
      && forallb (fun field => regular (snd field)) shape
  | ZodUnion options => forallb plain options
  | ZodOptional inner => regular inner
  | ZodDefault inner _ => regular inner
  | ZodEffects inner _ => regular inner
  end.

(** the shape behind the refinements of a contract *)
Fixpoint shape_of (t : ZodType) : option (list (string * ZodType)) :=
  match t with
  | ZodObject shape => Some shape
  | ZodEffects inner _ => shape_of inner
  | _ => None
  end.

Lemma distinct_NoDup keys : distinct keys = true -> NoDup keys.
Proof.
  induction keys as [|k rest IH]; cbn [distinct]; intros H; constructor.
  - apply andb_true_iff in H as [H _]. apply negb_true_iff in H.
    intros Hin. assert (Hex : existsb (String.eqb k) rest = true).
    { apply existsb_exists. exists k. split; [exact Hin | apply String.eqb_refl]. }
    congruence.
  - apply IH. now apply andb_true_iff in H as [_ H].
Qed.

Lemma plain_same t v d : plain t = true -> Zod.parse t v = Some d -> d = v.
Proof.
  destruct t; try discriminate; intros _ H.
  - now apply parse_string_inv in H.
  - now apply parse_number_inv in H.
  - cbn in H. destruct v; try discriminate. congruence.
  - now apply parse_enum_inv in H.
Qed.

Lemma parse_first_plain options v d :
  forallb plain options = true ->
  parse_first Zod.parse options v = Some d -> d = v.
Proof.
  induction options as [|t options IH]; cbn [forallb parse_first];
    [discriminate|].
  intros H. apply andb_true_iff in H as [Ht Hrest].
  destruct (Zod.parse t v) as [r|] eqn:E.
  - intros Hr. injection Hr as <-. exact (plain_same _ _ Ht E).
  - now apply IH.
Qed.

(** Only [undefined] parses to [undefined]. *)
Lemma parse_undefined t :
  forall v, Zod.parse t v = Some VUndefined -> v = VUndefined.
Proof.
  induction t using schema_ind; intros v Hp.
  - apply parse_string_inv in Hp as [Hd (s & Hs & _)]. congruence.
  - apply parse_number_inv in Hp as [Hd (q & Hq & _)]. congruence.
  - cbn in Hp. destruct v; try discriminate; congruence.
  - apply parse_enum_inv in Hp as [Hd (s & Hs & _)]. congruence.
  - cbn [Zod.parse] in Hp. destruct v; try discriminate.
    destruct (parse_elements Zod.parse t l); [|discriminate].
    destruct (min_ok minLength (List.length l)); discriminate.
  - cbn [Zod.parse] in Hp. destruct v; try discriminate.
    destruct (parse_items Zod.parse items l); discriminate.
  - cbn [Zod.parse] in Hp. destruct v; try discriminate.
    destruct (parse_shape Zod.parse shape kvs); discriminate.
  - cbn [Zod.parse] in Hp.
    match goal with HF : Forall _ options |- _ =>
      induction HF as [|t options Ht _ IH] end;
      cbn [parse_first] in Hp; [discriminate|].
    destruct (Zod.parse t v) as [r|] eqn:E; [|auto].
    injection Hp as ->. auto.
  - apply parse_optional_inv in Hp as [[-> _] | [_ Hp]]; auto.
  - cbn [Zod.parse] in Hp. destruct (is_undefined v) eqn:E.
    + now destruct v.
    + auto.
  - apply parse_effects_inv in Hp as [Hp _]. auto.
Qed.

(** "what [t] hands on, [t] accepts again and hands on as it is" *)
Definition settled (t : ZodType) : Prop :=
  forall v d, Zod.parse t v = Some d -> Zod.parse t d = Some d.

Lemma parse_elements_again t l out :
  settled t ->
  parse_elements Zod.parse t l = Some out ->
  parse_elements Zod.parse t out = Some out.
Proof.
  intros Ht H. apply parse_elements_Forall2 in H.
  induction H as [|v r l out Hv _ IH]; [reflexivity|].
  cbn [parse_elements]. now rewrite (Ht _ _ Hv), IH.
Qed.

Lemma parse_elements_length t l out :
  parse_elements Zod.parse t l = Some out -> List.length out = List.length l.
Proof.
  intros H. apply parse_elements_Forall2 in H.
  induction H; cbn [List.length]; congruence.
Qed.

Lemma parse_items_again items :
  Forall settled items ->
  forall l out,
    parse_items Zod.parse items l = Some out ->
    parse_items Zod.parse items out = Some out.
Proof.
  induction 1 as [|t items Ht _ IH]; intros l out H.
  - destruct l; [|discriminate]. injection H as <-. reflexivity.
  - destruct l as [|v l]; [discriminate|]. cbn [parse_items] in H.
    destruct (Zod.parse t v) as [r|] eqn:Hr; [|discriminate].
    destruct (parse_items Zod.parse items l) as [out'|] eqn:Hrest;
      [|discriminate].
    injection H as <-. cbn [parse_items].
    now rewrite (Ht _ _ Hr), (IH _ _ Hrest).
Qed.

(** The fields of an accepted object, read from any object that holds the
    result under the keys of the shape, parse to the result again. *)
Lemma parse_shape_again shape :
  NoDup (List.map fst shape) ->
  Forall (fun field => settled (snd field)) shape ->
  forall kvs out,
    parse_shape Zod.parse shape kvs = Some out ->
    forall kvs',
      (forall k, In k (List.map fst shape) -> assoc k kvs' = assoc k out) ->
      parse_shape Zod.parse shape kvs' = Some out.
Proof.
  induction shape as [|[k0 t0] shape IH]; intros Hnd Hall kvs out H kvs' Hsame.
  - exact H.
  - cbn [parse_shape] in H. inversion Hnd as [|? ? Hfresh Hnd']; subst.
    inversion Hall as [|? ? Ht0 Hall']; subst. cbn [snd] in Ht0.
    destruct (Zod.parse t0 (get (VObj kvs) k0)) as [r|] eqn:Hr; [|discriminate].
    destruct (parse_shape Zod.parse shape kvs) as [out'|] eqn:Hrest;
      [|discriminate].
    injection H as <-.
    pose proof (@parse_shape_keys _ _ _ _ _ _ Hrest Hfresh) as Hnone.
    assert (Hk0 : assoc k0 kvs'
                  = if negb (is_undefined r) || has_key k0 kvs
                    then Some r else None).
    { rewrite Hsame by (now left).
      destruct (negb (is_undefined r) || has_key k0 kvs); cbn [assoc];
        [now rewrite String.eqb_refl | exact Hnone]. }
    assert (Hrest' : parse_shape Zod.parse shape kvs' = Some out').
    { apply (IH Hnd' Hall' kvs out' Hrest). intros k Hk.
      rewrite Hsame by (now right).
      assert (Hne : String.eqb k k0 = false)
        by (apply String.eqb_neq; intros ->; contradiction).
      destruct (negb (is_undefined r) || has_key k0 kvs); cbn [assoc];
        [now rewrite Hne | reflexivity]. }
    cbn [parse_shape get]. rewrite Hrest'.
    destruct (negb (is_undefined r) || has_key k0 kvs) eqn:Hc;
      unfold has_key; rewrite Hk0.
    + rewrite (Ht0 _ _ Hr). cbv iota beta. now rewrite orb_true_r.
    + apply orb_false_iff in Hc as [Hu _]. apply negb_false_iff in Hu.
      destruct r; try discriminate Hu.
      assert (Hin : Zod.parse t0 VUndefined = Some VUndefined).
      { pose proof (parse_undefined _ _ Hr) as Hv. now rewrite Hv in Hr. }
      rewrite Hin. reflexivity.
Qed.

Lemma Forall_when {A} (f : A -> bool) (Q : A -> Prop) l :
  Forall (fun a => f a = true -> Q a) l -> forallb f l = true -> Forall Q l.
Proof.
  induction 1 as [|a l Ha _ IH]; cbn [forallb]; intros H; constructor;
    apply andb_true_iff in H as [Hf Hrest]; auto.
Qed.

(** Parsing is idempotent on the schemas of this file. *)
Lemma parse_again t : regular t = true -> settled t.
Proof.
  unfold settled.
  induction t using schema_ind; cbn [regular]; intros Hreg x y Hp.
  - pose proof (parse_string_inv _ _ Hp) as [-> _]. exact Hp.
  - pose proof (parse_number_inv _ _ Hp) as [-> _]. exact Hp.
  - cbn in Hp. destruct x; try discriminate. injection Hp as <-. reflexivity.
  - pose proof (parse_enum_inv _ _ Hp) as [-> _]. exact Hp.
  - apply Contracts.parse_array_inv in Hp as (l & out & -> & -> & Hel & Hmin).
    cbn [Zod.parse].
    rewrite (@parse_elements_again t l out (IHt Hreg) Hel).
    now rewrite (parse_elements_length _ _ Hel), Hmin.
  - match goal with HF : Forall _ items |- _ =>
      pose proof (Forall_when _ _ HF Hreg) as Hall end.
    cbn [Zod.parse] in Hp. destruct x; try discriminate.
    destruct (parse_items Zod.parse items l) as [out|] eqn:E; [|discriminate].
    injection Hp as <-. cbn [Zod.parse].
    now rewrite (parse_items_again Hall _ E).
  - apply andb_true_iff in Hreg as [Hkeys Hreg].
    match goal with HF : Forall _ shape |- _ =>
      pose proof (Forall_when (fun field => regular (snd field)) _ HF Hreg)
        as Hall end.
    cbn [Zod.parse] in Hp. destruct x; try discriminate.
    destruct (parse_shape Zod.parse shape kvs) as [out|] eqn:E; [|discriminate].
    injection Hp as <-. cbn [Zod.parse].
    now rewrite (parse_shape_again (distinct_NoDup _ Hkeys) Hall _ E out
                   (fun _ _ => eq_refl)).
  - cbn [Zod.parse] in Hp.
    pose proof (parse_first_plain _ _ Hreg Hp) as ->. exact Hp.
  - apply parse_optional_inv in Hp as [[-> ->] | [_ Hp]]; [reflexivity|].
    cbn [Zod.parse]. destruct (is_undefined y) eqn:Ey.
    + now destruct y.
    + exact (IHt Hreg _ _ Hp).
  - cbn [Zod.parse] in Hp |- *. destruct (is_undefined y) eqn:Ey.
    + destruct y; try discriminate Ey.
      pose proof (parse_undefined _ _ Hp) as Hx.
      destruct (is_undefined x) eqn:Ex.
      * exact Hp.
      * rewrite Hx in Ex. discriminate Ex.
    + exact (IHt Hreg _ _ Hp).
  - apply parse_effects_inv in Hp as [Hp Hf].
    apply Contracts.parse_effects_intro; [exact (IHt Hreg _ _ Hp) | exact Hf].
Qed.

Lemma shape_of_parse t :
  forall shape v data,
    shape_of t = Some shape -> Zod.parse t v = Some data ->
    exists kvs out, v = VObj kvs /\ data = VObj out /\
                    parse_shape Zod.parse shape kvs = Some out.
Proof.
  induction t using schema_ind; cbn [shape_of]; intros sh v data Hs Hp;
    try discriminate.
  - injection Hs as <-. now apply parse_object_inv.
  - apply parse_effects_inv in Hp as [Hp _]. eauto.
Qed.

Lemma registry_regular URL_parses toLowerCase :
  forallb (fun entry => regular (parameters (snd entry)))
          (ScoutTools URL_parses toLowerCase) = true.
Proof. reflexivity. Qed.

Lemma registry_objects URL_parses toLowerCase :
  forallb (fun entry => match shape_of (parameters (snd entry)) with
                        | Some _ => true
                        | None => false
                        end)
          (ScoutTools URL_parses toLowerCase) = true.
Proof. reflexivity. Qed.

(** X10: what a contract of the registry hands on, it accepts again and
    hands on unchanged: defaults and stripping are applied once and for
    all. *)
Theorem contracts_normalise_once
        (URL_parses : string -> bool) (toLowerCase : string -> string)
        (name : string) (definition : ToolDefinition) (args data : value) :
  In (name, definition) (ScoutTools URL_parses toLowerCase) ->
  Zod.parse (parameters definition) args = Some data ->
  Zod.parse (parameters definition) data = Some data.
Proof.
  intros Hin Hp.
  pose proof (registry_regular URL_parses toLowerCase) as Hreg.
  rewrite forallb_forall in Hreg. specialize (Hreg _ Hin). cbn [snd] in Hreg.
  exact (@parse_again _ Hreg _ _ Hp).
Qed.

Lemma contracts_take_objects
      (URL_parses : string -> bool) (toLowerCase : string -> string)
      (name : string) (definition : ToolDefinition) (args data : value) :
  In (name, definition) (ScoutTools URL_parses toLowerCase) ->
  Zod.parse (parameters definition) args = Some data ->
  exists kvs out, args = VObj kvs /\ data = VObj out.
Proof.
  intros Hin Hp.
  pose proof (registry_objects URL_parses toLowerCase) as Hobj.
  rewrite forallb_forall in Hobj. specialize (Hobj _ Hin). cbn [snd] in Hobj.
  destruct (shape_of (parameters definition)) as [shape|] eqn:Hs;
    [|discriminate].
  destruct (shape_of_parse _ _ Hs Hp) as (kvs & out & -> & -> & _). eauto.
Qed.

(** X11: every contract of the registry accepts objects only, and hands on
    an object that has no key but those of its shape: what else the call
    carried is stripped. *)
Theorem contracts_strip_unknown_keys
        (URL_parses : string -> bool) (toLowerCase : string -> string)
        (name : string) (definition : ToolDefinition) (args data : value) :
  In (name, definition) (ScoutTools URL_parses toLowerCase) ->
  Zod.parse (parameters definition) args = Some data ->
  exists shape kvs out,
    shape_of (parameters definition) = Some shape /\
    args = VObj kvs /\ data = VObj out /\
    forall k, has_key k out = true -> In k (List.map fst shape).
Proof.
  intros Hin Hp.
  pose proof (registry_objects URL_parses toLowerCase) as Hobj.
  rewrite forallb_forall in Hobj. specialize (Hobj _ Hin). cbn [snd] in Hobj.
  destruct (shape_of (parameters definition)) as [shape|] eqn:Hs;
    [|discriminate].
  destruct (shape_of_parse _ _ Hs Hp) as (kvs & out & -> & -> & Hout).
  exists shape, kvs, out. repeat split; auto.
  intros k Hk.
  destruct (in_dec string_dec k (List.map fst shape)) as [Hyes | Hno];
    [exact Hyes|].
  unfold has_key in Hk.
  rewrite (@parse_shape_keys _ _ _ _ _ _ Hout Hno) in Hk. discriminate.
Qed.

End Normal.

(* ================================================================== *)
(** * The tools of the registry at work *)
(* ================================================================== *)

Module Dispatch.
Import ZodFacts Workflow Run Normal.

(** ** Values that JSON text can denote *)

Section ValueInduction.
Variable P : value -> Prop.
Hypothesis on_undefined : P VUndefined.
Hypothesis on_null : P VNull.
Hypothesis on_bool : forall b, P (VBool b).
Hypothesis on_num : forall q, P (VNum q).
Hypothesis on_str : forall s, P (VStr s).
Hypothesis on_arr : forall l, Forall P l -> P (VArr l).
Hypothesis on_obj : forall kvs, Forall (fun kv => P (snd kv)) kvs -> P (VObj kvs).

Fixpoint value_ind' (v : value) : P v :=
  match v with
  | VUndefined => on_undefined
  | VNull => on_null
  | VBool b => on_bool b
  | VNum q => on_num q
  | VStr s => on_str s
  | VArr l =>
      on_arr
        ((fix all (l : list value) : Forall P l :=
            match l with
            | [] => Forall_nil P
            | x :: rest => Forall_cons x (value_ind' x) (all rest)
            end) l)
  | VObj kvs =>
      on_obj
        ((fix all (l : list (string * value)) : Forall (fun kv => P (snd kv)) l :=
            match l with
            | [] => Forall_nil _
            | kv :: rest => Forall_cons kv (value_ind' (snd kv)) (all rest)
            end) kvs)
  end.
End ValueInduction.

(** a value with no [undefined] in it: what JSON text can denote *)
Fixpoint json (v : value) : bool :=
  match v with
  | VUndefined => false
  | VArr l => forallb json l
  | VObj kvs => forallb (fun kv => json (snd kv)) kvs
  | _ => true
  end.

Lemma json_defined v : json v = true -> is_undefined v = false.
Proof. now destruct v. Qed.

Lemma document_json v : json v = true -> JSON.document v = v.
Proof.
  induction v as [| | | | |l IH|kvs IH] using value_ind';
    cbn [json JSON.document]; intros H; try reflexivity.
  - f_equal. induction IH as [|x l Hx _ IHl]; [reflexivity|].
    cbn [forallb] in H. apply andb_true_iff in H as [Hj Hrest].
    cbn [List.map]. rewrite (json_defined _ Hj), (Hx Hj). f_equal. auto.
  - f_equal. induction IH as [|[k x] kvs Hx _ IHl]; [reflexivity|].
    cbn [forallb snd] in H, Hx. apply andb_true_iff in H as [Hj Hrest].
    rewrite (json_defined _ Hj), (Hx Hj). f_equal. auto.
Qed.

(** ** Looking a tool up *)

Section Registry.
Variable W : Type.
Variable URL_parses : string -> bool.
Variable toLowerCase : string -> string.
Variable executeTool : string -> value -> Async W value.
Variable Number_toString : Q -> string.

Definition registry : list (string * Aisdk5.ToolDefinition) :=
  Aisdk5.ScoutTools URL_parses toLowerCase.

Definition tools : list (LangChain.DynamicStructuredTool W) :=
  Aisdk5.createAisdk5Tools URL_parses toLowerCase executeTool.

(** the tool that [createAisdk5Tools] makes of an entry *)
Definition tool_of (toolName : string) (definition : Aisdk5.ToolDefinition)
  : LangChain.DynamicStructuredTool W :=
  {| LangChain.name := toolName;
     LangChain.description := Aisdk5.description definition;
     LangChain.schema := Aisdk5.parameters definition;
     LangChain.func := Aisdk5.tool_func executeTool toolName |}.

Lemma registry_names :
  List.map fst registry
  = ["ls"; "read"; "glob"; "grep"; "edit"; "write"; "image_generate";
     "image_edit"; "image_search"; "web_search"; "browser_navigate";
     "web_download"; "bash_run"; "bash_command_check"; "code_template";
     "download_project_file"; "github_pr"; "socials_search"; "computer";
     "message_update"; "message_ask"; "todo"; "lsp"; "read_agent"; "handoff";
     "github_command"].
Proof. reflexivity. Qed.

Lemma registry_distinct : NoDup (List.map fst registry).
Proof. rewrite registry_names. apply distinct_NoDup. reflexivity. Qed.

Lemma find_entry (entries : list (string * Aisdk5.ToolDefinition)) n :
  NoDup (List.map fst entries) ->
  (forall d, In (n, d) entries ->
             find (fun t => String.eqb (LangChain.name t) n)
                  (List.map (fun e => tool_of (fst e) (snd e)) entries)
             = Some (tool_of n d)) /\
  (~ In n (List.map fst entries) ->
   find (fun t => String.eqb (LangChain.name t) n)
        (List.map (fun e => tool_of (fst e) (snd e)) entries) = None).
Proof.
  induction entries as [|[k d0] entries IH]; intros Hnd.
  - split; [intros d []|reflexivity].
  - inversion Hnd as [|? ? Hfresh Hnd']; subst.
    destruct (IH Hnd') as [IHin IHout].
    cbn [List.map find fst snd tool_of LangChain.name]. split.
    + intros d [Heq | Hin].
      * injection Heq as -> ->. now rewrite String.eqb_refl.
      * assert (Hne : String.eqb k n = false).
        { apply String.eqb_neq. intros ->. apply Hfresh.
          change n with (fst (n, d)). now apply in_map. }
        rewrite Hne. now apply IHin.
    + intros Hout. cbn [List.map fst In] in Hout.
      assert (Hne : String.eqb k n = false)
        by (apply String.eqb_neq; intros ->; apply Hout; now left).
      rewrite Hne. apply IHout. tauto.
Qed.

Lemma tools_are_entries :
  tools = List.map (fun e => tool_of (fst e) (snd e)) registry.
Proof. reflexivity. Qed.

(** X12: [createAisdk5Tools] makes one tool for each of the 26 entries of
    [ScoutTools], under distinct names; looking a name up finds the tool of
    that entry, with its contract, and finds nothing for any other name. *)
Theorem registry_lookup :
  List.length tools = 26 /\
  NoDup (List.map (@LangChain.name W) tools) /\
  (forall n definition,
      In (n, definition) registry ->
      lookup tools n = Some (tool_of n definition)) /\
  (forall n, ~ In n (List.map fst registry) -> lookup tools n = None).
Proof.
  split; [reflexivity|]. split; [|split].
  - change (List.map (@LangChain.name W) tools) with (List.map fst registry).
    exact registry_distinct.
  - intros n d Hin. unfold lookup. rewrite tools_are_entries.
    now apply (find_entry registry n registry_distinct).
  - intros n Hout. unfold lookup. rewrite tools_are_entries.
    now apply (find_entry registry n registry_distinct).
Qed.

Lemma lookup_entry n tool :
  lookup tools n = Some tool ->
  exists definition, In (n, definition) registry /\ tool = tool_of n definition.
Proof.
  intros H.
  destruct (in_dec string_dec n (List.map fst registry)) as [Hin | Hout].
  - apply in_map_iff in Hin as ([k d] & Hk & Hin). cbn [fst] in Hk. subst k.
    exists d. split; [exact Hin|].
    destruct (find_entry registry n registry_distinct) as [Hfound _].
    unfold lookup in H. rewrite tools_are_entries, (Hfound d Hin) in H.
    congruence.
  - destruct (find_entry registry n registry_distinct) as [_ Hnone].
    unfold lookup in H. rewrite tools_are_entries, (Hnone Hout) in H.
    discriminate.
Qed.

(** ** Invoking a tool *)

Lemma tool_func_settles toolName input w :
  exists raw w', Aisdk5.tool_func executeTool toolName input w = (Ok raw, w').
Proof.
  unfold Aisdk5.tool_func, try_catch, bind, ret.
  destruct (executeTool toolName input w) as [[v|e] w']; eauto.
Qed.

(** what LangChain validates of the arguments of a call that goes through
    is accepted only when the arguments are an object *)
Lemma validated_object n definition arg data :
  In (n, definition) registry ->
  Zod.parse (Aisdk5.parameters definition) (LangChain.inputForValidation arg)
  = Some data ->
  (exists kvs, arg = VObj kvs) /\ exists out, data = VObj out.
Proof.
  intros Hin Hp.
  destruct (@Normal.contracts_take_objects URL_parses toLowerCase
              n definition _ data Hin Hp) as (kvs & out & Hinput & ->).
  split; [|eauto].
  destruct (LangChain.isToolCall arg) eqn:Hcall.
  - destruct arg; try discriminate Hcall. eauto.
  - rewrite (proj1 (plain_argument _ Hcall)) in Hinput. eauto.
Qed.

(** arguments that are not a tool call around another tool call *)
Definition flat (arg : value) : bool :=
  negb (LangChain.isToolCall (LangChain.toolInput arg)).

Lemma flat_input arg :
  flat arg = true ->
  LangChain.inputForValidation arg = LangChain.toolInput arg.
Proof.
  unfold flat, LangChain.inputForValidation. intros H.
  apply negb_true_iff in H. now rewrite H.
Qed.

(** X13: a tool of the registry rejects for one reason only.  LangChain
    validates the arguments themselves, unless they read as a tool call
    (a [type] that is ["tool_call"]), and then their [args] in their place.
    [invoke] throws [ToolInputParsingException], and the environment is not
    touched, when what is validated breaks the contract; so arguments that
    read as a tool call and have no [args] are rejected whatever else they
    hold.  When what is validated passes, [invoke] resolves, whether the
    environment returns or rejects with an error: the error is caught and
    never comes out as a rejection. *)
Theorem invoke_rejects_on_violation_only n tool arg w :
  lookup tools n = Some tool ->
  flat arg = true ->
  (accepts (LangChain.schema tool) (LangChain.toolInput arg) = false ->
   LangChain.invoke tool arg w = (Throw ToolInputParsingException, w)) /\
  (accepts (LangChain.schema tool) (LangChain.toolInput arg) = true ->
   exists raw w', LangChain.invoke tool arg w = (Ok raw, w')) /\
  (LangChain.isToolCall arg = false -> LangChain.toolInput arg = arg) /\
  (LangChain.isToolCall arg = true -> LangChain.toolInput arg = get arg "args") /\
  (LangChain.isToolCall arg = true -> get arg "args" = VUndefined ->
   LangChain.invoke tool arg w = (Throw ToolInputParsingException, w)).
Proof.
  intros Hfind Hflat. destruct (lookup_entry _ Hfind) as (d & Hin & ->).
  assert (Hthrow : Zod.parse (Aisdk5.parameters d) (LangChain.toolInput arg)
                   = None ->
                   LangChain.invoke (tool_of n d) arg w
                   = (Throw ToolInputParsingException, w)).
  { intros Hp. unfold LangChain.invoke. cbn [tool_of LangChain.schema].
    now rewrite (flat_input _ Hflat), Hp. }
  split; [|split; [|split; [|split]]].
  - intros Hacc. apply Hthrow. now apply accepts_false.
  - intros Hacc. apply accepts_true in Hacc as [data Hp].
    cbn [tool_of LangChain.schema] in Hp.
    unfold LangChain.invoke. cbn [tool_of LangChain.schema LangChain.func].
    rewrite (flat_input _ Hflat), Hp. unfold bind, ret.
    destruct (tool_func_settles n data w) as (raw & w' & ->).
    destruct (truthy (LangChain.toolCallId arg)); eauto.
  - intros Hplain. unfold LangChain.toolInput. now rewrite Hplain.
  - intros Hcall. unfold LangChain.toolInput. now rewrite Hcall.
  - intros Hcall Hargs. apply Hthrow.
    unfold LangChain.toolInput. rewrite Hcall, Hargs.
    destruct (Zod.parse (Aisdk5.parameters d) VUndefined) as [data|] eqn:Hp;
      [|reflexivity].
    destruct (@Normal.contracts_take_objects URL_parses toLowerCase
                n d _ data Hin Hp) as (kvs & _ & Habs & _).
    discriminate Habs.
Qed.

(** ** One call *)

(** what [func] hands back, from what the environment did *)
Definition handed_back (toolName : string) (data : value) (r : Result value)
  : JSON.raw :=
  match r with
  | Ok v => JSON.stringify v
  | Throw error =>
      JSON.stringify (VObj [("error", VStr (Promise.message error));
                            ("tool", VStr toolName);
                            ("input", data);
                            ("status", VStr "FAILURE")])
  end.

(** what [executeTools] keeps as the result of a call that came with no
    id, from what the environment did with it *)
Definition outcome (toolName : string) (data : value) (r : Result value) : value :=
  match r with
  | Ok v =>
      if is_undefined v then VObj [("raw", VUndefined)] else JSON.document v
  | Throw error =>
      VObj [("error", VStr (Promise.message error));
            ("tool", VStr toolName);
            ("input", JSON.document data);
            ("status", VStr "FAILURE")]
  end.

(** and of any call: one that came with an id gives a message, which is
    no JSON text *)
Definition kept (arg : value) (toolName : string) (data : value)
           (r : Result value) : value :=
  if truthy (LangChain.toolCallId arg)
  then VObj [("raw", LangChain.ToolMessage (handed_back toolName data r)
                                           (LangChain.toolCallId arg))]
  else outcome toolName data r.

Lemma run_call n definition (arg data : value) rest outputs w :
  In (n, definition) registry ->
  Zod.parse (Aisdk5.parameters definition) (LangChain.inputForValidation arg)
  = Some data ->
  run_calls tools ({| name := n; args := arg |} :: rest) outputs w
  = run_calls tools rest
      (outputs ++ [{| toolName := n;
                      result := kept arg n data (fst (executeTool n data w));
                      input := arg |}])
      (snd (executeTool n data w)).
Proof.
  intros Hin Hp.
  destruct (find_entry registry n registry_distinct) as [Hfound _].
  specialize (Hfound _ Hin).
  destruct (validated_object _ Hin Hp) as (_ & out & ->).
  cbn [run_calls name args]. rewrite tools_are_entries, Hfound.
  unfold bind, LangChain.invoke.
  cbn [tool_of LangChain.schema LangChain.func]. rewrite Hp.
  unfold Aisdk5.tool_func, try_catch, bind, ret, kept.
  destruct (executeTool n (VObj out) w) as [[v|e] w1];
    cbn [fst snd outcome handed_back];
    destruct (truthy (LangChain.toolCallId arg)); try reflexivity.
  unfold JSON.stringify. destruct (is_undefined v); reflexivity.
Qed.

(** X14: one accepted call to a tool of the registry, with arguments that
    do not read as a tool call.  The environment is called with the parsed
    data; the outcome keeps the name and the arguments as they were
    proposed; its result is the document the environment returned
    (unchanged when it holds no [undefined]), [{raw: undefined}] when the
    environment returned [undefined], and the FAILURE document with the
    message when the environment rejected. *)
Theorem call_outcome n definition (arg data : value) w :
  In (n, definition) registry ->
  LangChain.isToolCall arg = false ->
  Zod.parse (Aisdk5.parameters definition) arg = Some data ->
  exists r w',
    executeTool n data w = (r, w') /\
    run_calls tools [{| name := n; args := arg |}] [] w
    = (Ok [{| toolName := n; result := outcome n data r; input := arg |}], w') /\
    (forall v, r = Ok v -> json v = true -> outcome n data r = v) /\
    (r = Ok VUndefined -> outcome n data r = VObj [("raw", VUndefined)]) /\
    (forall error, r = Throw error ->
                   get (outcome n data r) "error" = VStr (Promise.message error) /\
                   get (outcome n data r) "tool" = VStr n /\
                   get (outcome n data r) "status" = VStr "FAILURE").
Proof.
  intros Hin Hplain Hp. destruct (plain_argument _ Hplain) as [Hinput Hid].
  rewrite <- Hinput in Hp.
  destruct (executeTool n data w) as [r w'] eqn:He.
  exists r, w'. split; [reflexivity|]. split.
  - rewrite (run_call arg [] [] w Hin Hp), He. unfold kept. rewrite Hid.
    reflexivity.
  - split; [|split].
    + intros v -> Hj. cbn [outcome]. rewrite (json_defined _ Hj).
      now apply document_json.
    + intros ->. reflexivity.
    + intros error ->. cbn. auto.
Qed.

(** ** A batch *)

Definition known (call : AgentToolCall) : bool :=
  match lookup tools (name call) with Some _ => true | None => false end.

(** the call is to no tool of the list, or what LangChain validates of its
    arguments passes the contract of the tool *)
Definition accepted (call : AgentToolCall) : bool :=
  match lookup tools (name call) with
  | Some tool =>
      accepts (LangChain.schema tool) (LangChain.inputForValidation (args call))
  | None => true
  end.

(** an outcome as the tools of the registry produce them *)
Definition sound (o : ToolOutput) : Prop :=
  (exists kvs, input o = VObj kvs) /\ is_undefined (result o) = false.

Lemma outcome_defined n data r : is_undefined (outcome n data r) = false.
Proof.
  destruct r as [v|e]; cbn [outcome]; [|reflexivity].
  destruct (is_undefined v) eqn:E; [reflexivity | now destruct v].
Qed.

Lemma kept_defined arg n data r : is_undefined (kept arg n data r) = false.
Proof.
  unfold kept. destruct (truthy (LangChain.toolCallId arg));
    [reflexivity | apply outcome_defined].
Qed.

Lemma run_calls_batch actions :
  forall outputs w,
    (forallb accepted actions = true ->
     exists outs w',
       run_calls tools actions outputs w = (Ok outs, w') /\
       List.map toolName outs
       = List.map toolName outputs ++ List.map name (filter known actions) /\
       List.map input outs
       = List.map input outputs ++ List.map args (filter known actions) /\
       (Forall sound outputs -> Forall sound outs)) /\
    (forallb accepted actions = false ->
     exists w', run_calls tools actions outputs w
                = (Throw ToolInputParsingException, w')).
Proof.
  induction actions as [|[n arg] rest IH]; intros outputs w.
  - split; [|discriminate]. intros _. exists outputs, w.
    cbn. rewrite !app_nil_r. auto.
  - cbn [forallb filter].
    change (accepted {| name := n; args := arg |})
      with (match lookup tools n with
            | Some tool =>
                accepts (LangChain.schema tool) (LangChain.inputForValidation arg)
            | None => true
            end).
    change (known {| name := n; args := arg |})
      with (match lookup tools n with Some _ => true | None => false end).
    destruct (lookup tools n) as [tool|] eqn:Hfind.
    + destruct (lookup_entry _ Hfind) as (d & Hin & ->).
      cbn [tool_of LangChain.schema]. unfold accepts.
      destruct (Zod.parse (Aisdk5.parameters d)
                          (LangChain.inputForValidation arg)) as [data|] eqn:Hp.
      * rewrite (run_call arg rest outputs w Hin Hp). cbn [andb].
        destruct (IH (outputs ++ [{| toolName := n;
                                     result := kept arg n data
                                                 (fst (executeTool n data w));
                                     input := arg |}])
                     (snd (executeTool n data w))) as [IHok IHbad].
        split; [|exact IHbad].
        intros Hall. destruct (IHok Hall) as (outs & w' & Hrun & Hn & Hi & Hs).
        exists outs, w'. split; [exact Hrun|].
        rewrite Hn, Hi, !map_app, <- !app_assoc.
        cbn [List.map app toolName input name args].
        split; [reflexivity|]. split; [reflexivity|].
        intros Hout. apply Hs, Forall_app. split; [exact Hout|].
        constructor; [|constructor]. split; cbn [input result].
        -- exact (proj1 (validated_object _ Hin Hp)).
        -- apply kept_defined.
      * cbn [andb]. split; [discriminate|]. intros _. exists w.
        cbn [run_calls name args]. unfold lookup in Hfind. rewrite Hfind.
        unfold bind, LangChain.invoke. cbn [tool_of LangChain.schema].
        now rewrite Hp.
    + cbn [andb run_calls name args]. unfold lookup in Hfind. rewrite Hfind.
      apply IH.
Qed.

(** the call is to no tool of the list, or its arguments (their [args],
    when they read as a tool call) pass the contract of the tool *)
Definition taken (call : AgentToolCall) : bool :=
  match lookup tools (name call) with
  | Some tool =>
      accepts (LangChain.schema tool) (LangChain.toolInput (args call))
  | None => true
  end.

Lemma taken_accepted actions :
  forallb (fun call => flat (args call)) actions = true ->
  forallb taken actions = forallb accepted actions.
Proof.
  induction actions as [|call rest IH]; [reflexivity|].
  cbn [forallb]. intros H. apply andb_true_iff in H as [Hflat Hrest].
  rewrite (IH Hrest). f_equal. unfold taken, accepted.
  now rewrite (flat_input _ Hflat).
Qed.

(** X16: a batch against the tools of the registry, of calls with
    arguments that are not a tool call around another.  When, for every
    call to a known tool, the arguments (their [args], when they read as a
    tool call) pass the contract, the first loop ends with one outcome for
    each such call, in proposal order, under the proposed name and with the
    arguments as proposed; otherwise the loop ends with
    [ToolInputParsingException] and with nothing else, whether the
    environment returns or rejects with an error. *)
Theorem batch_ends (actions : list AgentToolCall) (w : W) :
  forallb (fun call => flat (args call)) actions = true ->
  (forallb taken actions = true ->
   exists outs w',
     run_calls tools actions [] w = (Ok outs, w') /\
     List.map toolName outs = List.map name (filter known actions) /\
     List.map input outs = List.map args (filter known actions)) /\
  (forallb taken actions = false ->
   exists w', run_calls tools actions [] w
              = (Throw ToolInputParsingException, w')) /\
  (forall call tool,
      lookup tools (name call) = Some tool ->
      LangChain.isToolCall (args call) = false ->
      taken call = accepts (LangChain.schema tool) (args call)).
Proof.
  intros Hflat. rewrite (taken_accepted _ Hflat).
  destruct (run_calls_batch actions [] w) as [Hok Hbad].
  split; [|split; [exact Hbad|]].
  - intros Hall. destruct (Hok Hall) as (outs & w' & Hrun & Hn & Hi & _).
    exists outs, w'. auto.
  - intros call tool Hfind Hplain. unfold taken, LangChain.toolInput.
    now rewrite Hfind, Hplain.
Qed.

(** ** What [executeTools] can throw *)

Lemma fold_output_sound acc o e :
  sound o ->
  fold_output Number_toString acc o = Throw e ->
  e = TypeError "null" "screenshot".
Proof.
  destruct acc as [ns msgs], o as [tn res inp].
  intros [[kvs Hinp] Hres]. cbn [input result] in Hinp, Hres. subst inp.
  unfold fold_output. cbn [toolName result input prop bindR].
  destruct (String.eqb tn "computer").
  - destruct res; cbn [prop bindR]; try discriminate Hres;
      try (intros H; injection H as <-; reflexivity);
      repeat match goal with
             | |- context [if ?b then _ else _] => destruct b
             end; discriminate.
  - cbn [bindR].
    repeat match goal with
           | |- context [if ?b then _ else _] => destruct b
           end; discriminate.
Qed.

Lemma fold_outputs_sound outputs :
  Forall sound outputs ->
  forall acc e,
    fold_outputs Number_toString outputs acc = Throw e ->
    e = TypeError "null" "screenshot".
Proof.
  induction 1 as [|o rest Ho _ IH]; intros acc e H; [discriminate|].
  cbn [fold_outputs] in H.
  destruct (fold_output Number_toString acc o) as [acc'|e'] eqn:E;
    cbn [bindR] in H.
  - eauto.
  - injection H as <-. exact (fold_output_sound _ Ho E).
Qed.

(** X17: with the tools of the registry, and an environment that returns
    or rejects with an error, [executeTools] rejects in two ways only,
    whatever the model proposes: with [ToolInputParsingException], when
    what LangChain validates of a call breaks its contract, and with the
    [TypeError] of reading [screenshot] of [null], for a computer call
    whose result decodes to [null]. *)
Theorem executeTools_rejections (state : AgentState) (w w' : W) (e : exn) :
  executeTools Number_toString tools state w = (Throw e, w') ->
  e = ToolInputParsingException \/ e = TypeError "null" "screenshot".
Proof.
  rewrite executeTools_eq.
  destruct (run_calls_batch (actions_of state) [] w) as [Hok Hbad].
  destruct (forallb accepted (actions_of state)).
  - destruct (Hok eq_refl) as (outs & w1 & -> & _ & _ & Hsound).
    destruct (fold_outputs Number_toString outs (empty_update, []))
      as [acc|e'] eqn:E; [discriminate|].
    intros H. injection H as <- _. right.
    exact (fold_outputs_sound (Hsound (Forall_nil _)) _ E).
  - destruct (Hbad eq_refl) as (w1 & ->). intros H. injection H as <- _.
    now left.
Qed.

End Registry.
End Dispatch.

(* ================================================================== *)
(** * More on the workflow *)
(* ================================================================== *)

Module Frame.
Import Workflow Run.

Section Facts.
Variable W : Type.
Variable Number_toString : Q -> string.
Variable agent : list BaseMessage -> Async W AgentOutcome.
Variable tools : list (LangChain.DynamicStructuredTool W).

(** ** When the second loop throws *)

Lemma fold_output_Ok acc o acc' :
  fold_output Number_toString acc o = Ok acc' -> readable o = true.
Proof.
  destruct acc as [ns msgs], o as [tn res inp].
  unfold fold_output, readable, is_message_update, is_todo.
  cbn [toolName result input].
  destruct (String.eqb tn "computer") eqn:Ec.
  - apply String.eqb_eq in Ec. subst tn.
    destruct res; cbn [prop bindR is_nullish negb andb get]; try discriminate;
      try reflexivity.
    destruct (truthy _); cbn [negb orb]; [|reflexivity].
    destruct inp; cbn [prop bindR is_nullish negb]; try discriminate;
      reflexivity.
  - cbn [bindR].
    destruct (String.eqb tn "message_update"); cbn [orb].
    + destruct inp; cbn [prop bindR is_nullish negb]; try discriminate;
        reflexivity.
    + destruct (String.eqb tn "todo"); [|reflexivity].
      destruct inp; cbn [prop bindR is_nullish negb]; try discriminate;
        reflexivity.
Qed.

(** X18: the second loop of [executeTools] goes through exactly when no
    outcome makes it read a property of [null] or [undefined]: a computer
    outcome whose result is [null] or [undefined], or an outcome of one of
    the three folded kinds whose input is. *)
Theorem fold_outputs_goes_through (outputs : list ToolOutput)
        (acc : PartialAgentState * list BaseMessage) :
  (exists acc', fold_outputs Number_toString outputs acc = Ok acc') <->
  Forall (fun o => readable o = true) outputs.
Proof.
  split.
  - revert acc. induction outputs as [|o rest IH]; intros acc [acc' H];
      constructor; cbn [fold_outputs] in H;
      destruct (fold_output Number_toString acc o) as [acc1|e] eqn:E;
      cbn [bindR] in H; try discriminate.
    + exact (fold_output_Ok _ _ E).
    + eauto.
  - intros Hall. eexists. now apply fold_outputs_readable.
Qed.

(** ** What each node leaves alone *)

Lemma fold_output_frame acc o acc' :
  fold_output Number_toString acc o = Ok acc' ->
  agentOutcome' (fst acc') = agentOutcome' (fst acc) /\
  chat_history' (fst acc') = chat_history' (fst acc).
Proof.
  destruct acc as [ns msgs], o as [tn res inp].
  unfold fold_output. cbn [toolName result input fst].
  destruct (String.eqb tn "computer");
    [destruct (prop res "screenshot") as [shot|]; cbn [bindR];
     [destruct (truthy shot)|discriminate]|cbn [bindR]];
    repeat match goal with
           | |- context [prop ?v ?k] => destruct (prop v k); cbn [bindR]
           | |- context [if ?b then _ else _] => destruct b
           end;
    intros H; try discriminate H; injection H as <-; auto.
Qed.

Lemma fold_outputs_frame outputs :
  forall acc acc',
    fold_outputs Number_toString outputs acc = Ok acc' ->
    agentOutcome' (fst acc') = agentOutcome' (fst acc) /\
    chat_history' (fst acc') = chat_history' (fst acc).
Proof.
  induction outputs as [|o rest IH]; intros acc acc' H.
  - injection H as <-. auto.
  - cbn [fold_outputs] in H.
    destruct (fold_output Number_toString acc o) as [acc1|e] eqn:E;
      cbn [bindR] in H; [|discriminate].
    destruct (fold_output_frame _ _ E) as [Ha Hc].
    destruct (IH _ _ H) as [Ha' Hc']. split; congruence.
Qed.

Lemma executeTools_frame state w update w' :
  executeTools Number_toString tools state w = (Ok update, w') ->
  agentOutcome' update = None.
Proof.
  rewrite executeTools_eq.
  destruct (run_calls tools (actions_of state) [] w) as [[outputs|e] w1];
    [|discriminate].
  destruct (fold_outputs Number_toString outputs (empty_update, []))
    as [acc|e] eqn:E; [|discriminate].
  intros H. injection H as <- _.
  destruct (finish_fields state acc) as (-> & _).
  now destruct (fold_outputs_frame _ _ E) as [-> _].
Qed.

(** X19: the agent node writes [agentOutcome] and nothing else; the tools
    node never writes [agentOutcome], so the proposal it has run stays in
    the state until the agent answers again. *)
Theorem nodes_keep_to_their_fields c1 c2 :
  step Number_toString agent tools c1 c2 ->
  (node_of c1 = agent_node ->
   chat_history (state_of c2) = chat_history (state_of c1) /\
   latest_screenshot (state_of c2) = latest_screenshot (state_of c1) /\
   current_ui_status (state_of c2) = current_ui_status (state_of c1) /\
   current_todo_list (state_of c2) = current_todo_list (state_of c1)) /\
  (node_of c1 = tools_node ->
   agentOutcome (state_of c2) = agentOutcome (state_of c1)).
Proof.
  intros H. destruct H as [state w update w' Hrun | state w update w' Hrun];
    cbn [node_of state_of fst snd]; (split; [|]); try discriminate; intros _.
  - unfold runAgent, bind, ret in Hrun.
    destruct (agent (chat_history state) w) as [[response|e] w1];
      [|discriminate].
    injection Hrun as <- _. cbn. auto.
  - unfold apply_update. cbn [agentOutcome].
    now rewrite (executeTools_frame _ _ Hrun).
Qed.

(** ** Calls that leave no trace *)

Lemma run_calls_names actions :
  forall outputs w outs w',
    run_calls tools actions outputs w = (Ok outs, w') ->
    forall o, In o outs ->
              In o outputs \/ exists call, In call actions /\ toolName o = name call.
Proof.
  induction actions as [|call rest IH]; intros outputs w outs w' H o Ho.
  - cbn in H. injection H as <- _. now left.
  - cbn [run_calls] in H.
    destruct (find _ tools) as [tool|].
    + unfold bind in H.
      destruct (LangChain.invoke tool (args call) w) as [[raw|e] w1];
        [|discriminate].
      destruct (IH _ _ _ _ H o Ho) as [Hin | (c & Hc & Hn)].
      * apply in_app_or in Hin as [Hin | [<- | []]]; [now left|].
        right. exists call. split; [now left | reflexivity].
      * right. exists c. split; [now right | exact Hn].
    + destruct (IH _ _ _ _ H o Ho) as [Hin | (c & Hc & Hn)]; [now left|].
      right. exists c. split; [now right | exact Hn].
Qed.

Lemma last_such_none {A} (P : A -> bool) l :
  (forall x, In x l -> P x = false) -> last_such P l = None.
Proof.
  induction l as [|a l IH]; intros H; [reflexivity|]. cbn [last_such].
  rewrite IH by (intros x Hx; apply H; now right).
  now rewrite (H a) by (now left).
Qed.

Lemma filter_none {A} (P : A -> bool) l :
  (forall x, In x l -> P x = false) -> filter P l = [].
Proof.
  induction l as [|a l IH]; intros H; [reflexivity|]. cbn [filter].
  rewrite (H a) by (now left). apply IH. intros x Hx. apply H. now right.
Qed.

Definition folded_names : list string := ["computer"; "message_update"; "todo"].

Lemma not_folded o :
  ~ In (toolName o) folded_names ->
  readable o = true /\ has_screenshot o = false /\
  is_message_update o = false /\ is_todo o = false.
Proof.
  intros H. unfold readable, has_screenshot, is_message_update, is_todo.
  assert (Hc : String.eqb (toolName o) "computer" = false)
    by (apply String.eqb_neq; intros E; apply H; rewrite E; cbn; tauto).
  assert (Hm : String.eqb (toolName o) "message_update" = false)
    by (apply String.eqb_neq; intros E; apply H; rewrite E; cbn; tauto).
  assert (Ht : String.eqb (toolName o) "todo" = false)
    by (apply String.eqb_neq; intros E; apply H; rewrite E; cbn; tauto).
  rewrite Hc, Hm, Ht. auto.
Qed.

(** X20: a batch with no call to computer, message_update or todo changes
    no field of the state: when its calls go through, [executeTools]
    returns the empty update, and merging it leaves the state as it was.
    What the other tools return does not reach the state. *)
Theorem other_tools_leave_the_state state w outputs w' :
  (forall call, In call (actions_of state) -> ~ In (name call) folded_names) ->
  run_calls tools (actions_of state) [] w = (Ok outputs, w') ->
  executeTools Number_toString tools state w = (Ok empty_update, w') /\
  apply_update state empty_update = state.
Proof.
  intros Hnames Hrun. split; [|now destruct state].
  assert (Hall : forall o, In o outputs ->
                           readable o = true /\ has_screenshot o = false /\
                           is_message_update o = false /\ is_todo o = false).
  { intros o Ho. apply not_folded.
    destruct (run_calls_names _ _ _ Hrun o Ho) as [[] | (c & Hc & ->)].
    now apply Hnames. }
  rewrite (@executeTools_readable _ Number_toString tools state w outputs w' Hrun)
    by (apply Forall_forall; intros o Ho; now apply Hall).
  unfold folded_all.
  rewrite !last_such_none, filter_none by (intros o Ho; now apply Hall).
  reflexivity.
Qed.

(** X21: what a step of the tools node does to the history.
    [executeTools] writes the history of the state followed by one
    observation for each computer outcome with a screenshot, in proposal
    order, and the channel keeps what is written: after the merge the
    turns that were there stand once, in place, and the observations
    follow them.  A batch without a screenshot leaves the history as it
    was. *)
Theorem observations_extend_the_history state w outputs w' :
  run_calls tools (actions_of state) [] w = (Ok outputs, w') ->
  Forall (fun o => readable o = true) outputs ->
  exists update,
    executeTools Number_toString tools state w = (Ok update, w') /\
    chat_history (apply_update state update)
    = chat_history state
        ++ List.map (observation_of Number_toString)
             (filter has_screenshot outputs).
Proof.
  intros Hrun Hall.
  eexists. split; [apply executeTools_readable; eassumption|].
  unfold apply_update. cbn [chat_history].
  destruct (finish_fields state
              (folded_all Number_toString (empty_update, []) outputs))
    as (_ & _ & _ & _ & ->).
  unfold folded_all. cbn [fst snd empty_update chat_history' app].
  destruct (filter has_screenshot outputs); [|reflexivity].
  cbn. now rewrite app_nil_r.
Qed.

(** ** Calls to no tool *)

Definition has_tool (call : AgentToolCall) : bool :=
  match lookup tools (name call) with Some _ => true | None => false end.

(** The calls of a list are invoked one after the other, each in the world
    that the one before it left, and each resolves; the outcomes are theirs,
    call by call. *)
Inductive executed : W -> list AgentToolCall -> list ToolOutput -> W -> Prop :=
| executed_none w : executed w [] [] w
| executed_call w call tool raw w1 rest outputs w2 :
    lookup tools (name call) = Some tool ->
    LangChain.invoke tool (args call) w = (Ok raw, w1) ->
    executed w1 rest outputs w2 ->
    executed w (call :: rest) (outcome_of call raw :: outputs) w2.

Lemma run_calls_executed actions :
  forall acc w outs w',
    run_calls tools actions acc w = (Ok outs, w') <->
    exists added,
      outs = acc ++ added /\ executed w (filter has_tool actions) added w'.
Proof.
  induction actions as [|call rest IH]; intros acc w outs w'.
  - cbn [run_calls filter]. unfold ret. split.
    + intros H. injection H as <- <-. exists []. rewrite app_nil_r.
      split; [reflexivity | constructor].
    + intros (added & -> & H). inversion H; subst. now rewrite app_nil_r.
  - cbn [filter]. unfold has_tool at 1.
    destruct (lookup tools (name call)) as [tool|] eqn:Hfind.
    + rewrite (@run_calls_known _ _ _ _ rest acc w Hfind).
      destruct (LangChain.invoke tool (args call) w) as [[raw|e] w1] eqn:Hinv.
      * rewrite IH. split.
        -- intros (added & -> & H). exists (outcome_of call raw :: added).
           rewrite <- app_assoc. split; [reflexivity|].
           econstructor; eassumption.
        -- intros (added & -> & H). inversion H; subst.
           match goal with
           | H1 : lookup tools (name call) = Some ?t,
             H2 : LangChain.invoke ?t _ _ = _ |- _ =>
               rewrite Hfind in H1; injection H1 as <-;
               rewrite Hinv in H2; injection H2 as <- <-
           end.
           eexists. rewrite <- app_assoc. split; [reflexivity | eassumption].
      * split; [discriminate|]. intros (added & _ & H). inversion H; subst.
        match goal with
        | H1 : lookup tools (name call) = Some ?t,
          H2 : LangChain.invoke ?t _ _ = _ |- _ =>
            rewrite Hfind in H1; injection H1 as <-;
            rewrite Hinv in H2; discriminate H2
        end.
    + cbn [run_calls]. unfold lookup in Hfind. rewrite Hfind. apply IH.
Qed.

(** X27: what the first loop does with a batch, whatever the tools.  The
    calls to no tool of the list are passed over: they add no outcome,
    throw nothing and do not touch the world, so that the batch runs as the
    batch without them, and a batch of such a call alone returns the empty
    update.  The other calls are invoked in proposal order, each in the
    world the one before left, and the loop ends well exactly when each of
    them resolves, with their outcomes in that order. *)
Theorem unknown_calls_are_skipped :
  (forall actions w outputs w',
      run_calls tools actions [] w = (Ok outputs, w') <->
      executed w (filter has_tool actions) outputs w') /\
  (forall call pre post outputs w,
      lookup tools (name call) = None ->
      run_calls tools (pre ++ call :: post) outputs w
      = run_calls tools (pre ++ post) outputs w) /\
  (forall call state w,
      lookup tools (name call) = None ->
      executeTools Number_toString tools (with_calls state [call]) w
      = (Ok empty_update, w)).
Proof.
  split; [|split].
  - intros actions w outputs w'. rewrite run_calls_executed. cbn [app]. split.
    + now intros (added & -> & H).
    + intros H. now exists outputs.
  - intros call pre post outputs w Hnone. now apply run_calls_skip.
  - intros call state w Hnone. now apply unknown_call_alone.
Qed.

(** ** Where a run can be *)

Lemma after_agent_cases state :
  (after_agent state = tools_node /\ actions_of state <> []) \/
  (after_agent state = END /\ actions_of state = []).
Proof.
  unfold after_agent, shouldContinue, actions_of.
  destruct (agentOutcome state) as [[[[|call calls]|]]|]; cbn; auto.
  left. split; [reflexivity | discriminate].
Qed.

(** X22: along every run from the start, the tools node is entered only
    with a proposal that has at least one call, and [END] only with a
    proposal that has none; from [END] the run takes no step. *)
Theorem nodes_and_proposals init w0 c :
  steps Number_toString agent tools (START_edge, init, w0) c ->
  (node_of c = tools_node -> actions_of (state_of c) <> []) /\
  (node_of c = END ->
   actions_of (state_of c) = [] /\
   forall c', ~ step Number_toString agent tools c c').
Proof.
  intros H. remember (START_edge, init, w0) as c0 eqn:E.
  destruct H as [c | c1 c2 c3 _ Hstep].
  - subst c. cbn. split; discriminate.
  - destruct Hstep as [state w update w' Hrun | state w update w' Hrun];
      cbn [node_of state_of fst snd].
    + destruct (after_agent_cases (apply_update state update))
        as [[-> Hsome] | [-> Hnone]].
      * split; [auto | discriminate].
      * split; [discriminate|]. intros _. split; [exact Hnone|].
        intros c' Hc'. inversion Hc'.
    + split; discriminate.
Qed.

End Facts.
End Frame.

(* ================================================================== *)
(** * The task list along a run *)
(* ================================================================== *)

Module Tasks.
Import Workflow Run.

Section Registry.
Variable W : Type.
Variable URL_parses : string -> bool.
Variable toLowerCase : string -> string.
Variable executeTool : string -> value -> Async W value.
Variable Number_toString : Q -> string.
Variable agent : list BaseMessage -> Async W AgentOutcome.

Definition tools : list (LangChain.DynamicStructuredTool W) :=
  Aisdk5.createAisdk5Tools URL_parses toLowerCase executeTool.

(** a call that, when it is to todo, has arguments that do not read as a
    tool call *)
Definition plain_todo (call : AgentToolCall) : Prop :=
  name call = "todo" -> LangChain.isToolCall (args call) = false.

Definition calls_of (outcome : AgentOutcome) : list AgentToolCall :=
  match tool_calls outcome with
  | Some calls => calls
  | None => []
  end.

Lemma executeTools_todo state w update w' :
  Forall plain_todo (actions_of state) ->
  executeTools Number_toString tools state w = (Ok update, w') ->
  Scout.todo_list_ok (current_todo_list' update).
Proof.
  intros Hplain. rewrite executeTools_eq.
  destruct (run_calls tools (actions_of state) [] w) as [[outputs|e] w1] eqn:Hrun;
    [|discriminate].
  destruct (fold_outputs Number_toString outputs (empty_update, []))
    as [acc|e] eqn:Hfold; [|discriminate].
  intros H. injection H as <- _.
  destruct (finish_fields state acc) as (_ & _ & _ & -> & _).
  refine (@Scout.fold_outputs_todo Number_toString outputs _ _ _ Hfold I).
  pose proof (@run_calls_validated _ _ _ _ _ _ _ Hrun _ (incl_refl _)
                (Forall_nil _)) as Hval.
  eapply Forall_impl; [|exact Hval]. cbn beta. intros o Ho Hname.
  apply (Scout.validated_todo Ho); [|exact Hname].
  destruct Ho as [(call & Hin & Hn & ->) _].
  rewrite Forall_forall in Hplain. apply (Hplain call Hin). congruence.
Qed.

Lemma step_todo c1 c2 :
  (forall history w outcome w',
      agent history w = (Ok outcome, w') -> Forall plain_todo (calls_of outcome)) ->
  step Number_toString agent tools c1 c2 ->
  Forall plain_todo (actions_of (state_of c1)) /\
  Aisdk5.in_progress_count (current_todo_list (state_of c1)) <= 1 ->
  Forall plain_todo (actions_of (state_of c2)) /\
  Aisdk5.in_progress_count (current_todo_list (state_of c2)) <= 1.
Proof.
  intros Hagent H.
  destruct H as [state w update w' Hrun | state w update w' Hrun];
    cbn [state_of fst snd]; intros [Hplain Hcount].
  - unfold runAgent, bind, ret in Hrun.
    destruct (agent (chat_history state) w) as [[response|e] w1] eqn:Ha;
      [|discriminate].
    injection Hrun as <- _. split; [|exact Hcount].
    exact (Hagent _ _ _ _ Ha).
  - pose proof (@executeTools_todo state w update w' Hplain Hrun) as Htodo.
    unfold apply_update, actions_of. cbn [agentOutcome current_todo_list].
    rewrite (@Frame.executeTools_frame _ _ _ _ _ _ _ Hrun).
    split; [exact Hplain|].
    destruct (current_todo_list' update); [exact Htodo | exact Hcount].
Qed.

(** X28: the task list along a run in which no todo call has arguments
    that read as a tool call.  What LangChain validates is then the
    arguments, the list that the second loop copies is the list that passed
    the contract, and from a state with at most one task in progress every
    state of the run has at most one. *)
Theorem plain_todo_calls_keep_one_in_progress c1 c2 :
  (forall history w outcome w',
      agent history w = (Ok outcome, w') -> Forall plain_todo (calls_of outcome)) ->
  Forall plain_todo (actions_of (state_of c1)) ->
  Aisdk5.in_progress_count (current_todo_list (state_of c1)) <= 1 ->
  steps Number_toString agent tools c1 c2 ->
  Forall plain_todo (actions_of (state_of c2)) /\
  Aisdk5.in_progress_count (current_todo_list (state_of c2)) <= 1.
Proof.
  intros Hagent Hplain Hcount Hsteps.
  induction Hsteps as [c | c1 c2 c3 _ IH Hstep]; [auto|].
  exact (step_todo Hagent Hstep (IH Hplain Hcount)).
Qed.

End Registry.
End Tasks.

(* ================================================================== *)
(** * environment.ts: the HTTP environment *)
(* ================================================================== *)

Module Environment.

(** [EnvironmentError]: its [name] is always ["EnvironmentError"] *)
Record EnvironmentError : Type :=
  { message : string; status : option nat; details : option value }.

Record HttpEnvironmentConfig : Type :=
  { baseUrl : string; apiKey : option string; timeoutMs : option Q }.

(** [this.config] *)
Record Config : Type :=
  { config_baseUrl : string; config_apiKey : string; config_timeoutMs : Q }.

(** [new HttpEnvironment(config)] *)
Definition HttpEnvironment (config : HttpEnvironmentConfig) : Result Config :=
  if String.eqb (baseUrl config) "" then
    Throw (Error "Error" "Environment runtime base URL is required.")
  else
    Ok {| config_baseUrl := baseUrl config;
          config_apiKey :=
            match apiKey config with
            | Some key => if String.eqb key "" then "" else key
            | None => ""
            end;
          config_timeoutMs :=
            match timeoutMs config with
            | Some ms => if Qeq_bool ms 0 then inject_Z 65000 else ms
            | None => inject_Z 65000
            end |}.

Record Request : Type :=
  { url : string;
    method : string;
    headers : list (string * string);
    body : JSON.raw;
    signal : Q }.

(** What [fetch] resolves with: the status, the [content-type] header if
    there is one, and what reading the body as JSON and as text gives. *)
Record Response : Type :=
  { response_status : nat;
    content_type : option string;
    json : Result value;
    text : Result string }.

(** [response.ok] *)
Definition ok (response : Response) : bool :=
  (200 <=? response_status response) && (response_status response <=? 299).

(** how [executeTool] ends: with a value, with an [EnvironmentError], or
    with another error, thrown before the [try] *)
Inductive Settled : Type :=
| Returned (v : value)
| Rejected (error : EnvironmentError)
| Failed (error : exn).

Definition unreadable_body : value :=
  VObj [("error", VStr "Failed to parse response body from environment runtime")].

(** the [body] after the inner [try] *)
Definition body_of (response : Response) : value :=
  match content_type response with
  | Some contentType =>
      if negb (String.eqb contentType "")
         && includes contentType "application/json"
      then match json response with Ok v => v | Throw _ => unreadable_body end
      else match text response with Ok s => VStr s | Throw _ => unreadable_body end
  | None =>
      match text response with Ok s => VStr s | Throw _ => unreadable_body end
  end.

(** [body?.k] *)
Definition optional_get (v : value) (k : string) : value :=
  if is_nullish v then VUndefined else get v k.

Section ExecuteTool.
Variable W : Type.
Variable Number_toString : Q -> string.
Variable fetch : Request -> Async W Response.

(** [AbortSignal.timeout(ms)]: the engine makes the signal or throws, for a
    time limit it does not take (a negative one, say) *)
Variable AbortSignal_timeout : Q -> Result unit.

Definition request_of (config : Config) (tool : string) (input : value) : Request :=
  {| url := (config_baseUrl config ++ "/tools/" ++ tool)%string;
     method := "POST";
     headers :=
       ("Content-Type", "application/json")
         :: (if negb (String.eqb (config_apiKey config) "")
             then [("Authorization", ("Bearer " ++ config_apiKey config)%string)]
             else []);
     body := JSON.stringify input;
     signal := config_timeoutMs config |}.

Definition errorMessage (response : Response) : value :=
  or_else
    (or_else (or_else (optional_get (body_of response) "error")
                      (optional_get (body_of response) "message"))
             (VStr (Workflow.String_ Number_toString (body_of response))))
    (VStr ("Environment call failed with status "
             ++ Number_toString (inject_Z (Z.of_nat (response_status response))))%string).

(** [executeTool]: the signal, made outside the [try]; the [try]; then the
    [catch] on what [fetch] threw.  The [EnvironmentError] thrown inside the
    [try] is thrown again as it is. *)
Definition executeTool (config : Config) (tool : string) (input : value)
  : W -> Settled * W :=
  fun w =>
    match AbortSignal_timeout (config_timeoutMs config) with
    | Throw error => (Failed error, w)
    | Ok _ =>
    match fetch (request_of config tool input) w with
    | (Ok response, w') =>
        if negb (ok response) then
          (Rejected {| message := Workflow.String_ Number_toString
                                    (errorMessage response);
                       status := Some (response_status response);
                       details := Some (body_of response) |}, w')
        else (Returned (body_of response), w')
    | (Throw error, w') =>
        if String.eqb (Promise.name error) "TimeoutError"
           || String.eqb (Promise.name error) "AbortError"
        then (Rejected {| message := ("Request timed out after "
                                       ++ Number_toString (config_timeoutMs config)
                                       ++ "ms")%string;
                          status := None; details := None |}, w')
        else (Rejected {| message := ("Network or configuration error: "
                                       ++ Promise.message error)%string;
                          status := None; details := None |}, w')
    end
    end.

(** the environment as [createAisdk5Tools] sees it: a promise that rejects
    with the error *)
Definition api (config : Config) : string -> value -> Async W value :=
  fun tool input w =>
    match executeTool config tool input w with
    | (Returned v, w') => (Ok v, w')
    | (Rejected error, w') => (Throw (Error "EnvironmentError" (message error)), w')
    | (Failed error, w') => (Throw error, w')
    end.

End ExecuteTool.
End Environment.

Module EnvironmentFacts.
Import Environment.

(** X23: an environment is made only for a base URL that is not empty; its
    time limit is never zero, the one given when that is not zero and 65000
    otherwise, and its key is the empty string when none is given. *)
Theorem HttpEnvironment_configuration (config : HttpEnvironmentConfig) :
  (baseUrl config = "" ->
   HttpEnvironment config
   = Throw (Error "Error" "Environment runtime base URL is required.")) /\
  (baseUrl config <> "" ->
   exists environment,
     HttpEnvironment config = Ok environment /\
     config_baseUrl environment = baseUrl config /\
     Qeq_bool (config_timeoutMs environment) 0 = false /\
     (forall ms, timeoutMs config = Some ms -> Qeq_bool ms 0 = false ->
                 config_timeoutMs environment = ms) /\
     (timeoutMs config = None \/
      (exists ms, timeoutMs config = Some ms /\ Qeq_bool ms 0 = true) ->
      config_timeoutMs environment = inject_Z 65000) /\
     (apiKey config = None -> config_apiKey environment = "")).
Proof.
  unfold HttpEnvironment. split.
  - intros ->. reflexivity.
  - intros Hne. apply String.eqb_neq in Hne. rewrite Hne.
    eexists. split; [reflexivity|]. cbn.
    split; [reflexivity|]. split; [|split; [|split]].
    + destruct (timeoutMs config) as [ms|]; [|reflexivity].
      destruct (Qeq_bool ms 0) eqn:E; [reflexivity | exact E].
    + intros ms -> E. now rewrite E.
    + intros [-> | (ms & -> & E)]; [reflexivity | now rewrite E].
    + intros ->. reflexivity.
Qed.

Section Calls.
Variable W : Type.
Variable Number_toString : Q -> string.
Variable fetch : Request -> Async W Response.
Variable AbortSignal_timeout : Q -> Result unit.

(** X24: [executeTool] returns a value exactly for a response with a
    status from 200 to 299, and the value is the body of that response.  It
    rejects with an [EnvironmentError] for any other response (with the
    status, and the body as details) and when [fetch] itself failed (with
    neither).  It rejects with anything else only when the engine refuses
    the time limit, and then no request is made. *)
Theorem executeTool_settles config tool input w r w' :
  executeTool Number_toString fetch AbortSignal_timeout config tool input w
  = (r, w') ->
  (forall v,
      r = Returned v ->
      exists response,
        fetch (request_of config tool input) w = (Ok response, w') /\
        200 <= response_status response <= 299 /\ v = body_of response) /\
  (forall error,
      r = Rejected error ->
      match status error with
      | Some code =>
          (code < 200 \/ 299 < code) /\
          exists response,
            fetch (request_of config tool input) w = (Ok response, w') /\
            response_status response = code /\
            details error = Some (body_of response)
      | None =>
          details error = None /\
          exists failure,
            fetch (request_of config tool input) w = (Throw failure, w')
      end) /\
  (forall error,
      r = Failed error ->
      AbortSignal_timeout (config_timeoutMs config) = Throw error /\ w' = w).
Proof.
  unfold executeTool.
  destruct (AbortSignal_timeout (config_timeoutMs config)) as [[]|refusal].
  - destruct (fetch (request_of config tool input) w) as [[response|failure] w1].
    + destruct (ok response) eqn:Hok; cbn [negb]; intros H; injection H as <- <-;
        (split; [intros v Hv | split; intros error He]); try discriminate.
      * injection Hv as <-. exists response. unfold ok in Hok.
        apply andb_true_iff in Hok as [Hlo Hhi]. apply Nat.leb_le in Hlo, Hhi.
        auto.
      * injection He as <-. cbn [status details]. split; [|eauto].
        unfold ok in Hok. apply andb_false_iff in Hok as [H | H];
          apply Nat.leb_gt in H; lia.
    + destruct (String.eqb (Promise.name failure) "TimeoutError"
                || String.eqb (Promise.name failure) "AbortError");
        intros H; injection H as <- <-;
        (split; [intros v Hv | split; intros error He]); try discriminate;
        injection He as <-; cbn [status details]; eauto.
  - intros H. injection H as <- <-.
    split; [intros v Hv | split; intros error He]; try discriminate.
    injection He as <-. auto.
Qed.

(** X25: how a response that is not a success is worded.  A body of plain
    text is the message, and an empty one gives way to the status; a JSON
    body with a non-empty string under [error] gives that string. *)
Theorem rejection_message config tool input w response w' :
  AbortSignal_timeout (config_timeoutMs config) = Ok tt ->
  fetch (request_of config tool input) w = (Ok response, w') ->
  ok response = false ->
  exists error,
    executeTool Number_toString fetch AbortSignal_timeout config tool input w
    = (Rejected error, w') /\
    (forall s, body_of response = VStr s ->
               message error
               = if String.eqb s ""
                 then ("Environment call failed with status "
                         ++ Number_toString
                              (inject_Z (Z.of_nat (response_status response))))%string
                 else s) /\
    (forall s, get (body_of response) "error" = VStr s -> s <> "" ->
               message error = s).
Proof.
  intros Hsignal Hfetch Hok. unfold executeTool.
  rewrite Hsignal, Hfetch, Hok. cbn [negb].
  eexists. split; [reflexivity|]. cbn [message]. unfold errorMessage. split.
  - intros s ->. unfold optional_get, or_else.
    cbn [is_nullish get truthy Workflow.String_].
    destruct (String.eqb s ""); reflexivity.
  - intros s Hs Hne. unfold optional_get.
    assert (Hd : is_nullish (body_of response) = false)
      by (destruct (body_of response); try reflexivity; discriminate Hs).
    rewrite Hd, Hs. apply String.eqb_neq in Hne.
    assert (Ht : truthy (VStr s) = true) by (cbn; now rewrite Hne).
    unfold or_else. rewrite Ht. rewrite Ht. rewrite Ht. reflexivity.
Qed.

(** X26: the tools of the registry over the HTTP environment.  When the
    environment rejects an accepted call (a status that is not a success, a
    time-out, a failure of the network) the call still yields its outcome,
    the FAILURE document with the message of the error, and the batch goes
    on with the next call.  The arguments are such as do not read as a
    tool call. *)
Theorem http_failure_is_an_outcome
        (URL_parses : string -> bool) (toLowerCase : string -> string)
        config n definition (arg data : value) rest w error w' :
  In (n, definition) (Aisdk5.ScoutTools URL_parses toLowerCase) ->
  LangChain.isToolCall arg = false ->
  Zod.parse (Aisdk5.parameters definition) arg = Some data ->
  executeTool Number_toString fetch AbortSignal_timeout config n data w
  = (Rejected error, w') ->
  Workflow.run_calls
    (Aisdk5.createAisdk5Tools URL_parses toLowerCase
       (api Number_toString fetch AbortSignal_timeout config))
    ({| Workflow.name := n; Workflow.args := arg |} :: rest) [] w
  = Workflow.run_calls
      (Aisdk5.createAisdk5Tools URL_parses toLowerCase
         (api Number_toString fetch AbortSignal_timeout config))
      rest
      [{| Workflow.toolName := n;
          Workflow.result :=
            VObj [("error", VStr (message error)); ("tool", VStr n);
                  ("input", JSON.document data); ("status", VStr "FAILURE")];
          Workflow.input := arg |}]
      w'.
Proof.
  intros Hin Hplain Hp He.
  destruct (Run.plain_argument _ Hplain) as [Hinput Hid].
  rewrite <- Hinput in Hp.
  pose proof (@Dispatch.run_call W URL_parses toLowerCase
                (api Number_toString fetch AbortSignal_timeout config)
                n definition arg data rest [] w Hin Hp) as Hcall.
  unfold Dispatch.tools in Hcall. rewrite Hcall.
  assert (Hapi : api Number_toString fetch AbortSignal_timeout config n data w
                 = (Throw (Error "EnvironmentError" (message error)), w'))
    by (unfold api; now rewrite He).
  rewrite Hapi. unfold Dispatch.kept. rewrite Hid. reflexivity.
Qed.

End Calls.
End EnvironmentFacts.

(* ================================================================== *)
(** * More worked examples *)
(* ================================================================== *)

Module MoreExamples.
Import Workflow Run Examples.

Ltac in_registry :=
  unfold Dispatch.registry; cbn [Aisdk5.ScoutTools In];
  repeat (first [left; reflexivity | right]).

(** ** Contracts *)

Definition edit_call : value :=
  VObj [("file_path", VStr "/project/workspace/notes.txt");
        ("edits", VArr [VObj [("old_string", VStr "teh");
                              ("new_string", VStr "the")]])].

Lemma edit_example :
  accepts Aisdk5.AbsolutePath (get edit_call "file_path") = true /\
  exists edits,
    get edit_call "edits" = VArr edits /\ edits <> [] /\
    Forall (fun e => exists old new,
                get e "old_string" = VStr old /\ get e "new_string" = VStr new /\
                old <> "" /\ old <> new) edits.
Proof. exact (MoreContracts.edit_never_a_no_op edit_call eq_refl). Defined.

Lemma bash_run_example :
  accepts Aisdk5.bash_run_parameters
          (VObj [("command", VStr "ls -la");
                 ("description", VStr "List the files")]) = false /\
  Aisdk5.reserved_command_re ("grep" ++ " " ++ "-r TODO .") = true.
Proof.
  split; [reflexivity|].
  destruct MoreContracts.bash_run_reserved_commands as (_ & H & _).
  apply (H "grep" "-r TODO ."). cbn. tauto.
Defined.

Definition search_call : value := VObj [("query", VStr "rocq prover")].

Lemma socials_search_example :
  ((exists q, get search_call "query" = VStr q /\ q <> "") \/
   (exists u, get search_call "username" = VStr u /\ u <> "")) /\
  (forall u, get search_call "username" = VStr u -> startsWith u "@" = false).
Proof.
  exact (MoreContracts.socials_search_needs_a_subject search_call eq_refl).
Defined.

Definition hover_call : value :=
  VObj [("operation", VStr "hover");
        ("file_path", VStr "/project/workspace/src/index.ts");
        ("line", VNum 12%Q); ("column", VNum 0%Q)].

Lemma lsp_example :
  accepts Aisdk5.AbsolutePath (get hover_call "file_path") = true /\
  (exists n, get hover_call "line" = VNum n /\
             is_integer n = true /\ (0 <= n)%Q) /\
  (exists n, get hover_call "column" = VNum n /\
             is_integer n = true /\ (0 <= n)%Q).
Proof.
  destruct (MoreContracts.lsp_operation_requirements hover_call eq_refl)
    as (H & _).
  apply (H "hover"); [cbn; tauto | reflexivity].
Defined.

Definition list_call : value :=
  VObj [("command", VStr "bun install");
        ("description", VStr "Install the packages")].

Lemma defaults_example :
  exists data,
    Zod.parse Aisdk5.bash_run_parameters list_call = Some data /\
    get data "timeout" = VNum (inject_Z 10).
Proof.
  eexists. split; [reflexivity|].
  destruct (MoreContracts.omitted_fields_take_their_defaults any_url) as (H & _).
  eapply (H list_call); reflexivity.
Defined.

Definition todo_definition : Aisdk5.ToolDefinition :=
  {| Aisdk5.description := "Task management tool.";
     Aisdk5.parameters := Aisdk5.todo_parameters |}.

Definition todo_data : value :=
  VObj [("tasks", get (args todo_call) "tasks");
        ("request_user_approval", VBool false)].

Lemma todo_in_registry :
  In ("todo", todo_definition) (Aisdk5.ScoutTools any_url lower).
Proof. cbn [Aisdk5.ScoutTools In]. repeat (first [left; reflexivity | right]). Qed.

Lemma normalise_example :
  Zod.parse Aisdk5.todo_parameters todo_data = Some todo_data.
Proof.
  exact (@Normal.contracts_normalise_once any_url lower "todo" todo_definition
           (args todo_call) todo_data todo_in_registry eq_refl).
Defined.

Lemma strip_example :
  exists shape kvs out,
    Normal.shape_of Aisdk5.todo_parameters = Some shape /\
    VObj [("tasks", get (args todo_call) "tasks"); ("note", VStr "kept?")]
    = VObj kvs /\
    todo_data = VObj out /\
    forall k, has_key k out = true -> In k (List.map fst shape).
Proof.
  exact (@Normal.contracts_strip_unknown_keys any_url lower "todo" todo_definition
           (VObj [("tasks", get (args todo_call) "tasks"); ("note", VStr "kept?")])
           todo_data todo_in_registry eq_refl).
Defined.

(** ** Dispatch *)

Definition todo_tool : LangChain.DynamicStructuredTool unit :=
  Dispatch.tool_of screen "todo" todo_definition.

Definition two_in_progress : value :=
  VObj [("tasks", VArr [task "1" "Read" "in_progress";
                        task "2" "Write" "in_progress"])].

(** arguments that pass the contract as they are, and read as a tool call
    with no [args] *)
Definition call_without_args : value :=
  VObj [("tasks", get (args todo_call) "tasks"); ("type", VStr "tool_call")].

Lemma invoke_example :
  LangChain.invoke todo_tool two_in_progress tt
  = (Throw ToolInputParsingException, tt) /\
  (exists raw w', LangChain.invoke todo_tool (args todo_call) tt = (Ok raw, w')) /\
  accepts Aisdk5.todo_parameters call_without_args = true /\
  LangChain.invoke todo_tool call_without_args tt
  = (Throw ToolInputParsingException, tt).
Proof.
  destruct (@Dispatch.invoke_rejects_on_violation_only unit any_url lower screen
              "todo" todo_tool two_in_progress tt eq_refl eq_refl)
    as (Hbad & _).
  destruct (@Dispatch.invoke_rejects_on_violation_only unit any_url lower screen
              "todo" todo_tool (args todo_call) tt eq_refl eq_refl)
    as (_ & Hgood & _).
  destruct (@Dispatch.invoke_rejects_on_violation_only unit any_url lower screen
              "todo" todo_tool call_without_args tt eq_refl eq_refl)
    as (_ & _ & _ & _ & Hcall).
  split; [apply Hbad; reflexivity|]. split; [apply Hgood; reflexivity|].
  split; [reflexivity|]. apply Hcall; reflexivity.
Defined.

Lemma call_outcome_example :
  exists r w',
    screen "todo" todo_data tt = (r, w') /\
    run_calls the_tools [todo_call] [] tt
    = (Ok [{| toolName := "todo"; result := Dispatch.outcome "todo" todo_data r;
              input := args todo_call |}], w').
Proof.
  destruct (@Dispatch.call_outcome unit any_url lower screen "todo"
              todo_definition (args todo_call) todo_data tt
              todo_in_registry eq_refl eq_refl)
    as (r & w' & Hr & Hrun & _).
  exists r, w'. split; [exact Hr | exact Hrun].
Defined.

Lemma batch_example_names :
  exists outs w',
    run_calls the_tools [take_screenshot; not_a_real_tool; todo_call] [] tt
    = (Ok outs, w') /\
    List.map toolName outs = ["computer"; "todo"].
Proof.
  destruct (@Dispatch.batch_ends unit any_url lower screen
              [take_screenshot; not_a_real_tool; todo_call] tt eq_refl)
    as [H _].
  destruct (H eq_refl) as (outs & w' & Hrun & Hnames & _).
  exists outs, w'. split; [exact Hrun | exact Hnames].
Defined.

Lemma rejection_example :
  exists e,
    executeTools print the_tools
                 (with_calls start [Scout.out_of_screen_click]) tt
    = (Throw e, tt) /\
    (e = ToolInputParsingException \/ e = TypeError "null" "screenshot").
Proof.
  exists ToolInputParsingException. split; [reflexivity|].
  exact (@Dispatch.executeTools_rejections unit any_url lower screen print
           (with_calls start [Scout.out_of_screen_click]) tt tt
           ToolInputParsingException eq_refl).
Defined.

(** ** Runs *)

Lemma tools_step_example :
  exists c,
    step print planner the_tools (tools_node, with_calls start [todo_call], tt) c /\
    agentOutcome (state_of c) = agentOutcome (with_calls start [todo_call]).
Proof.
  assert (H : exists c, step print planner the_tools
                             (tools_node, with_calls start [todo_call], tt) c).
  { eexists. eapply step_tools. reflexivity. }
  destruct H as [c H]. exists c. split; [exact H|].
  destruct (Frame.nodes_keep_to_their_fields H) as [_ Htools].
  exact (Htools eq_refl).
Defined.

Definition list_files : AgentToolCall :=
  {| name := "ls"; args := VObj [("path", VStr "/project/workspace/")] |}.

Lemma other_tools_example :
  executeTools print the_tools (with_calls start [list_files]) tt
  = (Ok empty_update, tt) /\
  apply_update (with_calls start [list_files]) empty_update
  = with_calls start [list_files].
Proof.
  apply (@Frame.other_tools_leave_the_state unit print the_tools
           (with_calls start [list_files]) tt [output_of list_files] tt).
  - intros call [<- | []]. cbn. intuition discriminate.
  - reflexivity.
Defined.

Lemma extended_history_example :
  exists update,
    executeTools print the_tools (with_calls start [take_screenshot]) tt
    = (Ok update, tt) /\
    List.length (chat_history (apply_update (with_calls start [take_screenshot])
                                            update)) = 2 /\
    firstn 1 (chat_history (apply_update (with_calls start [take_screenshot])
                                         update))
    = chat_history start.
Proof.
  destruct (@Frame.observations_extend_the_history unit print the_tools
              (with_calls start [take_screenshot]) tt
              [output_of take_screenshot] tt eq_refl)
    as (update & Hexec & Hhistory).
  - repeat constructor.
  - exists update. split; [exact Hexec|]. rewrite Hhistory. split; reflexivity.
Defined.

Lemma unknown_tool_example :
  executeTools print the_tools (with_calls start [not_a_real_tool]) tt
  = (Ok empty_update, tt) /\
  exists outputs,
    Frame.executed the_tools tt [report "Scanning files" "🔍"; todo_call]
                   outputs tt /\
    List.map toolName outputs = ["message_update"; "todo"].
Proof.
  destruct (@Frame.unknown_calls_are_skipped unit print the_tools)
    as (Hrun & _ & Halone).
  split; [apply Halone; reflexivity|].
  exists (List.map output_of [report "Scanning files" "🔍"; todo_call]).
  split; [|reflexivity].
  apply (Hrun [report "Scanning files" "🔍"; not_a_real_tool; todo_call] tt
              (List.map output_of [report "Scanning files" "🔍"; todo_call]) tt).
  reflexivity.
Defined.

(** a model that proposes nothing *)
Definition idle : list BaseMessage -> Async unit AgentOutcome :=
  fun _ => ret {| tool_calls := Some [] |}.

Lemma planner_proposes :
  exists c,
    steps print planner the_tools (agent_node, start, tt) c /\
    node_of c = tools_node.
Proof.
  eexists. split.
  - eapply steps_step; [apply steps_refl|]. eapply step_agent. reflexivity.
  - reflexivity.
Qed.

Lemma idle_ends :
  exists c,
    steps print idle the_tools (agent_node, start, tt) c /\ node_of c = END.
Proof.
  eexists. split.
  - eapply steps_step; [apply steps_refl|]. eapply step_agent. reflexivity.
  - reflexivity.
Qed.

Lemma nodes_example :
  (exists c,
      steps print planner the_tools (agent_node, start, tt) c /\
      node_of c = tools_node /\ actions_of (state_of c) <> []) /\
  (exists c,
      steps print idle the_tools (agent_node, start, tt) c /\
      node_of c = END /\ actions_of (state_of c) = [] /\
      forall c', ~ step print idle the_tools c c').
Proof.
  split.
  - destruct planner_proposes as (c & Hsteps & Hnode).
    exists c. split; [exact Hsteps|]. split; [exact Hnode|].
    exact (proj1 (Frame.nodes_and_proposals Hsteps) Hnode).
  - destruct idle_ends as (c & Hsteps & Hnode).
    exists c. split; [exact Hsteps|]. split; [exact Hnode|].
    exact (proj2 (Frame.nodes_and_proposals Hsteps) Hnode).
Defined.

Lemma planner_is_plain history w outcome w' :
  planner history w = (Ok outcome, w') ->
  Forall Tasks.plain_todo (Tasks.calls_of outcome).
Proof.
  intros H. injection H as <- _. constructor; [|constructor].
  intros _. reflexivity.
Qed.

Lemma todo_run_example :
  exists c,
    steps print planner the_tools (agent_node, start, tt) c /\
    current_todo_list (state_of c) = get (args todo_call) "tasks" /\
    Aisdk5.in_progress_count (current_todo_list (state_of c)) <= 1.
Proof.
  destruct planner_run as (c & Hsteps & _ & Hlist).
  exists c. split; [exact Hsteps|]. split; [exact Hlist|].
  refine (proj2 (@Tasks.plain_todo_calls_keep_one_in_progress
                   unit any_url lower screen print planner
                   (agent_node, start, tt) c planner_is_plain _ _ Hsteps)).
  - constructor.
  - cbn. lia.
Defined.

(** ** The HTTP environment *)

Definition runtime : Environment.Config :=
  {| Environment.config_baseUrl := "https://runtime.example";
     Environment.config_apiKey := "";
     Environment.config_timeoutMs := inject_Z 65000 |}.

Definition answers (code : nat) (text : string)
  : Environment.Request -> Async unit Environment.Response :=
  fun _ => ret {| Environment.response_status := code;
                  Environment.content_type := Some "text/plain";
                  Environment.json := Throw SyntaxError;
                  Environment.text := Ok text |}.

Definition times_out : Environment.Request -> Async unit Environment.Response :=
  fun _ => throw (Error "TimeoutError" "The operation timed out.").

(** an engine that takes the whole numbers from 0 to 4294967295 *)
Definition delay (ms : Q) : Result unit :=
  if is_integer ms && Qle_bool 0 ms && Qle_bool ms (inject_Z 4294967295)
  then Ok tt
  else Throw (Error "RangeError" "The value of delay is out of range.").

Lemma executeTool_example :
  exists response,
    answers 200 "done" (Environment.request_of runtime "ls" (args list_files)) tt
    = (Ok response, tt) /\
    200 <= Environment.response_status response <= 299 /\
    VStr "done" = Environment.body_of response.
Proof.
  destruct (@EnvironmentFacts.executeTool_settles unit print (answers 200 "done")
              delay runtime "ls" (args list_files) tt
              (Environment.Returned (VStr "done")) tt eq_refl) as [H _].
  exact (H (VStr "done") eq_refl).
Defined.

Lemma rejection_message_example :
  exists error,
    Environment.executeTool print (answers 404 "") delay runtime "ls"
                            (args list_files) tt
    = (Environment.Rejected error, tt) /\
    Environment.message error = "Environment call failed with status 404".
Proof.
  destruct (@EnvironmentFacts.rejection_message unit print (answers 404 "")
              delay runtime "ls" (args list_files) tt _ tt eq_refl eq_refl eq_refl)
    as (error & Hexec & Htext & _).
  exists error. split; [exact Hexec|].
  rewrite (Htext "" eq_refl). reflexivity.
Defined.

Lemma http_failure_example :
  run_calls
    (Aisdk5.createAisdk5Tools any_url lower
       (Environment.api print times_out delay runtime))
    [todo_call; list_files] [] tt
  = run_calls
      (Aisdk5.createAisdk5Tools any_url lower
         (Environment.api print times_out delay runtime))
      [list_files]
      [{| toolName := "todo";
          result :=
            VObj [("error", VStr "Request timed out after 65000ms");
                  ("tool", VStr "todo");
                  ("input", JSON.document todo_data);
                  ("status", VStr "FAILURE")];
          input := args todo_call |}]
      tt.
Proof.
  exact (@EnvironmentFacts.http_failure_is_an_outcome unit print times_out
           delay any_url lower runtime "todo" todo_definition (args todo_call)
           todo_data [list_files] tt
           {| Environment.message := "Request timed out after 65000ms";
              Environment.status := None; Environment.details := None |}
           tt todo_in_registry eq_refl eq_refl eq_refl).
Defined.

End MoreExamples.
